(** * The V0 builder of PWGLF: a shallow embedding of [lambdakzeroBuilder]
      and [lambdakzeroV0DataLinkBuilder]

    The development follows the second revision of the builder found in
    [src/PWGLF/DataModel/LFStrangenessMLTables.h] (the task with the three
    process switches), and records the first revision where it differs.
    It goes on with the preselector, the label builder and the tag builder
    of the same file, with [StrangenessBuilder] of [src/unnamed/part_002],
    with the three grouping benchmarks, and with the collision ordering and
    the event counters of [straRecoStudy.cxx].

    Numbers.  [int], [long] and table indices are [Z].  A [float] or a
    [double] is represented by the rational number it denotes, so the
    comparisons of the source are the comparisons of [Q]; NaN and the
    infinities have no counterpart here.  What the builder reads from a
    table, a configurable or a collaborator is taken as the number it is.
    Where the builder itself stores a [double] into a [float], or computes
    in [float], the result is rounded by [to_float]: to the nearest
    single-precision number, ties to even, with gradual underflow and
    without a largest number, so that nothing is said about values beyond
    the range of [float].
    The [long] counters only ever grow by one per candidate; lemma
    [loop_v0stats_bounded] bounds them by the number of candidates handled,
    so no wrap-around can occur below 2^63 candidates. *)

From Stdlib Require Import ZArith QArith Qabs Qround Qfield Qpower List String Bool Lia Lqa.
From Stdlib Require Import Permutation Sorted.
Import ListNotations.

Set Implicit Arguments.

(** ** Comparisons on rationals, as booleans *)

(** [x < y], the test of the source's [if (x < y)]. *)
Definition Qltb (x y : Q) : bool :=
  (Qnum x * QDen y <? Qnum y * QDen x)%Z.

(** [x > y]. *)
Definition Qgtb (x y : Q) : bool := Qltb y x.

(** ** Binary floating-point numbers *)

(** The integer nearest to [q], the even one of two that are equally near. *)
Definition round_half_even (q : Q) : Z :=
  let f := Qfloor q in
  match Qcompare (q - inject_Z f) (1 # 2) with
  | Lt => f
  | Gt => (f + 1)%Z
  | Eq => if Z.even f then f else (f + 1)%Z
  end.

(** For [q > 0], the exponent [e] with [2 ^ e <= q < 2 ^ (e + 1)]. *)
Definition floor_log2 (q : Q) : Z :=
  let e := (Z.log2 (Qnum q) - Z.log2 (Z.pos (Qden q)))%Z in
  if Qle_bool (2 ^ e) q then e else (e - 1)%Z.

(** The number with [prec] significant bits and an exponent of at least
    [emin] that is nearest to [q], ties to even. *)
Definition round_binary (prec emin : Z) (q : Q) : Q :=
  if Qeq_bool q 0 then 0
  else
    let e := Z.max (floor_log2 (Qabs q)) emin in
    let quantum := 2 ^ (e - prec + 1) in
    Qred (inject_Z (round_half_even (q / quantum)) * quantum).

(** The conversion to [float], and the [float] result of an arithmetic
    operation whose exact result is the argument. *)
Definition to_float : Q -> Q := round_binary 24 (-126).

(** The same for [double]: the value of a literal such as [1e-5]. *)
Definition to_double : Q -> Q := round_binary 53 (-1022).

(** The largest [float], [FLT_MAX]. *)
Definition max_float : Q := inject_Z ((2 ^ 24 - 1) * 2 ^ 104).

(** ** The execution graph seen from [init] *)

(** [option.name] and [option.defaultValue.get<T>()] of a [ConfigParamSpec]. *)
Record ConfigParamSpec := {
  opt_name : string;
  defaultValue : Q
}.

(** [input.matcher.binding] of an [InputSpec]. *)
Record InputSpec := {
  binding : string
}.

Record DeviceSpec := {
  dev_name : string;
  inputs : list InputSpec;
  options : list ConfigParamSpec
}.

(** ** Configurables and process switches of [lambdakzeroBuilder] *)

Record Configurables := {
  createV0CovMats : Z;
  d_UseAutodetectMode : bool;
  mincrossedrows : Z;
  dcanegtopv : Q;
  dcapostopv : Q;
  v0cospa : Q;
  dcav0dau : Q;
  v0radius : Q;
  tpcrefit : Z;
  d_UseAbsDCA : bool;
  d_UseWeightedPCA : bool;
  useMatCorrType : Z;
  doprocessRun2 : bool;
  doprocessRun3 : bool;
  doprocessRun3associated : bool
}.

(** The values written in the declarations of the configurables and of the
    process switches. *)
Definition default_configurables : Configurables := {|
  createV0CovMats := -1;
  d_UseAutodetectMode := true;
  mincrossedrows := 70;
  dcanegtopv := 1 # 10;
  dcapostopv := 1 # 10;
  v0cospa := 995 # 1000;
  dcav0dau := 1;
  v0radius := 9 # 10;
  tpcrefit := 0;
  d_UseAbsDCA := true;
  d_UseWeightedPCA := false;
  useMatCorrType := 0;
  doprocessRun2 := true;
  doprocessRun3 := false;
  doprocessRun3associated := false
|}.

(** The same configuration with autodetect mode switched off by the user. *)
Definition manual_configurables : Configurables := {|
  createV0CovMats := -1;
  d_UseAutodetectMode := false;
  mincrossedrows := 70;
  dcanegtopv := 1 # 10;
  dcapostopv := 1 # 10;
  v0cospa := 995 # 1000;
  dcav0dau := 1;
  v0radius := 9 # 10;
  tpcrefit := 0;
  d_UseAbsDCA := true;
  d_UseWeightedPCA := false;
  useMatCorrType := 0;
  doprocessRun2 := true;
  doprocessRun3 := false;
  doprocessRun3associated := false
|}.

(** ** Self-configuration: the scan of the devices *)

(** The five [loosest_*] locals of [init], with the configurable
    [createV0CovMats] that the same loop may switch on. *)
Record Scan := {
  loosest_v0cospa : Q;
  loosest_dcav0dau : Q;
  loosest_dcapostopv : Q;
  loosest_dcanegtopv : Q;
  loosest_radius : Q;
  scan_createV0CovMats : Z
}.

(** The values the locals are declared with. *)
Definition scan_start (covmats : Z) : Scan := {|
  loosest_v0cospa := 100;
  loosest_dcav0dau := -100;
  loosest_dcapostopv := 100;
  loosest_dcanegtopv := 100;
  loosest_radius := 100;
  scan_createV0CovMats := covmats
|}.

Definition set_loosest_v0cospa (v : Q) (l : Scan) : Scan :=
  {| loosest_v0cospa := v; loosest_dcav0dau := loosest_dcav0dau l;
     loosest_dcapostopv := loosest_dcapostopv l;
     loosest_dcanegtopv := loosest_dcanegtopv l;
     loosest_radius := loosest_radius l;
     scan_createV0CovMats := scan_createV0CovMats l |}.

Definition set_loosest_dcav0dau (v : Q) (l : Scan) : Scan :=
  {| loosest_v0cospa := loosest_v0cospa l; loosest_dcav0dau := v;
     loosest_dcapostopv := loosest_dcapostopv l;
     loosest_dcanegtopv := loosest_dcanegtopv l;
     loosest_radius := loosest_radius l;
     scan_createV0CovMats := scan_createV0CovMats l |}.

Definition set_loosest_dcapostopv (v : Q) (l : Scan) : Scan :=
  {| loosest_v0cospa := loosest_v0cospa l;
     loosest_dcav0dau := loosest_dcav0dau l;
     loosest_dcapostopv := v;
     loosest_dcanegtopv := loosest_dcanegtopv l;
     loosest_radius := loosest_radius l;
     scan_createV0CovMats := scan_createV0CovMats l |}.

Definition set_loosest_dcanegtopv (v : Q) (l : Scan) : Scan :=
  {| loosest_v0cospa := loosest_v0cospa l;
     loosest_dcav0dau := loosest_dcav0dau l;
     loosest_dcapostopv := loosest_dcapostopv l;
     loosest_dcanegtopv := v;
     loosest_radius := loosest_radius l;
     scan_createV0CovMats := scan_createV0CovMats l |}.

Definition set_loosest_radius (v : Q) (l : Scan) : Scan :=
  {| loosest_v0cospa := loosest_v0cospa l;
     loosest_dcav0dau := loosest_dcav0dau l;
     loosest_dcapostopv := loosest_dcapostopv l;
     loosest_dcanegtopv := loosest_dcanegtopv l;
     loosest_radius := v;
     scan_createV0CovMats := scan_createV0CovMats l |}.

Definition set_scan_createV0CovMats (v : Z) (l : Scan) : Scan :=
  {| loosest_v0cospa := loosest_v0cospa l;
     loosest_dcav0dau := loosest_dcav0dau l;
     loosest_dcapostopv := loosest_dcapostopv l;
     loosest_dcanegtopv := loosest_dcanegtopv l;
     loosest_radius := loosest_radius l;
     scan_createV0CovMats := v |}.

(** [if (detected < loosest) loosest = detected;] *)
Definition keep_smaller (detected loosest : Q) : Q :=
  if Qltb detected loosest then detected else loosest.

(** [if (detected > loosest) loosest = detected;] *)
Definition keep_larger (detected loosest : Q) : Q :=
  if Qgtb detected loosest then detected else loosest.

(** The body of [for (auto const& option : device.options)]: five
    independent tests on the option's name. *)
Definition scan_option (l : Scan) (o : ConfigParamSpec) : Scan :=
  let l :=
    if String.eqb (opt_name o) "v0setting_cospa"
    then set_loosest_v0cospa (keep_smaller (defaultValue o) (loosest_v0cospa l)) l
    else l in
  let l :=
    if String.eqb (opt_name o) "v0setting_dcav0dau"
    then set_loosest_dcav0dau (keep_larger (defaultValue o) (loosest_dcav0dau l)) l
    else l in
  let l :=
    if String.eqb (opt_name o) "v0setting_dcapostopv"
    then set_loosest_dcapostopv (keep_smaller (defaultValue o) (loosest_dcapostopv l)) l
    else l in
  let l :=
    if String.eqb (opt_name o) "v0setting_dcanegtopv"
    then set_loosest_dcanegtopv (keep_smaller (defaultValue o) (loosest_dcanegtopv l)) l
    else l in
  if String.eqb (opt_name o) "v0setting_radius"
  then set_loosest_radius (keep_smaller (defaultValue o) (loosest_radius l)) l
  else l.

(** The guard in front of the option loop: the input is bound to the
    V0Datas table and the device is not the cascade builder. *)
Definition listens_to (device : DeviceSpec) (input : InputSpec) : bool :=
  String.eqb (binding input) "V0Datas"
  && negb (String.eqb (dev_name device) "multistrange-builder").

(** The body of [for (auto const& input : device.inputs)]. *)
Definition scan_input (device : DeviceSpec) (l : Scan) (input : InputSpec) : Scan :=
  if String.eqb (dev_name device) "lambdakzero-initializer"
  then l (* continue *)
  else
    let l :=
      if listens_to device input
      then fold_left scan_option (options device) l
      else l in
    if String.eqb (binding input) "V0Covs"
    then set_scan_createV0CovMats 1 l
    else l.

(** The body of [for (DeviceSpec const& device : workflows.devices)]. *)
Definition scan_device (l : Scan) (device : DeviceSpec) : Scan :=
  fold_left (scan_input device) (inputs device) l.

Definition scan_devices (devices : list DeviceSpec) (covmats : Z) : Scan :=
  fold_left scan_device devices (scan_start covmats).

(** The five assignments that close the autodetect block, and the value
    [createV0CovMats] has at that point. *)
Definition apply_scan (l : Scan) (c : Configurables) : Configurables := {|
  createV0CovMats := scan_createV0CovMats l;
  d_UseAutodetectMode := d_UseAutodetectMode c;
  mincrossedrows := mincrossedrows c;
  dcanegtopv := loosest_dcanegtopv l;
  dcapostopv := loosest_dcapostopv l;
  v0cospa := loosest_v0cospa l;
  dcav0dau := loosest_dcav0dau l;
  v0radius := loosest_radius l;
  tpcrefit := tpcrefit c;
  d_UseAbsDCA := d_UseAbsDCA c;
  d_UseWeightedPCA := d_UseWeightedPCA c;
  useMatCorrType := useMatCorrType c;
  doprocessRun2 := doprocessRun2 c;
  doprocessRun3 := doprocessRun3 c;
  doprocessRun3associated := doprocessRun3associated c
|}.

(** [if (d_UseAutodetectMode) { ... }] *)
Definition autodetect (c : Configurables) (devices : list DeviceSpec) : Configurables :=
  if d_UseAutodetectMode c
  then apply_scan (scan_devices devices (createV0CovMats c)) c
  else c.

(** ** The process-switch checks of [init]

    [LOGF(fatal, ...)] ends the run; the checks are made in the order of the
    source and the first one that fires decides the message. *)

Definition check_process_switches (c : Configurables) : option string :=
  if negb (doprocessRun2 c) && negb (doprocessRun3 c) && negb (doprocessRun3associated c)
  then Some "Neither processRun2, processRun3 nor processRun3associated enabled. Please choose one."%string
  else if doprocessRun2 c && doprocessRun3 c
  then Some "Cannot enable processRun2 and processRun3 at the same time. Please choose one."%string
  else if doprocessRun2 c && doprocessRun3associated c
  then Some "Cannot enable processRun2 and processRun3associated at the same time. Please choose one."%string
  else if doprocessRun3 c && doprocessRun3associated c
  then Some "Cannot enable processRun3 and processRun3associated at the same time. Please choose one."%string
  else None.

(** The first revision has two switches only. *)
Definition check_process_switches_rev1 (run2 run3 : bool) : option string :=
  if negb run2 && negb run3
  then Some "Neither processRun2 nor processRun3 enabled. Please choose one."%string
  else if run2 && run3
  then Some "Cannot enable processRun2 and processRun3 at the same time. Please choose one."%string
  else None.

(** ** What the builder reads from its collaborators *)

Definition array3 : Type := (Q * Q * Q)%type.

(** A [TrackParCov], through the three getters the builder calls. *)
Record TrackParCov := {
  getX : Q;
  getPxPyPzGlo : array3;
  getCovXYZPxPyPzGlo : list Q
}.

(** A row of the joined track table, through the columns the builder reads;
    [getTrackParCov] is the helper of [Common/Core/trackUtilities.h] applied
    to the row. *)
Record Track := {
  trackType : Z;
  tpcNClsCrossedRows : Z;
  itsNCls : Z;
  dcaXY : Q;
  getTrackParCov : TrackParCov
}.

Record Collision := {
  posX : Q;
  posY : Q;
  posZ : Q
}.

(** A row of the V0 index table; [posTrack] and [negTrack] stand for
    [posTrack_as<TTracksTo>()] and [negTrack_as<TTracksTo>()]. *)
Record V0 := {
  posTrackId : Z;
  negTrackId : Z;
  collisionId : Z;
  globalIndex : Z;
  posTrack : Track;
  negTrack : Track
}.

(** The state of the [DCAFitterN<2>] member after a [process] call, through
    the getters the builder calls on it. *)
Record FitState := {
  getTrack0 : TrackParCov;
  getTrack1 : TrackParCov;
  getPCACandidate : array3;
  getChi2AtPCACandidate : Q;
  calcPCACovMatrix : nat -> nat -> Q
}.

(** [fitter.process] either throws or returns a number of candidates; in
    both cases it leaves the fitter in some state. *)
Inductive FitOutcome :=
| FitThrows (after : FitState)
| FitReturns (nCand : Z) (after : FitState).

(** The code the builder calls and that is not part of its file: the
    flag mask [o2::aod::track::TPCrefit], the vertex fitter as configured by
    [init] and [initCCDB], [TMath::Sqrt], [RecoDecay::cpa] and
    [RecoDecay::sqrtSumOfSquares]. *)
Class External := {
  TPCrefit : Z;
  fitter_process : TrackParCov -> TrackParCov -> FitOutcome;
  TMath_Sqrt : Q -> Q;
  RecoDecay_cpa : array3 -> array3 -> array3 -> Q;
  RecoDecay_sqrtSumOfSquares : Q -> Q -> Q
}.

(** ** The members of [lambdakzeroBuilder] that change while it runs *)

Inductive v0step :=
| kV0All | kV0TPCrefit | kV0CrossedRows | kV0DCAxy | kV0DCADau | kV0CosPA | kV0Radius.

Definition step_index (k : v0step) : nat :=
  match k with
  | kV0All => 0 | kV0TPCrefit => 1 | kV0CrossedRows => 2 | kV0DCAxy => 3
  | kV0DCADau => 4 | kV0CosPA => 5 | kV0Radius => 6
  end.

Definition kNV0Steps : nat := 7.

(** The helper struct [v0candidate]. *)
Record V0Candidate := {
  posTrackX : Q;
  negTrackX : Q;
  pos : array3;
  posP : array3;
  negP : array3;
  dcaV0dau : Q;
  posDCAxy : Q;
  negDCAxy : Q;
  cosPA : Q;
  V0radius : Q;
  lambdaMass : Q;
  antilambdaMass : Q
}.

(** The helper struct [statisticsRegistry]. *)
Record StatisticsRegistry := {
  v0stats : list Z;
  exceptions : Z;
  eventCounter : Z
}.

(** The three histograms of [registry], as bin contents. *)
Record HistogramRegistry := {
  hEventCounter : Z;
  hCaughtExceptions : Z;
  hV0Criteria : list Z
}.

(** The fitter member: the state its getters read, and the number of
    [process] calls it has served. *)
Record DCAFitter := {
  fitter_state : FitState;
  process_calls : nat
}.

Record Builder := {
  v0candidate : V0Candidate;
  statisticsRegistry : StatisticsRegistry;
  registry : HistogramRegistry;
  lPositiveTrack : TrackParCov;
  lNegativeTrack : TrackParCov;
  fitter : DCAFitter
}.

Definition set_v0candidate (c : V0Candidate) (s : Builder) : Builder :=
  {| v0candidate := c; statisticsRegistry := statisticsRegistry s;
     registry := registry s; lPositiveTrack := lPositiveTrack s;
     lNegativeTrack := lNegativeTrack s; fitter := fitter s |}.

Definition set_statisticsRegistry (r : StatisticsRegistry) (s : Builder) : Builder :=
  {| v0candidate := v0candidate s; statisticsRegistry := r;
     registry := registry s; lPositiveTrack := lPositiveTrack s;
     lNegativeTrack := lNegativeTrack s; fitter := fitter s |}.

Definition set_registry (h : HistogramRegistry) (s : Builder) : Builder :=
  {| v0candidate := v0candidate s; statisticsRegistry := statisticsRegistry s;
     registry := h; lPositiveTrack := lPositiveTrack s;
     lNegativeTrack := lNegativeTrack s; fitter := fitter s |}.

Definition set_tracks (p n : TrackParCov) (s : Builder) : Builder :=
  {| v0candidate := v0candidate s; statisticsRegistry := statisticsRegistry s;
     registry := registry s; lPositiveTrack := p;
     lNegativeTrack := n; fitter := fitter s |}.

Definition set_fitter (f : DCAFitter) (s : Builder) : Builder :=
  {| v0candidate := v0candidate s; statisticsRegistry := statisticsRegistry s;
     registry := registry s; lPositiveTrack := lPositiveTrack s;
     lNegativeTrack := lNegativeTrack s; fitter := f |}.

(** [a[n]++] on an array held as a list. *)
Fixpoint incr_at (n : nat) (a : list Z) : list Z :=
  match a, n with
  | [], _ => []
  | x :: a', O => (x + 1)%Z :: a'
  | x :: a', S n' => x :: incr_at n' a'
  end.

(** [statisticsRegistry.v0stats[k]++] *)
Definition count_step (k : v0step) (s : Builder) : Builder :=
  let r := statisticsRegistry s in
  set_statisticsRegistry
    {| v0stats := incr_at (step_index k) (v0stats r);
       exceptions := exceptions r;
       eventCounter := eventCounter r |} s.

(** [statisticsRegistry.exceptions++] *)
Definition count_exception (s : Builder) : Builder :=
  let r := statisticsRegistry s in
  set_statisticsRegistry
    {| v0stats := v0stats r;
       exceptions := (exceptions r + 1)%Z;
       eventCounter := eventCounter r |} s.

(** [statisticsRegistry.eventCounter++] *)
Definition count_event (s : Builder) : Builder :=
  let r := statisticsRegistry s in
  set_statisticsRegistry
    {| v0stats := v0stats r;
       exceptions := exceptions r;
       eventCounter := (eventCounter r + 1)%Z |} s.

Definition resetHistos (s : Builder) : Builder :=
  set_statisticsRegistry
    {| v0stats := repeat 0%Z kNV0Steps; exceptions := 0; eventCounter := 0 |} s.

(** Bin [ii] of a histogram receives the weight [w]. *)
Fixpoint fill_bin (ii : nat) (w : Z) (h : list Z) : list Z :=
  match h, ii with
  | [], _ => []
  | x :: h', O => (x + w)%Z :: h'
  | x :: h', S i' => x :: fill_bin i' w h'
  end.

(** [for (ii = 0; ii < kNV0Steps; ii++) registry.fill(HIST("hV0Criteria"), ii, v0stats[ii])],
    counting [ii] up from [kNV0Steps - todo]. *)
Fixpoint fill_criteria (todo : nat) (stats h : list Z) : list Z :=
  match todo with
  | O => h
  | S todo' =>
      let ii := (kNV0Steps - todo)%nat in
      fill_criteria todo' stats (fill_bin ii (nth ii stats 0%Z) h)
  end.

Definition fillHistos (s : Builder) : Builder :=
  let r := statisticsRegistry s in
  let h := registry s in
  set_registry
    {| hEventCounter := (hEventCounter h + eventCounter r)%Z;
       hCaughtExceptions := (hCaughtExceptions h + exceptions r)%Z;
       hV0Criteria := fill_criteria kNV0Steps (v0stats r) (hV0Criteria h) |} s.

(** ** [buildV0Candidate] (second revision) *)

(** [!(track.trackType() & o2::aod::track::TPCrefit)] *)
Definition lacks_TPCrefit `{External} (t : Track) : bool :=
  (Z.land (trackType t) TPCrefit =? 0)%Z.

(** The two assignments under the comment "Initialize properly, please". *)
Definition store_dcaxy (p n : Q) (c : V0Candidate) : V0Candidate :=
  {| posTrackX := posTrackX c; negTrackX := negTrackX c; pos := pos c;
     posP := posP c; negP := negP c; dcaV0dau := dcaV0dau c;
     posDCAxy := p; negDCAxy := n;
     cosPA := cosPA c; V0radius := V0radius c;
     lambdaMass := lambdaMass c; antilambdaMass := antilambdaMass c |}.

(** [v0candidate.pos[i] = vtx[i]] for the three coordinates of a vertex in
    double precision. *)
Definition to_float3 (a : array3) : array3 :=
  let '(a0, a1, a2) := a in (to_float a0, to_float a1, to_float a2).

(** The assignments between the fit and the first topological test: track
    positions, momenta, decay vertex and distance between the daughters; the
    vertex and the square root are in double precision, the members they go
    to are [float]. *)
Definition store_fit `{External} (f : FitState) (c : V0Candidate) : V0Candidate :=
  {| posTrackX := getX (getTrack0 f); negTrackX := getX (getTrack1 f);
     pos := to_float3 (getPCACandidate f);
     posP := getPxPyPzGlo (getTrack0 f); negP := getPxPyPzGlo (getTrack1 f);
     dcaV0dau := to_float (TMath_Sqrt (getChi2AtPCACandidate f));
     posDCAxy := posDCAxy c; negDCAxy := negDCAxy c;
     cosPA := cosPA c; V0radius := V0radius c;
     lambdaMass := lambdaMass c; antilambdaMass := antilambdaMass c |}.

Definition store_cosPA (v : Q) (c : V0Candidate) : V0Candidate :=
  {| posTrackX := posTrackX c; negTrackX := negTrackX c; pos := pos c;
     posP := posP c; negP := negP c; dcaV0dau := dcaV0dau c;
     posDCAxy := posDCAxy c; negDCAxy := negDCAxy c;
     cosPA := v; V0radius := V0radius c;
     lambdaMass := lambdaMass c; antilambdaMass := antilambdaMass c |}.

Definition store_V0radius (v : Q) (c : V0Candidate) : V0Candidate :=
  {| posTrackX := posTrackX c; negTrackX := negTrackX c; pos := pos c;
     posP := posP c; negP := negP c; dcaV0dau := dcaV0dau c;
     posDCAxy := posDCAxy c; negDCAxy := negDCAxy c;
     cosPA := cosPA c; V0radius := v;
     lambdaMass := lambdaMass c; antilambdaMass := antilambdaMass c |}.

(** The three sums [posP[i] + negP[i]], made in [float]. *)
Definition add3 (a b : array3) : array3 :=
  let '(a0, a1, a2) := a in
  let '(b0, b1, b2) := b in
  (to_float (a0 + b0), to_float (a1 + b1), to_float (a2 + b2)).

(** The [RecoDecay::cpa] call, a [double]: primary vertex, decay vertex, sum
    of the daughters' momenta. *)
Definition pointing_cosine `{External} (collision : Collision) (c : V0Candidate) : Q :=
  RecoDecay_cpa (posX collision, posY collision, posZ collision)
                (pos c) (add3 (posP c) (negP c)).

(** [RecoDecay::sqrtSumOfSquares(v0candidate.pos[0], v0candidate.pos[1])],
    a [double]. *)
Definition transverse_radius `{External} (c : V0Candidate) : Q :=
  let '(x, y, _) := pos c in RecoDecay_sqrtSumOfSquares x y.

(** The part of [buildV0Candidate] that follows a [process] call which
    returned a non-zero number of candidates.  The members [cosPA] and
    [V0radius] are [float]: each test reads the rounded value. *)
Definition select_fitted `{External} (cfg : Configurables) (collision : Collision)
    (s : Builder) : bool * Builder :=
  let f := fitter_state (fitter s) in
  let s := set_v0candidate (store_fit f (v0candidate s)) s in
  let s := set_tracks (getTrack0 f) (getTrack1 f) s in
  if Qgtb (dcaV0dau (v0candidate s)) (dcav0dau cfg) then (false, s) else
  let s := count_step kV0DCADau s in
  let s := set_v0candidate
             (store_cosPA (to_float (pointing_cosine collision (v0candidate s)))
                          (v0candidate s)) s in
  if Qltb (cosPA (v0candidate s)) (v0cospa cfg) then (false, s) else
  let s := count_step kV0CosPA s in
  let s := set_v0candidate
             (store_V0radius (to_float (transverse_radius (v0candidate s)))
                             (v0candidate s)) s in
  if Qltb (V0radius (v0candidate s)) (v0radius cfg) then (false, s) else
  let s := count_step kV0Radius s in
  (true, s).

(** [try { nCand = fitter.process(...); } catch (...) { ... return false; }]
    followed by [if (nCand == 0) return false;]. *)
Definition fit_and_select `{External} (cfg : Configurables) (collision : Collision)
    (s : Builder) : bool * Builder :=
  let calls := S (process_calls (fitter s)) in
  match fitter_process (lPositiveTrack s) (lNegativeTrack s) with
  | FitThrows f =>
      let s := set_fitter {| fitter_state := f; process_calls := calls |} s in
      (false, count_exception s)
  | FitReturns nCand f =>
      let s := set_fitter {| fitter_state := f; process_calls := calls |} s in
      if (nCand =? 0)%Z then (false, s) else select_fitted cfg collision s
  end.

Definition buildV0Candidate `{External} (cfg : Configurables) (collision : Collision)
    (posTrack negTrack : Track) (s : Builder) : bool * Builder :=
  let s := count_step kV0All s in
  if negb (tpcrefit cfg =? 0)%Z && lacks_TPCrefit posTrack then (false, s) else
  if negb (tpcrefit cfg =? 0)%Z && lacks_TPCrefit negTrack then (false, s) else
  let s := count_step kV0TPCrefit s in
  if (tpcNClsCrossedRows posTrack <? mincrossedrows cfg)%Z
     || (tpcNClsCrossedRows negTrack <? mincrossedrows cfg)%Z
  then (false, s) else
  let s := count_step kV0CrossedRows s in
  if Qltb (Qabs (dcaXY posTrack)) (dcapostopv cfg)
     || Qltb (Qabs (dcaXY negTrack)) (dcanegtopv cfg)
  then (false, s) else
  let s := set_v0candidate
             (store_dcaxy (dcaXY posTrack) (dcaXY negTrack) (v0candidate s)) s in
  let s := count_step kV0DCAxy s in
  let s := set_tracks (getTrackParCov posTrack) (getTrackParCov negTrack) s in
  fit_and_select cfg collision s.

(** ** [buildStrangenessTables] (second revision) *)

(** A row of the V0 data table, in the order of the arguments of
    [v0data(...)]. *)
Record V0DataRow := {
  row_posTrackId : Z;
  row_negTrackId : Z;
  row_collisionId : Z;
  row_v0Id : Z;
  row_posX : Q;
  row_negX : Q;
  row_pos : array3;
  row_posP : array3;
  row_negP : array3;
  row_dcaV0dau : Q;
  row_posDCAxy : Q;
  row_negDCAxy : Q
}.

(** A row of the covariance table. *)
Record V0CovRow := {
  positionCovariance : list Q;
  momentumCovariance : list Q
}.

Definition v0data_row (v : V0) (c : V0Candidate) : V0DataRow := {|
  row_posTrackId := posTrackId v;
  row_negTrackId := negTrackId v;
  row_collisionId := collisionId v;
  row_v0Id := globalIndex v;
  row_posX := posTrackX c;
  row_negX := negTrackX c;
  row_pos := pos c;
  row_posP := posP c;
  row_negP := negP c;
  row_dcaV0dau := dcaV0dau c;
  row_posDCAxy := posDCAxy c;
  row_negDCAxy := negDCAxy c
|}.

Definition MomInd : list nat := [9; 13; 14; 18; 19; 20]%nat.

(** The block under [if (createV0CovMats)]: the matrix of the fitter is in
    double precision, the two arrays written are [float]. *)
Definition v0covs_row (s : Builder) : V0CovRow :=
  let covVtxV := calcPCACovMatrix (fitter_state (fitter s)) in
  let covTpositive := getCovXYZPxPyPzGlo (lPositiveTrack s) in
  let covTnegative := getCovXYZPxPyPzGlo (lNegativeTrack s) in
  {| positionCovariance :=
       map to_float
         [covVtxV 0 0; covVtxV 1 0; covVtxV 1 1; covVtxV 2 0; covVtxV 2 1; covVtxV 2 2]%nat;
     momentumCovariance :=
       map (fun i => to_float (nth i covTpositive 0 + nth i covTnegative 0)) MomInd |}.

(** What one call hands to the two output tables. *)
Record Produced := {
  v0data : list V0DataRow;
  v0covs : list V0CovRow
}.

(** [for (auto& V0 : V0s) { ... }] *)
Fixpoint build_loop `{External} (cfg : Configurables) (collision : Collision)
    (V0s : list V0) (s : Builder) : Produced * Builder :=
  match V0s with
  | [] => ({| v0data := []; v0covs := [] |}, s)
  | v :: rest =>
      let '(validCandidate, s) :=
        buildV0Candidate cfg collision (posTrack v) (negTrack v) s in
      if negb validCandidate then build_loop cfg collision rest s (* continue *)
      else
        let row := v0data_row v (v0candidate s) in
        let covs :=
          if negb (createV0CovMats cfg =? 0)%Z then [v0covs_row s] else [] in
        let '(out, s') := build_loop cfg collision rest s in
        ({| v0data := row :: v0data out; v0covs := covs ++ v0covs out |}, s')
  end.

Definition buildStrangenessTables `{External} (cfg : Configurables)
    (collision : Collision) (V0s : list V0) (s : Builder) : Produced * Builder :=
  let s := count_event s in
  let '(out, s) := build_loop cfg collision V0s s in
  let s := fillHistos s in
  let s := resetHistos s in
  (out, s).

(** ** [init] *)

Inductive InitResult :=
| Fatal (message : string)
| Ready (cfg : Configurables) (s : Builder).

(** [init]: the counters are reset, the process switches are checked, the
    thresholds are negotiated.  The settings of the conditions database and
    of the fitter are left to [External]. *)
Definition init (cfg : Configurables) (devices : list DeviceSpec) (s : Builder) : InitResult :=
  let s := resetHistos s in
  match check_process_switches cfg with
  | Some message => Fatal message
  | None => Ready (autodetect cfg devices) s
  end.

(** ** [lambdakzeroV0DataLinkBuilder::process] *)

Module lambdakzeroV0DataLinkBuilder.

(** A [std::vector<int>]: its elements (as many as its size) and its
    capacity. *)
Record vector := {
  elements : list Z;
  capacity : nat
}.

Definition vector_empty : vector := {| elements := []; capacity := 0 |}.

Definition vector_size (v : vector) : nat := List.length (elements v).

(** [v.reserve(n)] changes the capacity, never the size. *)
Definition vector_reserve (n : nat) (v : vector) : vector :=
  {| elements := elements v; capacity := Nat.max n (capacity v) |}.

Fixpoint list_set (i : nat) (x : Z) (l : list Z) : list Z :=
  match l, i with
  | [], _ => []
  | _ :: l', O => x :: l'
  | y :: l', S i' => y :: list_set i' x l'
  end.

(** [v[i] = x]: defined for [0 <= i < v.size()] only. *)
Definition vector_write (i : Z) (x : Z) (v : vector) : option vector :=
  if (0 <=? i)%Z && (i <? Z.of_nat (vector_size v))%Z
  then Some {| elements := list_set (Z.to_nat i) x (elements v); capacity := capacity v |}
  else None.

(** [v[i]] read: defined for [0 <= i < v.size()] only. *)
Definition vector_read (i : Z) (v : vector) : option Z :=
  if (0 <=? i)%Z && (i <? Z.of_nat (vector_size v))%Z
  then nth_error (elements v) (Z.to_nat i)
  else None.

(** A row of the V0Datas table, through the two columns [process] reads. *)
Record V0Data := {
  v0Id : Z;
  v0data_globalIndex : Z
}.

(** [for (int ii = 0; ii < n; ii++) lIndices[ii] = -1;], counting [ii] up
    from [n - todo]. *)
Fixpoint fill_minus_one (n todo : nat) (lIndices : vector) : option vector :=
  match todo with
  | O => Some lIndices
  | S todo' =>
      match vector_write (Z.of_nat (n - todo)) (-1) lIndices with
      | Some lIndices' => fill_minus_one n todo' lIndices'
      | None => None
      end
  end.

(** [for (auto& v0data : v0datatable) lIndices[v0data.v0Id()] = v0data.globalIndex();] *)
Fixpoint record_links (v0datatable : list V0Data) (lIndices : vector) : option vector :=
  match v0datatable with
  | [] => Some lIndices
  | d :: rest =>
      match vector_write (v0Id d) (v0data_globalIndex d) lIndices with
      | Some lIndices' => record_links rest lIndices'
      | None => None
      end
  end.

(** [for (int ii = 0; ii < n; ii++) v0dataLink(lIndices[ii]);] *)
Fixpoint emit_links (n todo : nat) (lIndices : vector) : option (list Z) :=
  match todo with
  | O => Some []
  | S todo' =>
      match vector_read (Z.of_nat (n - todo)) lIndices with
      | Some x =>
          match emit_links n todo' lIndices with
          | Some out => Some (x :: out)
          | None => None
          end
      | None => None
      end
  end.

(** [process]: [None] when an access falls outside the vector's size, the
    rows of the link table otherwise. *)
Definition process (v0table : list V0) (v0datatable : list V0Data) : option (list Z) :=
  let n := List.length v0table in
  let lIndices := vector_reserve n vector_empty in
  match fill_minus_one n n lIndices with
  | None => None
  | Some lIndices =>
      match record_links v0datatable lIndices with
      | None => None
      | Some lIndices => emit_links n n lIndices
      end
  end.

End lambdakzeroV0DataLinkBuilder.

(** ** [buildV0Candidate] in the first revision

    The first revision has no crossed-rows stage, computes the distance of
    each daughter to the primary vertex by a propagation of its own, and
    keeps two arrays of quality counters. *)

Module FirstRevision.

Inductive v0step :=
| kV0All | kV0TPCrefit | kV0DCAxy | kV0DCADau | kV0CosPA | kV0Radius.

Definition step_index (k : v0step) : nat :=
  match k with
  | kV0All => 0 | kV0TPCrefit => 1 | kV0DCAxy => 2
  | kV0DCADau => 3 | kV0CosPA => 4 | kV0Radius => 5
  end.

Definition kNV0Steps : nat := 6.

(** [Propagator::propagateToDCABxByBz] applied to [getTrackPar(track)] and
    the vertex of the collision: what the call leaves in [dcaInfo], given
    what [dcaInfo] held. *)
Class Propagator := {
  propagateToDCABxByBz : Collision -> Track -> Q * Q -> Q * Q
}.

(** The members [posITSclu] and [negITSclu] of [statisticsRegistry]. *)
Record TrackQA := {
  posITSclu : list Z;
  negITSclu : list Z
}.

Definition count_step (k : v0step) (s : Builder) : Builder :=
  let r := statisticsRegistry s in
  set_statisticsRegistry
    {| v0stats := incr_at (step_index k) (v0stats r);
       exceptions := exceptions r;
       eventCounter := eventCounter r |} s.

(** [if (track.itsNCls() < 10) clu[track.itsNCls()]++;] *)
Definition count_clusters (t : Track) (clu : list Z) : list Z :=
  if (itsNCls t <? 10)%Z then incr_at (Z.to_nat (itsNCls t)) clu else clu.

Definition select_fitted `{External} (cfg : Configurables) (d_doTrackQA : bool)
    (collision : Collision) (posTrack negTrack : Track)
    (s : Builder) (qa : TrackQA) : bool * (Builder * TrackQA) :=
  let f := fitter_state (fitter s) in
  let s := set_v0candidate (store_fit f (v0candidate s)) s in
  let s := set_tracks (getTrack0 f) (getTrack1 f) s in
  if Qgtb (dcaV0dau (v0candidate s)) (dcav0dau cfg) then (false, (s, qa)) else
  let s := count_step kV0DCADau s in
  let s := set_v0candidate
             (store_cosPA (to_float (pointing_cosine collision (v0candidate s)))
                          (v0candidate s)) s in
  if Qltb (cosPA (v0candidate s)) (v0cospa cfg) then (false, (s, qa)) else
  let s := count_step kV0CosPA s in
  let s := set_v0candidate
             (store_V0radius (to_float (transverse_radius (v0candidate s)))
                             (v0candidate s)) s in
  if Qltb (V0radius (v0candidate s)) (v0radius cfg) then (false, (s, qa)) else
  let s := count_step kV0Radius s in
  let qa :=
    if d_doTrackQA
    then {| posITSclu := count_clusters posTrack (posITSclu qa);
            negITSclu := count_clusters negTrack (negITSclu qa) |}
    else qa in
  (true, (s, qa)).

Definition fit_and_select `{External} (cfg : Configurables) (d_doTrackQA : bool)
    (collision : Collision) (posTrack negTrack : Track)
    (s : Builder) (qa : TrackQA) : bool * (Builder * TrackQA) :=
  let calls := S (process_calls (fitter s)) in
  match fitter_process (lPositiveTrack s) (lNegativeTrack s) with
  | FitThrows f =>
      let s := set_fitter {| fitter_state := f; process_calls := calls |} s in
      (false, (count_exception s, qa))
  | FitReturns nCand f =>
      let s := set_fitter {| fitter_state := f; process_calls := calls |} s in
      if (nCand =? 0)%Z then (false, (s, qa))
      else select_fitted cfg d_doTrackQA collision posTrack negTrack s qa
  end.

(** [collision] is [V0.collision()]; [dcaInfo] is the content of the local
    array of that name when the function is entered. *)
Definition buildV0Candidate `{External} `{Propagator} (cfg : Configurables)
    (d_doTrackQA : bool) (collision : Collision) (dcaInfo : Q * Q)
    (posTrack negTrack : Track) (s : Builder) (qa : TrackQA)
    : bool * (Builder * TrackQA) :=
  let s := count_step kV0All s in
  if negb (tpcrefit cfg =? 0)%Z && lacks_TPCrefit posTrack then (false, (s, qa)) else
  if negb (tpcrefit cfg =? 0)%Z && lacks_TPCrefit negTrack then (false, (s, qa)) else
  let s := count_step kV0TPCrefit s in
  let dcaInfo := propagateToDCABxByBz collision posTrack dcaInfo in
  let posTrackdcaXY := fst dcaInfo in
  let dcaInfo := propagateToDCABxByBz collision negTrack dcaInfo in
  let negTrackdcaXY := fst dcaInfo in
  if Qltb (Qabs posTrackdcaXY) (dcapostopv cfg)
     || Qltb (Qabs negTrackdcaXY) (dcanegtopv cfg)
  then (false, (s, qa)) else
  let s := set_v0candidate
             (store_dcaxy posTrackdcaXY negTrackdcaXY (v0candidate s)) s in
  let s := count_step kV0DCAxy s in
  let s := set_tracks (getTrackParCov posTrack) (getTrackParCov negTrack) s in
  fit_and_select cfg d_doTrackQA collision posTrack negTrack s qa.

(** The two distances the prefilter compares with the thresholds. *)
Definition posTrackdcaXY `{Propagator} (collision : Collision) (dcaInfo : Q * Q)
    (posTrack : Track) : Q :=
  fst (propagateToDCABxByBz collision posTrack dcaInfo).

Definition negTrackdcaXY `{Propagator} (collision : Collision) (dcaInfo : Q * Q)
    (posTrack negTrack : Track) : Q :=
  fst (propagateToDCABxByBz collision negTrack
         (propagateToDCABxByBz collision posTrack dcaInfo)).

End FirstRevision.

(** ** Vocabulary for the statements *)

(** [r] is an element of [l] below every element of [l]. *)
Definition is_least (r : Q) (l : list Q) : Prop :=
  In r l /\ forall d, In d l -> r <= d.

(** [r] is an element of [l] above every element of [l]. *)
Definition is_greatest (r : Q) (l : list Q) : Prop :=
  In r l /\ forall d, In d l -> d <= r.

(** The defaults given under [name] in a list of options. *)
Definition named (name : string) (opts : list ConfigParamSpec) : list Q :=
  map defaultValue (filter (fun o => String.eqb (opt_name o) name) opts).

(** The device has an input bound to the V0Datas table. *)
Definition subscribed_to_V0Datas (device : DeviceSpec) : bool :=
  existsb (fun input => String.eqb (binding input) "V0Datas") (inputs device).

(** The defaults declared under [name] by the devices subscribed to the
    V0Datas table. *)
Definition declared (name : string) (devices : list DeviceSpec) : list Q :=
  flat_map (fun device =>
              if subscribed_to_V0Datas device then named name (options device) else [])
           devices.

(** The defaults under [name] that the scan of [init] reads: one copy per
    input bound to V0Datas, of every device that is neither the initializer
    nor the cascade builder. *)
Definition heard_on (name : string) (device : DeviceSpec) (input : InputSpec) : list Q :=
  if String.eqb (dev_name device) "lambdakzero-initializer" then []
  else if listens_to device input then named name (options device) else [].

Definition heard (name : string) (devices : list DeviceSpec) : list Q :=
  flat_map (fun device => flat_map (heard_on name device) (inputs device)) devices.

(** The counters satisfy [v0stats[i] >= v0stats[i+1]] along the array. *)
Fixpoint non_increasing (a : list Z) : Prop :=
  match a with
  | x :: ((y :: _) as a') => (x >= y)%Z /\ non_increasing a'
  | _ => True
  end.

(** The array [a] with its first [k] entries incremented. *)
Fixpoint incr_prefix (k : nat) (a : list Z) : list Z :=
  match k, a with
  | S k', x :: a' => (x + 1)%Z :: incr_prefix k' a'
  | _, _ => a
  end.

(** The three gates in front of the fit: TPC refit, crossed rows, DCA to the
    primary vertex. *)
Definition passes_refit `{External} (cfg : Configurables) (p n : Track) : bool :=
  negb (negb (tpcrefit cfg =? 0)%Z && (lacks_TPCrefit p || lacks_TPCrefit n)).

Definition passes_crossed_rows (cfg : Configurables) (p n : Track) : bool :=
  negb ((tpcNClsCrossedRows p <? mincrossedrows cfg)%Z
        || (tpcNClsCrossedRows n <? mincrossedrows cfg)%Z).

Definition passes_dcaxy (cfg : Configurables) (p n : Track) : bool :=
  negb (Qltb (Qabs (dcaXY p)) (dcapostopv cfg)
        || Qltb (Qabs (dcaXY n)) (dcanegtopv cfg)).

Definition reaches_fit `{External} (cfg : Configurables) (p n : Track) : bool :=
  passes_refit cfg p n && passes_crossed_rows cfg p n && passes_dcaxy cfg p n.

(** The two gates in front of the fit in the first revision. *)
Definition rev1_reaches_fit `{External} `{FirstRevision.Propagator}
    (cfg : Configurables) (collision : Collision) (dcaInfo : Q * Q)
    (p n : Track) : bool :=
  passes_refit cfg p n
  && negb (Qltb (Qabs (FirstRevision.posTrackdcaXY collision dcaInfo p)) (dcapostopv cfg)
           || Qltb (Qabs (FirstRevision.negTrackdcaXY collision dcaInfo p n))
                   (dcanegtopv cfg)).

(** The candidate a fit leaves in [v0candidate], computed from the inputs
    alone: the fields read by [v0data(...)] do not depend on what the struct
    held before. *)
Definition fitted_candidate `{External} (p n : Track) (f : FitState) : V0Candidate :=
  {| posTrackX := getX (getTrack0 f); negTrackX := getX (getTrack1 f);
     pos := to_float3 (getPCACandidate f);
     posP := getPxPyPzGlo (getTrack0 f); negP := getPxPyPzGlo (getTrack1 f);
     dcaV0dau := to_float (TMath_Sqrt (getChi2AtPCACandidate f));
     posDCAxy := dcaXY p; negDCAxy := dcaXY n;
     cosPA := 0; V0radius := 0; lambdaMass := 0; antilambdaMass := 0 |}.

(** The three topological tests after the fit, on such a candidate: the
    cosine and the radius are tested as the [float] they are stored in. *)
Definition passes_topology `{External} (cfg : Configurables) (collision : Collision)
    (c : V0Candidate) : bool :=
  negb (Qgtb (dcaV0dau c) (dcav0dau cfg))
  && negb (Qltb (to_float (pointing_cosine collision c)) (v0cospa cfg))
  && negb (Qltb (to_float (transverse_radius c)) (v0radius cfg)).

(** Where the evaluation of a candidate ends. *)
Inductive Verdict :=
| StopRefit | StopCrossedRows | StopDCAxy
| StopException | StopNoCandidate
| StopDCADau | StopCosPA | StopRadius
| Accepted.

(** The verdict on a pair of tracks, computed from the configuration and the
    inputs alone. *)
Definition verdict `{External} (cfg : Configurables) (collision : Collision)
    (p n : Track) : Verdict :=
  if negb (passes_refit cfg p n) then StopRefit
  else if negb (passes_crossed_rows cfg p n) then StopCrossedRows
  else if negb (passes_dcaxy cfg p n) then StopDCAxy
  else
    match fitter_process (getTrackParCov p) (getTrackParCov n) with
    | FitThrows _ => StopException
    | FitReturns nCand f =>
        if (nCand =? 0)%Z then StopNoCandidate
        else
          let c := fitted_candidate p n f in
          if Qgtb (dcaV0dau c) (dcav0dau cfg) then StopDCADau
          else if Qltb (to_float (pointing_cosine collision c)) (v0cospa cfg)
          then StopCosPA
          else if Qltb (to_float (transverse_radius c)) (v0radius cfg) then StopRadius
          else Accepted
    end.

(** The number of stage counters a verdict stands for. *)
Definition stages_reached (v : Verdict) : nat :=
  match v with
  | StopRefit => 1
  | StopCrossedRows => 2
  | StopDCAxy => 3
  | StopException | StopNoCandidate | StopDCADau => 4
  | StopCosPA => 5
  | StopRadius => 6
  | Accepted => 7
  end.

Definition is_accepted (v : Verdict) : bool :=
  match v with Accepted => true | _ => false end.

Definition is_exception (v : Verdict) : bool :=
  match v with StopException => true | _ => false end.

(** The verdicts for which [fitter.process] was called. *)
Definition fit_invoked (v : Verdict) : bool :=
  match v with
  | StopRefit | StopCrossedRows | StopDCAxy => false
  | _ => true
  end.

(** The rows a V0 contributes, as a function of the configuration, the
    collision and the V0 alone. *)
Definition expected_rows `{External} (cfg : Configurables) (collision : Collision)
    (v : V0) : Produced :=
  let nothing := {| v0data := []; v0covs := [] |} in
  if reaches_fit cfg (posTrack v) (negTrack v) then
    match fitter_process (getTrackParCov (posTrack v)) (getTrackParCov (negTrack v)) with
    | FitThrows _ => nothing
    | FitReturns nCand f =>
        let c := fitted_candidate (posTrack v) (negTrack v) f in
        if negb (nCand =? 0)%Z && passes_topology cfg collision c then
          {| v0data := [v0data_row v c];
             v0covs :=
               if negb (createV0CovMats cfg =? 0)%Z then
                 [{| positionCovariance :=
                       map to_float
                         [calcPCACovMatrix f 0 0; calcPCACovMatrix f 1 0;
                          calcPCACovMatrix f 1 1; calcPCACovMatrix f 2 0;
                          calcPCACovMatrix f 2 1; calcPCACovMatrix f 2 2]%nat;
                     momentumCovariance :=
                       map (fun i =>
                              to_float (nth i (getCovXYZPxPyPzGlo (getTrack0 f)) 0
                                        + nth i (getCovXYZPxPyPzGlo (getTrack1 f)) 0))
                           MomInd |}]
               else [] |}
        else nothing
    end
  else nothing.

Definition append_produced (a b : Produced) : Produced :=
  {| v0data := v0data a ++ v0data b; v0covs := v0covs a ++ v0covs b |}.

Fixpoint expected_output `{External} (cfg : Configurables) (collision : Collision)
    (V0s : list V0) : Produced :=
  match V0s with
  | [] => {| v0data := []; v0covs := [] |}
  | v :: rest =>
      append_produced (expected_rows cfg collision v) (expected_output cfg collision rest)
  end.

(** The number of process switches that are on. *)
Definition enabled_switches (c : Configurables) : nat :=
  ((if doprocessRun2 c then 1 else 0)
   + (if doprocessRun3 c then 1 else 0)
   + (if doprocessRun3associated c then 1 else 0))%nat.

Definition enabled_switches_rev1 (run2 run3 : bool) : nat :=
  ((if run2 then 1 else 0) + (if run3 then 1 else 0))%nat.

(** What one evaluation does to the builder, tabulated by the verdict. *)
Record Evaluated `{External} (cfg : Configurables) (collision : Collision)
    (p n : Track) (s : Builder) (ok : bool) (s' : Builder) : Prop := {
  ev_ok : ok = is_accepted (verdict cfg collision p n);
  ev_stats : v0stats (statisticsRegistry s')
             = incr_prefix (stages_reached (verdict cfg collision p n))
                           (v0stats (statisticsRegistry s));
  ev_exceptions : exceptions (statisticsRegistry s')
                  = (exceptions (statisticsRegistry s)
                     + if is_exception (verdict cfg collision p n) then 1 else 0)%Z;
  ev_events : eventCounter (statisticsRegistry s') = eventCounter (statisticsRegistry s);
  ev_registry : registry s' = registry s;
  ev_calls : process_calls (fitter s')
             = (process_calls (fitter s)
                + if fit_invoked (verdict cfg collision p n) then 1 else 0)%nat;
  ev_fitter : fit_invoked (verdict cfg collision p n) = false -> fitter s' = fitter s
}.

(** Counter [k] of the array. *)
Definition stat (k : v0step) (a : list Z) : Z := nth (step_index k) a 0%Z.

(** The pointing cosine and the transverse radius of a row of the output
    table: the two calls of [RecoDecay] on the vertex and the momenta the row
    holds, in double precision. *)
Definition row_pointing_cosine `{External} (collision : Collision) (r : V0DataRow) : Q :=
  RecoDecay_cpa (posX collision, posY collision, posZ collision)
                (row_pos r) (add3 (row_posP r) (row_negP r)).

Definition row_radius `{External} (r : V0DataRow) : Q :=
  let '(x, y, _) := row_pos r in RecoDecay_sqrtSumOfSquares x y.

(** The five topological cuts on a row, with the cosine and the radius
    rounded to [float] as the builder tests them. *)
Definition satisfies_cuts `{External} (cfg : Configurables) (collision : Collision)
    (r : V0DataRow) : Prop :=
  row_dcaV0dau r <= dcav0dau cfg
  /\ v0cospa cfg <= to_float (row_pointing_cosine collision r)
  /\ v0radius cfg <= to_float (row_radius r)
  /\ dcapostopv cfg <= Qabs (row_posDCAxy r)
  /\ dcanegtopv cfg <= Qabs (row_negDCAxy r).

(** The five cuts on the cosine and the radius themselves. *)
Definition satisfies_cuts_unrounded `{External} (cfg : Configurables)
    (collision : Collision) (r : V0DataRow) : Prop :=
  row_dcaV0dau r <= dcav0dau cfg
  /\ v0cospa cfg <= row_pointing_cosine collision r
  /\ v0radius cfg <= row_radius r
  /\ dcapostopv cfg <= Qabs (row_posDCAxy r)
  /\ dcanegtopv cfg <= Qabs (row_negDCAxy r).

(** How far the rounding to [float] can move [q]: one part in 2^24 of it,
    and half the least positive [float]. *)
Definition rounding_slack (q : Q) : Q := Qabs q * (1 # 2 ^ 24) + (1 # 2 ^ 150).

(** A V0 fails one of the five cuts as the builder tests them: a daughter
    too close to the primary vertex, or a fitted vertex with daughters too
    far apart, pointing away from the primary vertex, or too close to the
    beam axis. *)
Definition fails_a_cut `{External} (cfg : Configurables) (collision : Collision)
    (v : V0) : Prop :=
  Qabs (dcaXY (posTrack v)) < dcapostopv cfg
  \/ Qabs (dcaXY (negTrack v)) < dcanegtopv cfg
  \/ exists nCand f,
       fitter_process (getTrackParCov (posTrack v)) (getTrackParCov (negTrack v))
       = FitReturns nCand f
       /\ let c := fitted_candidate (posTrack v) (negTrack v) f in
          dcav0dau cfg < dcaV0dau c
          \/ to_float (pointing_cosine collision c) < v0cospa cfg
          \/ to_float (transverse_radius c) < v0radius cfg.

(** ** A small instance of [External], to run the definitions *)

(** Exact on quotients of perfect squares. *)
Definition sample_sqrt (q : Q) : Q :=
  let r := Qred q in Z.sqrt (Qnum r) # Pos.sqrt (Qden r).

Definition sub3 (a b : array3) : array3 :=
  let '(a0, a1, a2) := a in
  let '(b0, b1, b2) := b in
  (a0 - b0, a1 - b1, a2 - b2).

Definition dot3 (a b : array3) : Q :=
  let '(a0, a1, a2) := a in
  let '(b0, b1, b2) := b in
  a0 * b0 + a1 * b1 + a2 * b2.

(** Cosine of the angle between the line of flight and the momentum. *)
Definition sample_cpa (pv sv p : array3) : Q :=
  let line := sub3 sv pv in
  Qred (dot3 line p / sample_sqrt (dot3 line line * dot3 p p)).

(** A stand-in for the fitter: it throws on a track without covariance
    matrix, finds no candidate for two tracks at the same [x], and otherwise
    reports one candidate at [(x0, x1, 0)] with chi2 [(x0 - x1)^2]. *)
Definition sample_process (p n : TrackParCov) : FitOutcome :=
  let f := {| getTrack0 := p; getTrack1 := n;
              getPCACandidate := (getX p, getX n, 0);
              getChi2AtPCACandidate := Qred ((getX p - getX n) * (getX p - getX n));
              calcPCACovMatrix := fun i j => if Nat.eqb i j then 1 else 0 |} in
  match getCovXYZPxPyPzGlo p with
  | [] => FitThrows f
  | _ => if Qeq_bool (getX p) (getX n) then FitReturns 0 f else FitReturns 1 f
  end.

Definition sample_external : External := {|
  TPCrefit := 2;
  fitter_process := sample_process;
  TMath_Sqrt := sample_sqrt;
  RecoDecay_cpa := sample_cpa;
  RecoDecay_sqrtSumOfSquares := fun x y => sample_sqrt (x * x + y * y)
|}.

(** The same with a pointing cosine of 66773319 / 2^26 = 0.9949999899 for
    every vertex: a [double] below the default v0cospa, between the [float]s
    16693329 / 2^24 and 16693330 / 2^24 that enclose 0.995 and nearer to the
    upper one. *)
Definition grazing_external : External := {|
  TPCrefit := 2;
  fitter_process := sample_process;
  TMath_Sqrt := sample_sqrt;
  RecoDecay_cpa := fun _ _ _ => 66773319 # 67108864;
  RecoDecay_sqrtSumOfSquares := fun x y => sample_sqrt (x * x + y * y)
|}.

Definition sample_parcov (x : Q) (p : array3) (cov : list Q) : TrackParCov :=
  {| getX := x; getPxPyPzGlo := p; getCovXYZPxPyPzGlo := cov |}.

Definition sample_track (rows : Z) (dca : Q) (t : TrackParCov) : Track :=
  {| trackType := 2; tpcNClsCrossedRows := rows; itsNCls := 7; dcaXY := dca;
     getTrackParCov := t |}.

Definition sample_collision : Collision := {| posX := 0; posY := 0; posZ := 0 |}.

Definition sample_cov : list Q := repeat 1 21.

(** A pair that is accepted under the default thresholds: vertex (3, 4, 0),
    momenta adding up to (3, 4, 0), chi2 1. *)
Definition good_pos : Track := sample_track 100 (1 # 2) (sample_parcov 3 (2, 4, 0) sample_cov).
Definition good_neg : Track := sample_track 90 (-1 # 2) (sample_parcov 4 (1, 0, 0) sample_cov).

(** A positive track on which the stand-in fitter throws. *)
Definition singular_pos : Track := sample_track 100 (1 # 2) (sample_parcov 3 (2, 4, 0) []).

(** A negative track at the same [x] as [good_pos]: no candidate. *)
Definition parallel_neg : Track := sample_track 90 (-1 # 2) (sample_parcov 3 (1, 0, 0) sample_cov).

(** A negative track too close to the primary vertex. *)
Definition primary_neg : Track := sample_track 90 (1 # 100) (sample_parcov 4 (1, 0, 0) sample_cov).

Definition sample_V0 (index : Z) (p n : Track) : V0 :=
  {| posTrackId := 2 * index; negTrackId := 2 * index + 1; collisionId := 0;
     globalIndex := index; posTrack := p; negTrack := n |}.

Definition sample_candidate : V0Candidate :=
  {| posTrackX := 0; negTrackX := 0; pos := (0, 0, 0); posP := (0, 0, 0);
     negP := (0, 0, 0); dcaV0dau := 0; posDCAxy := 0; negDCAxy := 0;
     cosPA := 0; V0radius := 0; lambdaMass := 0; antilambdaMass := 0 |}.

Definition sample_fitstate : FitState :=
  {| getTrack0 := sample_parcov 0 (0, 0, 0) [];
     getTrack1 := sample_parcov 0 (0, 0, 0) [];
     getPCACandidate := (0, 0, 0);
     getChi2AtPCACandidate := 0;
     calcPCACovMatrix := fun _ _ => 0 |}.

(** A builder as [init] leaves it. *)
Definition sample_builder : Builder :=
  resetHistos
    {| v0candidate := sample_candidate;
       statisticsRegistry := {| v0stats := []; exceptions := 0; eventCounter := 0 |};
       registry := {| hEventCounter := 0; hCaughtExceptions := 0;
                      hV0Criteria := repeat 0%Z 10 |};
       lPositiveTrack := sample_parcov 0 (0, 0, 0) [];
       lNegativeTrack := sample_parcov 0 (0, 0, 0) [];
       fitter := {| fitter_state := sample_fitstate; process_calls := 0 |} |}.

Definition sample_batch : list V0 :=
  [ sample_V0 0 good_pos good_neg;
    sample_V0 1 singular_pos good_neg;
    sample_V0 2 good_pos parallel_neg;
    sample_V0 3 good_pos primary_neg;
    sample_V0 4 good_pos good_neg ].

Definition radius_option (v : Q) : ConfigParamSpec :=
  {| opt_name := "v0setting_radius"; defaultValue := v |}.

Definition consumer (name : string) (opts : list ConfigParamSpec) : DeviceSpec :=
  {| dev_name := name; inputs := [ {| binding := "V0Datas" |} ]; options := opts |}.

(** Two analyses asking for a minimum radius of 0.5 and of 0.9. *)
Definition two_consumers : list DeviceSpec :=
  [ consumer "analysis-a" [radius_option (1 # 2)];
    consumer "analysis-b" [radius_option (9 # 10)] ].

(** One analysis asking for a minimum radius of 150. *)
Definition far_consumer : list DeviceSpec :=
  [ consumer "analysis-far" [radius_option 150] ].

(** ** Further vocabulary: counters, covariance rows, quality counters *)

(** The V0s of a batch whose evaluation incremented counter [k]. *)
Definition reached `{External} (cfg : Configurables) (collision : Collision)
    (k : v0step) (V0s : list V0) : list V0 :=
  filter (fun v =>
            (step_index k <? stages_reached
                               (verdict cfg collision (posTrack v) (negTrack v)))%nat)
         V0s.

(** The V0s of a batch whose fit was attempted and threw. *)
Definition threw `{External} (cfg : Configurables) (collision : Collision)
    (V0s : list V0) : list V0 :=
  filter (fun v => is_exception (verdict cfg collision (posTrack v) (negTrack v))) V0s.

(** The device is not the initializer and has an input bound to V0Covs. *)
Definition asks_for_covariances (device : DeviceSpec) : bool :=
  negb (String.eqb (dev_name device) "lambdakzero-initializer")
  && existsb (fun input => String.eqb (binding input) "V0Covs") (inputs device).

(** A propagation that reports the distance stored in the track table:
    a stand-in for [propagateToDCABxByBz]. *)
Definition sample_propagator : FirstRevision.Propagator :=
  {| FirstRevision.propagateToDCABxByBz := fun _ t info => (dcaXY t, snd info) |}.

Definition sample_qa : FirstRevision.TrackQA :=
  {| FirstRevision.posITSclu := repeat 0%Z 10;
     FirstRevision.negITSclu := repeat 0%Z 10 |}.

(** ** [initCCDB]: the magnetic field, once per run *)

(** A row of BCsWithTimestamps. *)
Record BC := {
  runNumber : Z;
  timestamp : Z
}.

Record GRPObject := {
  getNominalL3Field : Q
}.

Record GRPMagField := {
  getL3Current : Q
}.

(** [ccdb->getForTimeStamp<T>(path, timestamp)] at the two configured paths;
    [None] is the null pointer. *)
Class ConditionsDB := {
  getGRPObject : Z -> option GRPObject;
  getGRPMagField : Z -> option GRPMagField
}.

(** What [Propagator::initFieldFromGRP] was last called with; the local
    [GRPMagField] of the first revision carries the current given to
    [setL3Current], if any. *)
Inductive FieldSource :=
| NoField
| FromGRPObject (grpo : GRPObject)
| FromGRPMagField (grpmag : GRPMagField)
| FromLocalGRPMagField (current : option Q).

(** The members [initCCDB] writes: the run number, the field, the field given
    to the fitter by [setBz], the field of the propagator, and whether
    [setMatLUT] was called. *)
Record FieldState := {
  mRunNumber : Z;
  d_bz : Q;
  fitter_Bz : option Q;
  propagator_field : FieldSource;
  matLUT : bool
}.

(** The two assignments of [init], on a builder just constructed. *)
Definition init_field : FieldState :=
  {| mRunNumber := 0; d_bz := 0; fitter_Bz := None;
     propagator_field := NoField; matLUT := false |}.

(** [std::lround]: to the nearest integer, halves away from zero. *)
Definition lround (q : Q) : Z :=
  if Qle_bool 0 q then Qfloor (q + (1 # 2)) else Qceiling (q - (1 # 2)).

Inductive CCDBResult :=
| CCDBFatal
| CCDBReady (s : FieldState).

(** [d_bz = std::lround(5.f * grpmag->getL3Current() / 30000.f)]: the
    product and the quotient are made in [float], and the integer goes into
    the [float] member. *)
Definition field_of_current (current : Q) : Q :=
  to_float (inject_Z (lround (to_float (to_float (5 * current) / 30000)))).

(** [initCCDB] of the second revision.  The configurable [d_bz_input] is a
    [double], the member [d_bz] a [float]. *)
Definition initCCDB `{ConditionsDB} (d_bz_input : Q) (bc : BC) (s : FieldState)
    : CCDBResult :=
  if (mRunNumber s =? runNumber bc)%Z then CCDBReady s
  else
    match getGRPObject (timestamp bc) with
    | Some grpo =>
        let d := if Qltb d_bz_input (-990) then to_float (getNominalL3Field grpo)
                 else to_float d_bz_input in
        CCDBReady {| mRunNumber := runNumber bc; d_bz := d; fitter_Bz := Some d;
                     propagator_field := FromGRPObject grpo; matLUT := true |}
    | None =>
        match getGRPMagField (timestamp bc) with
        | None => CCDBFatal
        | Some grpmag =>
            let d := if Qltb d_bz_input (-990)
                     then field_of_current (getL3Current grpmag)
                     else to_float d_bz_input in
            CCDBReady {| mRunNumber := runNumber bc; d_bz := d; fitter_Bz := Some d;
                         propagator_field := FromGRPMagField grpmag; matLUT := true |}
        end
    end.

(** [30000.f / (d_bz / 5.0f)]: two divisions in [float]. *)
Definition current_of_field (d : Q) : Q := to_float (30000 / to_float (d / 5)).

(** [initCCDB] of the first revision: an overridden field needs no access to
    the conditions database.  The [double] d_bz_input goes into the [float]
    d_bz, whose size is compared with the [double] 1e-5. *)
Definition rev1_initCCDB `{ConditionsDB} (d_bz_input : Q) (useMatCorr : Z)
    (bc : BC) (s : FieldState) : CCDBResult :=
  if (mRunNumber s =? runNumber bc)%Z then CCDBReady s
  else if Qgtb d_bz_input (-990) then
    let d := to_float d_bz_input in
    let current :=
      if Qgtb (Qabs d) (to_double (1 # 100000)) then Some (current_of_field d)
      else None in
    CCDBReady {| mRunNumber := runNumber bc; d_bz := d; fitter_Bz := Some d;
                 propagator_field := FromLocalGRPMagField current;
                 matLUT := matLUT s |}
  else
    let lut_set := if (useMatCorr =? 2)%Z then true else matLUT s in
    match getGRPObject (timestamp bc) with
    | Some grpo =>
        let d := to_float (getNominalL3Field grpo) in
        CCDBReady {| mRunNumber := runNumber bc; d_bz := d; fitter_Bz := Some d;
                     propagator_field := FromGRPObject grpo; matLUT := lut_set |}
    | None =>
        match getGRPMagField (timestamp bc) with
        | None => CCDBFatal
        | Some grpmag =>
            let d := field_of_current (getL3Current grpmag) in
            CCDBReady {| mRunNumber := runNumber bc; d_bz := d; fitter_Bz := Some d;
                         propagator_field := FromGRPMagField grpmag; matLUT := lut_set |}
        end
    end.

(** The calls of [initCCDB] made by successive process calls, one per
    bunch crossing, up to the first fatal one. *)
Fixpoint initCCDB_each `{ConditionsDB} (d_bz_input : Q) (bcs : list BC)
    (s : FieldState) : CCDBResult :=
  match bcs with
  | [] => CCDBReady s
  | bc :: rest =>
      match initCCDB d_bz_input bc s with
      | CCDBFatal => CCDBFatal
      | CCDBReady s' => initCCDB_each d_bz_input rest s'
      end
  end.

(** A conditions database with a GRPMagField of 30000 A at even timestamps
    and nothing at odd ones. *)
Definition sample_ccdb : ConditionsDB :=
  {| getGRPObject := fun _ => None;
     getGRPMagField := fun ts =>
       if Z.even ts then Some {| getL3Current := 30000 |} else None |}.

Definition empty_ccdb : ConditionsDB :=
  {| getGRPObject := fun _ => None; getGRPMagField := fun _ => None |}.

(** ** Monte-Carlo association *)

(** A mother of a generated particle, through the two columns read. *)
Record McMother := {
  mother_globalIndex : Z;
  mother_pdgCode : Z
}.

(** A generated particle, through [mothers_as<aod::McParticles>()]. *)
Record McParticle := {
  mothers : list McMother
}.

(** [has_mothers()] *)
Definition has_mothers (particle : McParticle) : bool :=
  match mothers particle with [] => false | _ => true end.

(** A daughter track as the preselector and the label builders see it:
    crossed rows, TPC dE/dx deviations, and the generated particle of its
    label ([None]: [has_mcParticle()] is false). *)
Record LabeledTrack := {
  lt_tpcNClsCrossedRows : Z;
  tpcNSigmaEl : Q;
  tpcNSigmaPi : Q;
  tpcNSigmaPr : Q;
  tpcNSigmaHe : Q;
  mcParticle : option McParticle
}.

(** The two nested loops over the mothers of the negative and of the
    positive daughter: whenever the global indices agree, [pick lNegMother]
    is stored. *)
Definition scan_mothers (pick : McMother -> Z) (negMothers posMothers : list McMother)
    (start : Z) : Z :=
  fold_left
    (fun acc lNegMother =>
       fold_left
         (fun acc lPosMother =>
            if (mother_globalIndex lNegMother =? mother_globalIndex lPosMother)%Z
            then pick lNegMother else acc)
         posMothers acc)
    negMothers start.

(** The association check shared by [checkPDG], [processBuildV0Labels] and
    [processBuildV0Tags], started from -1. *)
Definition association (pick : McMother -> Z) (lNegTrack lPosTrack : LabeledTrack) : Z :=
  match mcParticle lNegTrack, mcParticle lPosTrack with
  | Some lMCNegTrack, Some lMCPosTrack =>
      if has_mothers lMCNegTrack && has_mothers lMCPosTrack
      then scan_mothers pick (mothers lMCNegTrack) (mothers lMCPosTrack) (-1)
      else (-1)%Z
  | _, _ => (-1)%Z
  end.

(** A V0 with its two daughters. *)
Record LabeledV0 := {
  lv_negTrack : LabeledTrack;
  lv_posTrack : LabeledTrack
}.

(** A mother common to both daughters. *)
Definition common_mother (v : LabeledV0) (m : McMother) : Prop :=
  exists lMCNegTrack lMCPosTrack lPosMother,
    mcParticle (lv_negTrack v) = Some lMCNegTrack
    /\ mcParticle (lv_posTrack v) = Some lMCPosTrack
    /\ In m (mothers lMCNegTrack)
    /\ In lPosMother (mothers lMCPosTrack)
    /\ mother_globalIndex m = mother_globalIndex lPosMother.

(** ** [lambdakzeroPreselector] *)

Module lambdakzeroPreselector.

Record Configurables := {
  dIfMCgenerateK0Short : bool;
  dIfMCgenerateLambda : bool;
  dIfMCgenerateAntiLambda : bool;
  dIfMCgenerateGamma : bool;
  dIfMCgenerateHypertriton : bool;
  dIfMCgenerateAntiHypertriton : bool;
  ddEdxPreSelectK0Short : bool;
  ddEdxPreSelectLambda : bool;
  ddEdxPreSelectAntiLambda : bool;
  ddEdxPreSelectGamma : bool;
  ddEdxPreSelectHypertriton : bool;
  ddEdxPreSelectAntiHypertriton : bool;
  ddEdxPreSelectionWindow : Q;
  dTPCNCrossedRows : Z;
  dPreselectOnlyBaryons : bool
}.

Definition default_configurables : Configurables := {|
  dIfMCgenerateK0Short := true;
  dIfMCgenerateLambda := true;
  dIfMCgenerateAntiLambda := true;
  dIfMCgenerateGamma := false;
  dIfMCgenerateHypertriton := false;
  dIfMCgenerateAntiHypertriton := false;
  ddEdxPreSelectK0Short := true;
  ddEdxPreSelectLambda := true;
  ddEdxPreSelectAntiLambda := true;
  ddEdxPreSelectGamma := false;
  ddEdxPreSelectHypertriton := false;
  ddEdxPreSelectAntiHypertriton := false;
  ddEdxPreSelectionWindow := 7;
  dTPCNCrossedRows := 50;
  dPreselectOnlyBaryons := false
|}.

(** The six species flags passed around by reference. *)
Record Species := {
  lIsGamma : bool;
  lIsK0Short : bool;
  lIsLambda : bool;
  lIsAntiLambda : bool;
  lIsHypertriton : bool;
  lIsAntiHypertriton : bool
}.

Definition no_species : Species :=
  {| lIsGamma := false; lIsK0Short := false; lIsLambda := false;
     lIsAntiLambda := false; lIsHypertriton := false; lIsAntiHypertriton := false |}.

Definition all_species : Species :=
  {| lIsGamma := true; lIsK0Short := true; lIsLambda := true;
     lIsAntiLambda := true; lIsHypertriton := true; lIsAntiHypertriton := true |}.

Definition set_Gamma (f : Species) : Species :=
  {| lIsGamma := true; lIsK0Short := lIsK0Short f; lIsLambda := lIsLambda f;
     lIsAntiLambda := lIsAntiLambda f; lIsHypertriton := lIsHypertriton f;
     lIsAntiHypertriton := lIsAntiHypertriton f |}.

Definition set_K0Short (f : Species) : Species :=
  {| lIsGamma := lIsGamma f; lIsK0Short := true; lIsLambda := lIsLambda f;
     lIsAntiLambda := lIsAntiLambda f; lIsHypertriton := lIsHypertriton f;
     lIsAntiHypertriton := lIsAntiHypertriton f |}.

Definition set_Lambda (f : Species) : Species :=
  {| lIsGamma := lIsGamma f; lIsK0Short := lIsK0Short f; lIsLambda := true;
     lIsAntiLambda := lIsAntiLambda f; lIsHypertriton := lIsHypertriton f;
     lIsAntiHypertriton := lIsAntiHypertriton f |}.

Definition set_AntiLambda (f : Species) : Species :=
  {| lIsGamma := lIsGamma f; lIsK0Short := lIsK0Short f; lIsLambda := lIsLambda f;
     lIsAntiLambda := true; lIsHypertriton := lIsHypertriton f;
     lIsAntiHypertriton := lIsAntiHypertriton f |}.

Definition set_Hypertriton (f : Species) : Species :=
  {| lIsGamma := lIsGamma f; lIsK0Short := lIsK0Short f; lIsLambda := lIsLambda f;
     lIsAntiLambda := lIsAntiLambda f; lIsHypertriton := true;
     lIsAntiHypertriton := lIsAntiHypertriton f |}.

Definition set_AntiHypertriton (f : Species) : Species :=
  {| lIsGamma := lIsGamma f; lIsK0Short := lIsK0Short f; lIsLambda := lIsLambda f;
     lIsAntiLambda := lIsAntiLambda f; lIsHypertriton := lIsHypertriton f;
     lIsAntiHypertriton := true |}.

(** [track.tpcNClsCrossedRows() >= dTPCNCrossedRows] *)
Definition enough_rows (cfg : Configurables) (t : LabeledTrack) : bool :=
  (dTPCNCrossedRows cfg <=? lt_tpcNClsCrossedRows t)%Z.

(** [checkTrackQuality]: the value left in [lIsInteresting].  The fifth test
    reads [lIsHypertriton] as the fourth does; [lIsAntiHypertriton] is not
    read. *)
Definition checkTrackQuality (cfg : Configurables) (v : LabeledV0) (f : Species) : bool :=
  let lNegTrack := lv_negTrack v in
  let lPosTrack := lv_posTrack v in
  let lIsInteresting := false in
  let lIsInteresting :=
    if (lIsGamma f || lIsK0Short f)
       && (enough_rows cfg lPosTrack && enough_rows cfg lNegTrack)
    then true else lIsInteresting in
  let lIsInteresting :=
    if lIsLambda f
       && (enough_rows cfg lPosTrack
           && (enough_rows cfg lNegTrack || dPreselectOnlyBaryons cfg))
    then true else lIsInteresting in
  let lIsInteresting :=
    if lIsAntiLambda f
       && (enough_rows cfg lNegTrack
           && (enough_rows cfg lPosTrack || dPreselectOnlyBaryons cfg))
    then true else lIsInteresting in
  let lIsInteresting :=
    if lIsHypertriton f
       && (enough_rows cfg lPosTrack
           && (enough_rows cfg lNegTrack || dPreselectOnlyBaryons cfg))
    then true else lIsInteresting in
  if lIsHypertriton f
     && (enough_rows cfg lNegTrack
         && (enough_rows cfg lPosTrack || dPreselectOnlyBaryons cfg))
  then true else lIsInteresting.

(** [checkPDG]: [lIsInteresting] and the six flags after the call. *)
Definition checkPDG (cfg : Configurables) (v : LabeledV0)
    (lIsInteresting : bool) (f : Species) : bool * Species :=
  let lPDG := association mother_pdgCode (lv_negTrack v) (lv_posTrack v) in
  let '(i, f) := (lIsInteresting, f) in
  let '(i, f) :=
    if (lPDG =? 310)%Z && dIfMCgenerateK0Short cfg then (true, set_K0Short f) else (i, f) in
  let '(i, f) :=
    if (lPDG =? 3122)%Z && dIfMCgenerateLambda cfg then (true, set_Lambda f) else (i, f) in
  let '(i, f) :=
    if (lPDG =? -3122)%Z && dIfMCgenerateAntiLambda cfg
    then (true, set_AntiLambda f) else (i, f) in
  let '(i, f) :=
    if (lPDG =? 22)%Z && dIfMCgenerateGamma cfg then (true, set_Gamma f) else (i, f) in
  let '(i, f) :=
    if (lPDG =? 1010010030)%Z && dIfMCgenerateHypertriton cfg
    then (true, set_Hypertriton f) else (i, f) in
  if (lPDG =? -1010010030)%Z && dIfMCgenerateAntiHypertriton cfg
  then (true, set_AntiHypertriton f) else (i, f).

(** [TMath::Abs(x) < ddEdxPreSelectionWindow] *)
Definition within (cfg : Configurables) (nsigma : Q) : bool :=
  Qltb (Qabs nsigma) (ddEdxPreSelectionWindow cfg).

(** [checkdEdx]: [lIsInteresting] and the six flags after the call. *)
Definition checkdEdx (cfg : Configurables) (v : LabeledV0)
    (lIsInteresting : bool) (f : Species) : bool * Species :=
  let lNegTrack := lv_negTrack v in
  let lPosTrack := lv_posTrack v in
  let '(i, f) := (lIsInteresting, f) in
  let '(i, f) :=
    if within cfg (tpcNSigmaEl lNegTrack) && within cfg (tpcNSigmaEl lPosTrack)
       && ddEdxPreSelectGamma cfg
    then (true, set_Gamma f) else (i, f) in
  let '(i, f) :=
    if within cfg (tpcNSigmaPi lNegTrack) && within cfg (tpcNSigmaPi lPosTrack)
       && ddEdxPreSelectK0Short cfg
    then (true, set_K0Short f) else (i, f) in
  let '(i, f) :=
    if (within cfg (tpcNSigmaPi lNegTrack) || dPreselectOnlyBaryons cfg)
       && within cfg (tpcNSigmaPr lPosTrack)
       && ddEdxPreSelectLambda cfg
    then (true, set_Lambda f) else (i, f) in
  let '(i, f) :=
    if within cfg (tpcNSigmaPr lNegTrack)
       && (within cfg (tpcNSigmaPi lPosTrack) || dPreselectOnlyBaryons cfg)
       && ddEdxPreSelectAntiLambda cfg
    then (true, set_AntiLambda f) else (i, f) in
  let '(i, f) :=
    if within cfg (tpcNSigmaPi lNegTrack)
       && (within cfg (tpcNSigmaHe lPosTrack) || dPreselectOnlyBaryons cfg)
       && ddEdxPreSelectHypertriton cfg
    then (true, set_Hypertriton f) else (i, f) in
  if (within cfg (tpcNSigmaHe lNegTrack) || dPreselectOnlyBaryons cfg)
     && within cfg (tpcNSigmaPi lPosTrack)
     && ddEdxPreSelectAntiHypertriton cfg
  then (true, set_AntiHypertriton f) else (i, f).

(** A row of V0Tags: the global flag, the six MC flags, the six dE/dx
    flags. *)
Record V0Tag := {
  isInteresting : bool;
  isTrue : Species;
  isCandidate : Species
}.

Definition processBuildAll (cfg : Configurables) (v0table : list LabeledV0) : list V0Tag :=
  map (fun v0 =>
         let lIsQualityInteresting := checkTrackQuality cfg v0 all_species in
         {| isInteresting := lIsQualityInteresting;
            isTrue := all_species; isCandidate := all_species |})
      v0table.

Definition processBuildMCAssociated (cfg : Configurables) (v0table : list LabeledV0)
    : list V0Tag :=
  map (fun v0 =>
         let '(lIsInteresting, lIsTrue) := checkPDG cfg v0 false no_species in
         let lIsQualityInteresting := checkTrackQuality cfg v0 all_species in
         {| isInteresting := lIsInteresting && lIsQualityInteresting;
            isTrue := lIsTrue; isCandidate := all_species |})
      v0table.

Definition processBuildValiddEdx (cfg : Configurables) (v0table : list LabeledV0)
    : list V0Tag :=
  map (fun v0 =>
         let '(lIsInteresting, lIsdEdx) := checkdEdx cfg v0 false no_species in
         let lIsQualityInteresting := checkTrackQuality cfg v0 lIsdEdx in
         {| isInteresting := lIsInteresting && lIsQualityInteresting;
            isTrue := all_species; isCandidate := lIsdEdx |})
      v0table.

Definition processBuildValiddEdxMCAssociated (cfg : Configurables)
    (v0table : list LabeledV0) : list V0Tag :=
  map (fun v0 =>
         let '(lIsTrueInteresting, lIsTrue) := checkPDG cfg v0 false no_species in
         let '(lIsdEdxInteresting, lIsdEdx) := checkdEdx cfg v0 false no_species in
         let lIsQualityInteresting := checkTrackQuality cfg v0 lIsdEdx in
         {| isInteresting :=
              lIsTrueInteresting && lIsdEdxInteresting && lIsQualityInteresting;
            isTrue := lIsTrue; isCandidate := lIsdEdx |})
      v0table.

(** The number of flags that are set. *)
Definition count_species (f : Species) : nat :=
  ((if lIsGamma f then 1 else 0) + (if lIsK0Short f then 1 else 0)
   + (if lIsLambda f then 1 else 0) + (if lIsAntiLambda f then 1 else 0)
   + (if lIsHypertriton f then 1 else 0) + (if lIsAntiHypertriton f then 1 else 0))%nat.

End lambdakzeroPreselector.

(** ** [lambdakzeroLabelBuilder] and [lambdakzeroTagBuilder] *)

(** The conversion of a 64-bit index to [int]. *)
Definition to_int (x : Z) : Z := ((x + 2 ^ 31) mod 2 ^ 32 - 2 ^ 31)%Z.

Module lambdakzeroLabelBuilder.

(** One label per row of the V0 data table. *)
Definition processBuildV0Labels (v0table : list LabeledV0) : list Z :=
  map (fun v0 =>
         association (fun m => to_int (mother_globalIndex m))
                     (lv_negTrack v0) (lv_posTrack v0))
      v0table.

End lambdakzeroLabelBuilder.

Module lambdakzeroTagBuilder.

(** [lPDG == 310 || TMath::Abs(lPDG) == 3122 || TMath::Abs(lPDG) == 1010010030] *)
Definition interesting_pdg (lPDG : Z) : bool :=
  (lPDG =? 310)%Z || (Z.abs lPDG =? 3122)%Z || (Z.abs lPDG =? 1010010030)%Z.

(** One tag per row of the V0 table. *)
Definition processBuildV0Tags (v0table : list LabeledV0) : list Z :=
  map (fun v0 =>
         let lPDG := association mother_pdgCode (lv_negTrack v0) (lv_posTrack v0) in
         let lInteresting := 0%Z in
         if interesting_pdg lPDG then 1%Z else lInteresting)
      v0table.

End lambdakzeroTagBuilder.

(** Tracks and V0s to run these on. *)
Definition sample_labeled (rows : Z) (pi pr : Q) (mc : option McParticle) : LabeledTrack :=
  {| lt_tpcNClsCrossedRows := rows; tpcNSigmaEl := 20; tpcNSigmaPi := pi;
     tpcNSigmaPr := pr; tpcNSigmaHe := 20; mcParticle := mc |}.

Definition from_mother (index pdg : Z) : option McParticle :=
  Some {| mothers := [ {| mother_globalIndex := index; mother_pdgCode := pdg |} ] |}.

(** A Lambda: proton and pion from the same mother, number 12. *)
Definition sample_lambda : LabeledV0 :=
  {| lv_negTrack := sample_labeled 80 1 20 (from_mother 12 3122);
     lv_posTrack := sample_labeled 80 20 1 (from_mother 12 3122) |}.

(** The configuration with another dE/dx window. *)
Definition with_window (cfg : lambdakzeroPreselector.Configurables) (w : Q)
    : lambdakzeroPreselector.Configurables :=
  let open := cfg in
  {| lambdakzeroPreselector.dIfMCgenerateK0Short :=
       lambdakzeroPreselector.dIfMCgenerateK0Short open;
     lambdakzeroPreselector.dIfMCgenerateLambda :=
       lambdakzeroPreselector.dIfMCgenerateLambda open;
     lambdakzeroPreselector.dIfMCgenerateAntiLambda :=
       lambdakzeroPreselector.dIfMCgenerateAntiLambda open;
     lambdakzeroPreselector.dIfMCgenerateGamma :=
       lambdakzeroPreselector.dIfMCgenerateGamma open;
     lambdakzeroPreselector.dIfMCgenerateHypertriton :=
       lambdakzeroPreselector.dIfMCgenerateHypertriton open;
     lambdakzeroPreselector.dIfMCgenerateAntiHypertriton :=
       lambdakzeroPreselector.dIfMCgenerateAntiHypertriton open;
     lambdakzeroPreselector.ddEdxPreSelectK0Short :=
       lambdakzeroPreselector.ddEdxPreSelectK0Short open;
     lambdakzeroPreselector.ddEdxPreSelectLambda :=
       lambdakzeroPreselector.ddEdxPreSelectLambda open;
     lambdakzeroPreselector.ddEdxPreSelectAntiLambda :=
       lambdakzeroPreselector.ddEdxPreSelectAntiLambda open;
     lambdakzeroPreselector.ddEdxPreSelectGamma :=
       lambdakzeroPreselector.ddEdxPreSelectGamma open;
     lambdakzeroPreselector.ddEdxPreSelectHypertriton :=
       lambdakzeroPreselector.ddEdxPreSelectHypertriton open;
     lambdakzeroPreselector.ddEdxPreSelectAntiHypertriton :=
       lambdakzeroPreselector.ddEdxPreSelectAntiHypertriton open;
     lambdakzeroPreselector.ddEdxPreSelectionWindow := w;
     lambdakzeroPreselector.dTPCNCrossedRows :=
       lambdakzeroPreselector.dTPCNCrossedRows open;
     lambdakzeroPreselector.dPreselectOnlyBaryons :=
       lambdakzeroPreselector.dPreselectOnlyBaryons open |}.

(** The six particle codes [checkPDG] knows. *)
Definition known_codes : list Z :=
  [310; 3122; -3122; 22; 1010010030; -1010010030]%Z.

(** Every index of a mother of a daughter of [v] fits an [int] and is not
    negative. *)
Definition indices_fit_int (v : LabeledV0) : Prop :=
  forall t p m,
    (t = lv_negTrack v \/ t = lv_posTrack v) ->
    mcParticle t = Some p -> In m (mothers p) ->
    (0 <= mother_globalIndex m < 2 ^ 31)%Z.

(** ** [StrangenessBuilder] *)

Module StrangenessBuilder.

Definition nTables : nat := 73.
Definition kV0CoresBase : Z := 1.
Definition kStoredCascCores : Z := 6.

(** [v.resize(n, value)]: the first [n] elements are kept, new ones are
    copies of [value]. *)
Definition vector_resize (n : nat) (value : Z) (v : lambdakzeroV0DataLinkBuilder.vector)
    : lambdakzeroV0DataLinkBuilder.vector :=
  {| lambdakzeroV0DataLinkBuilder.elements :=
       firstn n (lambdakzeroV0DataLinkBuilder.elements v)
       ++ repeat value (n - lambdakzeroV0DataLinkBuilder.vector_size v);
     lambdakzeroV0DataLinkBuilder.capacity :=
       Nat.max n (lambdakzeroV0DataLinkBuilder.capacity v) |}.

(** A row of the cascade table, through the column read. *)
Record Cascade := {
  cascade_v0Id : Z
}.

(** The members the functions below touch; [lut] holds the timestamp the
    look-up table was loaded for ([None]: [nullptr]) and [lut_loads] counts
    the loads. *)
Record State := {
  mRunNumber : Z;
  mEnabledTables : lambdakzeroV0DataLinkBuilder.vector;
  v0Map : lambdakzeroV0DataLinkBuilder.vector;
  lut : option Z;
  lut_loads : nat
}.

(** [for (int i = 0; i < nTables; i++)] of [init], counting [i] up from
    [nTables - todo]; [enabledTables i] is
    [enabledTables->get(tableNames[i].c_str(), "enable")]. *)
Fixpoint enable_tables (enabledTables : nat -> Z) (todo : nat)
    (m : lambdakzeroV0DataLinkBuilder.vector)
    : option lambdakzeroV0DataLinkBuilder.vector :=
  match todo with
  | O => Some m
  | S todo' =>
      let i := (nTables - todo)%nat in
      let f := enabledTables i in
      if (f =? 1)%Z then
        match lambdakzeroV0DataLinkBuilder.vector_write (Z.of_nat i) 1 m with
        | Some m' => enable_tables enabledTables todo' m'
        | None => None
        end
      else enable_tables enabledTables todo' m
  end.

(** [init]; the members start empty. *)
Definition init (enabledTables : nat -> Z) : option State :=
  match enable_tables enabledTables nTables
          (vector_resize nTables 0 lambdakzeroV0DataLinkBuilder.vector_empty) with
  | Some m =>
      Some {| mRunNumber := 0; mEnabledTables := m;
              v0Map := lambdakzeroV0DataLinkBuilder.vector_empty;
              lut := None; lut_loads := 0 |}
  | None => None
  end.

(** [initCCDB]: a collision is given by its bunch crossing
    ([bc_as<aod::BCsWithTimestamps>()]). *)
Definition initCCDB (bcs : list BC) (collisions : list BC) (s : State) : bool * State :=
  match bcs with
  | [] => (false, s)
  | first :: _ =>
      let bc := match collisions with c :: _ => c | [] => first end in
      if (mRunNumber s =? runNumber bc)%Z then (true, s)
      else (true, {| mRunNumber := mRunNumber s; mEnabledTables := mEnabledTables s;
                     v0Map := v0Map s; lut := Some (timestamp bc);
                     lut_loads := S (lut_loads s) |})
  end.

(** [for (auto& cascade : cascades) v0Map[cascade.v0Id()] = -1;] *)
Fixpoint mark_used (cascades : list Cascade) (v0Map : lambdakzeroV0DataLinkBuilder.vector)
    : option lambdakzeroV0DataLinkBuilder.vector :=
  match cascades with
  | [] => Some v0Map
  | cascade :: rest =>
      match lambdakzeroV0DataLinkBuilder.vector_write (cascade_v0Id cascade) (-1) v0Map with
      | Some v0Map' => mark_used rest v0Map'
      | None => None
      end
  end.

(** [markV0sUsedInCascades]: [None] when a write falls outside the vector. *)
Definition markV0sUsedInCascades (v0s : list V0) (cascades : list Cascade)
    (v0Map : lambdakzeroV0DataLinkBuilder.vector)
    : option lambdakzeroV0DataLinkBuilder.vector :=
  mark_used cascades (vector_resize (List.length v0s) (-2) v0Map).

(** What a call of [dataProcess] leaves: the members, and the V0s handed to
    [straHelper.buildV0Candidate], in order. *)
Record Outcome := {
  state : State;
  built : list V0
}.

Definition dataProcess (collisions : list BC) (v0s : list V0) (cascades : list Cascade)
    (bcs : list BC) (s : State) : option Outcome :=
  let '(ok, s) := initCCDB bcs collisions s in
  if negb ok then Some {| state := s; built := [] |}
  else
    match markV0sUsedInCascades v0s cascades (v0Map s) with
    | None => None
    | Some map =>
        let s := {| mRunNumber := mRunNumber s; mEnabledTables := mEnabledTables s;
                    v0Map := map; lut := lut s; lut_loads := lut_loads s |} in
        match lambdakzeroV0DataLinkBuilder.vector_read kV0CoresBase (mEnabledTables s) with
        | None => None
        | Some requested =>
            let built := if (requested =? 0)%Z then [] else v0s in
            match lambdakzeroV0DataLinkBuilder.vector_read kStoredCascCores
                    (mEnabledTables s) with
            | None => None
            | Some _ => Some {| state := s; built := built |}
            end
        end
    end.

(** A data frame, as [processRealData] receives it. *)
Record Frame := {
  frame_collisions : list BC;
  frame_v0s : list V0;
  frame_cascades : list Cascade;
  frame_bcs : list BC
}.

(** [processRealData] on one data frame after the other; the V0s built are
    collected per frame. *)
Fixpoint processRealData_each (frames : list Frame) (s : State)
    : option (State * list (list V0)) :=
  match frames with
  | [] => Some (s, [])
  | f :: rest =>
      match dataProcess (frame_collisions f) (frame_v0s f) (frame_cascades f)
              (frame_bcs f) s with
      | None => None
      | Some o =>
          match processRealData_each rest (state o) with
          | None => None
          | Some (s', out) => Some (s', built o :: out)
          end
      end
  end.

(** [defaultParameters]: -1 for every table. *)
Definition defaultParameters : nat -> Z := fun _ => (-1)%Z.

End StrangenessBuilder.

(** The entries of a vector, for reading a result. *)
Definition entry (v : lambdakzeroV0DataLinkBuilder.vector) (i : nat) : option Z :=
  nth_error (lambdakzeroV0DataLinkBuilder.elements v) i.

(** The V0 indices the cascades refer to. *)
Definition referenced (cascades : list StrangenessBuilder.Cascade) (i : nat) : bool :=
  existsb (fun c => (StrangenessBuilder.cascade_v0Id c =? Z.of_nat i)%Z) cascades.

(** Every cascade refers to one of the first [n] V0s. *)
Definition refers_within (n : nat) (cascades : list StrangenessBuilder.Cascade) : bool :=
  forallb (fun c => (0 <=? StrangenessBuilder.cascade_v0Id c)%Z
                    && (StrangenessBuilder.cascade_v0Id c <? Z.of_nat n)%Z) cascades.

(** Whether a frame makes [initCCDB] load the look-up table, with the run
    number left at [run]. *)
Definition loads_lut (run : Z) (f : StrangenessBuilder.Frame) : bool :=
  match StrangenessBuilder.frame_bcs f with
  | [] => false
  | first :: _ =>
      let bc := match StrangenessBuilder.frame_collisions f with
                | c :: _ => c | [] => first end in
      negb (run =? runNumber bc)%Z
  end.

(** A configuration that asks for the V0CoresBase table only, cascades, and
    three data frames of run 5, the last one without bunch crossings. *)
Definition enabled_V0Cores : nat -> Z :=
  fun i => if (i =? 1)%nat then 1%Z else (-1)%Z.

Definition sample_cascades : list StrangenessBuilder.Cascade :=
  [ {| StrangenessBuilder.cascade_v0Id := 1 |};
    {| StrangenessBuilder.cascade_v0Id := 3 |} ].

Definition later_cascades : list StrangenessBuilder.Cascade :=
  [ {| StrangenessBuilder.cascade_v0Id := 0 |} ].

Definition sample_frames : list StrangenessBuilder.Frame :=
  [ {| StrangenessBuilder.frame_collisions := [ {| runNumber := 5; timestamp := 100 |} ];
       StrangenessBuilder.frame_v0s := sample_batch;
       StrangenessBuilder.frame_cascades := sample_cascades;
       StrangenessBuilder.frame_bcs := [ {| runNumber := 5; timestamp := 100 |} ] |};
    {| StrangenessBuilder.frame_collisions := [];
       StrangenessBuilder.frame_v0s := sample_batch;
       StrangenessBuilder.frame_cascades := later_cascades;
       StrangenessBuilder.frame_bcs := [ {| runNumber := 5; timestamp := 200 |} ] |};
    {| StrangenessBuilder.frame_collisions := [ {| runNumber := 5; timestamp := 300 |} ];
       StrangenessBuilder.frame_v0s := sample_batch;
       StrangenessBuilder.frame_cascades := [];
       StrangenessBuilder.frame_bcs := [] |} ].

(** The map and the state a run on these leaves. *)
Definition the_map (o : option lambdakzeroV0DataLinkBuilder.vector)
    : lambdakzeroV0DataLinkBuilder.vector :=
  match o with Some m => m | None => lambdakzeroV0DataLinkBuilder.vector_empty end.

Definition sample_state : StrangenessBuilder.State :=
  match StrangenessBuilder.init enabled_V0Cores with
  | Some s => s
  | None =>
      {| StrangenessBuilder.mRunNumber := 0;
         StrangenessBuilder.mEnabledTables := lambdakzeroV0DataLinkBuilder.vector_empty;
         StrangenessBuilder.v0Map := lambdakzeroV0DataLinkBuilder.vector_empty;
         StrangenessBuilder.lut := None; StrangenessBuilder.lut_loads := 0 |}
  end.

Definition sample_run : StrangenessBuilder.State * list (list V0) :=
  match StrangenessBuilder.processRealData_each sample_frames sample_state with
  | Some r => r
  | None => (sample_state, [])
  end.

Definition sample_map : lambdakzeroV0DataLinkBuilder.vector :=
  the_map (StrangenessBuilder.markV0sUsedInCascades sample_batch sample_cascades
             lambdakzeroV0DataLinkBuilder.vector_empty).

Definition later_map : lambdakzeroV0DataLinkBuilder.vector :=
  the_map (StrangenessBuilder.markV0sUsedInCascades sample_batch later_cascades sample_map).

(** ** [preProcessMCcollisions] of [straRecoStudy.cxx] *)

Module preProcessMCcollisions.

(** [v[i]] for an index the function made itself. *)
Definition at_index (v : list Z) (i : nat) : Z := nth i v 0%Z.

(** [std::stable_sort] with the comparison [v[i1] > v[i2]], as the stable
    insertion it is specified to be equivalent to: a new index goes before
    the first index of a strictly smaller value. *)
Fixpoint insert_index (v : list Z) (i : nat) (idx : list nat) : list nat :=
  match idx with
  | [] => [i]
  | j :: rest =>
      if (at_index v j <? at_index v i)%Z then i :: j :: rest
      else j :: insert_index v i rest
  end.

Definition stable_sort (v : list Z) (idx : list nat) : list nat :=
  fold_left (fun sorted i => insert_index v i sorted) idx [].

(** [sort_indices]: [std::iota] from 0, then the stable sort. *)
Definition sort_indices (v : list Z) : list nat :=
  let idx := seq 0 (List.length v) in
  stable_sort v idx.

(** The conversion of a [double] to [int]: truncation. *)
Definition truncate (q : Q) : Z := Z.quot (Qnum q) (Z.pos (Qden q)).

(** [int lYAxisOffset = 0.5 * collisions.size() * (collisions.size() - 1);] *)
Definition lYAxisOffset (size : Z) : Z :=
  truncate ((1 # 2) * inject_Z size * inject_Z (size - 1)).

(** The loop over [sortedIndices], through the fills of [h2dNContributors]:
    the pairs of [collisionNContribs[ic]] and
    [lYAxisOffset + lCollisionIndex]. *)
Fixpoint fill_sorted (collisionNContribs : list Z) (offset : Z) (sortedIndices : list nat)
    (lCollisionIndex : Z) : list (Z * Z) :=
  match sortedIndices with
  | [] => []
  | ic :: rest =>
      (at_index collisionNContribs ic, (offset + lCollisionIndex)%Z)
      :: fill_sorted collisionNContribs offset rest (lCollisionIndex + 1)
  end.

(** [process], through [h2dNContributors]; the collisions are given by
    their [numContrib()]. *)
Definition process (collisions : list Z) : list (Z * Z) :=
  let collisionNContribs := collisions in
  let sortedIndices := sort_indices collisionNContribs in
  let lYAxisOffset := lYAxisOffset (Z.of_nat (List.length collisions)) in
  fill_sorted collisionNContribs lYAxisOffset sortedIndices 0.

End preProcessMCcollisions.

(** ** The event counters of [straRecoStudy] *)

Module straRecoStudy.

Record Configurables := {
  event_sel8_selection : bool;
  event_posZ_selection : bool
}.

Definition default_configurables : Configurables :=
  {| event_sel8_selection := true; event_posZ_selection := true |}.

(** A collision joined with its event selection. *)
Record EvSelCollision := {
  sel8 : bool;
  ev_posZ : Q
}.

(** [evselstats] and the content of [hEventSelection], one entry per
    [evselstep]. *)
Record State := {
  evselstats : Z * Z * Z;
  hEventSelection : Z * Z * Z
}.

Definition resetCounters (s : State) : State :=
  {| evselstats := (0, 0, 0)%Z; hEventSelection := hEventSelection s |}.

Definition fillHistos (s : State) : State :=
  let '(a, b, c) := evselstats s in
  let '(ha, hb, hc) := hEventSelection s in
  {| evselstats := evselstats s; hEventSelection := (ha + a, hb + b, hc + c)%Z |}.

(** [init]: an empty histogram, and [resetCounters()]. *)
Definition init : State :=
  resetCounters {| evselstats := (0, 0, 0)%Z; hEventSelection := (0, 0, 0)%Z |}.

Definition count_kEvSelAll (s : State) : State :=
  let '(a, b, c) := evselstats s in
  {| evselstats := (a + 1, b, c)%Z; hEventSelection := hEventSelection s |}.

Definition count_kEvSelBool (s : State) : State :=
  let '(a, b, c) := evselstats s in
  {| evselstats := (a, b + 1, c)%Z; hEventSelection := hEventSelection s |}.

Definition count_kEvSelVtxZ (s : State) : State :=
  let '(a, b, c) := evselstats s in
  {| evselstats := (a, b, c + 1)%Z; hEventSelection := hEventSelection s |}.

(** [processV0], through the event counters; the loop over the V0s fills
    other histograms only. *)
Definition processV0 (cfg : Configurables) (collision : EvSelCollision) (s : State)
    : State :=
  let s := count_kEvSelAll s in
  if event_sel8_selection cfg && negb (sel8 collision) then s
  else
    let s := count_kEvSelBool s in
    if event_posZ_selection cfg && Qgtb (Qabs (ev_posZ collision)) 10 then s
    else
      let s := count_kEvSelVtxZ s in
      resetCounters (fillHistos s).

(** One call per collision. *)
Definition processV0_each (cfg : Configurables) (collisions : list EvSelCollision)
    (s : State) : State :=
  fold_left (fun s collision => processV0 cfg collision s) collisions s.

(** The two selections. *)
Definition passes_sel8 (cfg : Configurables) (collision : EvSelCollision) : bool :=
  negb (event_sel8_selection cfg && negb (sel8 collision)).

Definition passes_posZ (cfg : Configurables) (collision : EvSelCollision) : bool :=
  negb (event_posZ_selection cfg && Qgtb (Qabs (ev_posZ collision)) 10).

Definition accepted (cfg : Configurables) (collision : EvSelCollision) : bool :=
  passes_sel8 cfg collision && passes_posZ cfg collision.

End straRecoStudy.

(** ** The grouping benchmarks *)

(** A row of V0CollRefs. *)
Record V0CollRef := {
  straCollisionId : Z;
  ref_globalIndex : Z
}.

(** [fullV0s.sliceBy(perCollision, collIdx)]: the rows of the collision. *)
Definition sliceBy (fullV0s : list V0CollRef) (collIdx : Z) : list V0CollRef :=
  filter (fun v0 => (straCollisionId v0 =? collIdx)%Z) fullV0s.

Module groupingBenchmarkPreslice.

(** [process], through the values filled into [hV0sPerEvent]; a collision
    is given by its [globalIndex()]. *)
Definition process (collisions : list Z) (fullV0s : list V0CollRef) : list Z :=
  map (fun coll =>
         let collIdx := coll in
         let V0s := sliceBy fullV0s collIdx in
         Z.of_nat (List.length V0s))
      collisions.

End groupingBenchmarkPreslice.

Module groupingBenchmarkCustom.

(** The histograms, as the fills in order, and [atDF]; the time histogram
    is left out. *)
Record State := {
  atDF : Z;
  hV0sPerEvent : list Z;
  hCollisionsVsDF : list (Z * Z);
  hV0sVsDF : list (Z * Z)
}.

Definition init : State :=
  {| atDF := 0; hV0sPerEvent := []; hCollisionsVsDF := []; hV0sVsDF := [] |}.

(** [v0grouped[i].push_back(x)], defined for [0 <= i < v0grouped.size()]. *)
Fixpoint push_back_nth (i : nat) (x : Z) (v0grouped : list (list Z))
    : option (list (list Z)) :=
  match v0grouped, i with
  | [], _ => None
  | g :: rest, O => Some ((g ++ [x]) :: rest)
  | g :: rest, S i' =>
      match push_back_nth i' x rest with
      | Some rest' => Some (g :: rest')
      | None => None
      end
  end.

Definition push_back_at (i x : Z) (v0grouped : list (list Z)) : option (list (list Z)) :=
  if (0 <=? i)%Z then push_back_nth (Z.to_nat i) x v0grouped else None.

(** [for (const auto& v0 : fullV0s) v0grouped[v0.straCollisionId()].push_back(v0.globalIndex());] *)
Fixpoint group (fullV0s : list V0CollRef) (v0grouped : list (list Z))
    : option (list (list Z)) :=
  match fullV0s with
  | [] => Some v0grouped
  | v0 :: rest =>
      match push_back_at (straCollisionId v0) (ref_globalIndex v0) v0grouped with
      | Some v0grouped' => group rest v0grouped'
      | None => None
      end
  end.

(** [v0grouped[coll.globalIndex()].size()] for every collision. *)
Fixpoint group_sizes (collisions : list Z) (v0grouped : list (list Z)) : option (list Z) :=
  match collisions with
  | [] => Some []
  | coll :: rest =>
      if (0 <=? coll)%Z then
        match nth_error v0grouped (Z.to_nat coll), group_sizes rest v0grouped with
        | Some g, Some sizes => Some (Z.of_nat (List.length g) :: sizes)
        | _, _ => None
        end
      else None
  end.

(** [process]: [None] when an access falls outside [v0grouped]. *)
Definition process (collisions : list Z) (fullV0s : list V0CollRef) (s : State)
    : option State :=
  match collisions with
  | [] => Some s
  | _ :: _ =>
      let v0grouped := repeat [] (List.length collisions) in
      match group fullV0s v0grouped with
      | None => None
      | Some v0grouped =>
          match group_sizes collisions v0grouped with
          | None => None
          | Some sizes =>
              Some {| atDF := atDF s + 1;
                      hV0sPerEvent := hV0sPerEvent s ++ sizes;
                      hCollisionsVsDF :=
                        hCollisionsVsDF s
                        ++ [(atDF s, Z.of_nat (List.length collisions))];
                      hV0sVsDF :=
                        hV0sVsDF s ++ [(atDF s, Z.of_nat (List.length fullV0s))] |}
          end
      end
  end.

End groupingBenchmarkCustom.

Module groupingBenchmarkPresliceUnsorted.

(** The members; [collisionsThisDF] and [V0sThisDF] have no initial value
    ([None]). *)
Record State := {
  atDF : Z;
  atFilledDF : Z;
  collisionsThisDF : option Z;
  V0sThisDF : option Z;
  hCollisionsVsDF : list (Z * option Z);
  hV0sVsDF : list (Z * option Z)
}.

Definition init : State :=
  {| atDF := 0; atFilledDF := 0; collisionsThisDF := None; V0sThisDF := None;
     hCollisionsVsDF := []; hV0sVsDF := [] |}.

(** [process]; the slices taken in the loop are not used. *)
Definition process (collisions : list Z) (fullV0s : list V0CollRef) (s : State) : State :=
  let size := Z.of_nat (List.length collisions) in
  let s :=
    if (size >? 0)%Z then
      {| atDF := atDF s; atFilledDF := atFilledDF s;
         collisionsThisDF := Some size;
         V0sThisDF := Some (Z.of_nat (List.length fullV0s));
         hCollisionsVsDF := hCollisionsVsDF s; hV0sVsDF := hV0sVsDF s |}
    else s in
  let s :=
    if (atDF s >? 0)%Z && (size =? 0)%Z then
      {| atDF := atDF s; atFilledDF := atFilledDF s + 1;
         collisionsThisDF := collisionsThisDF s; V0sThisDF := V0sThisDF s;
         hCollisionsVsDF := hCollisionsVsDF s ++ [(atFilledDF s, collisionsThisDF s)];
         hV0sVsDF := hV0sVsDF s ++ [(atFilledDF s, V0sThisDF s)] |}
    else s in
  {| atDF := atDF s + 1; atFilledDF := atFilledDF s;
     collisionsThisDF := collisionsThisDF s; V0sThisDF := V0sThisDF s;
     hCollisionsVsDF := hCollisionsVsDF s; hV0sVsDF := hV0sVsDF s |}.

(** One call per data frame. *)
Definition process_each (frames : list (list Z * list V0CollRef)) (s : State) : State :=
  fold_left (fun s f => process (fst f) (snd f) s) frames s.

End groupingBenchmarkPresliceUnsorted.

(** The order [sort_indices] is to produce on indices: a larger value first,
    and among equal values the smaller index first. *)
Definition ranks_before (v : list Z) (i j : nat) : Prop :=
  (preProcessMCcollisions.at_index v j < preProcessMCcollisions.at_index v i)%Z
  \/ (preProcessMCcollisions.at_index v i = preProcessMCcollisions.at_index v j
      /\ (i < j)%nat).

(** Every filled data frame followed by an empty one. *)
Definition alternating (filled : list (list Z * list V0CollRef))
    : list (list Z * list V0CollRef) :=
  flat_map (fun f => [f; ([], [])]) filled.

(** The entries the unsorted benchmark is to record for these: frame number
    and size. *)
Fixpoint recorded (size : list Z * list V0CollRef -> Z)
    (filled : list (list Z * list V0CollRef)) (at_ : Z) : list (Z * option Z) :=
  match filled with
  | [] => []
  | f :: rest => (at_, Some (size f)) :: recorded size rest (at_ + 1)
  end.

(** Tables to run the benchmarks on. *)
Definition sample_refs : list V0CollRef :=
  [ {| straCollisionId := 1; ref_globalIndex := 0 |};
    {| straCollisionId := 0; ref_globalIndex := 1 |};
    {| straCollisionId := 1; ref_globalIndex := 2 |} ].

Definition sample_filled : list (list Z * list V0CollRef) :=
  [ ([0; 1]%Z, sample_refs); ([0]%Z, []) ].

(** The entry of an event counter or of [hEventSelection] for a step. *)
Definition kEvSelAll (t : Z * Z * Z) : Z := fst (fst t).
Definition kEvSelBool (t : Z * Z * Z) : Z := snd (fst t).
Definition kEvSelVtxZ (t : Z * Z * Z) : Z := snd t.

(** How many of the collisions satisfy [p]. *)
Definition how_many (A : Type) (p : A -> bool) (l : list A) : Z :=
  Z.of_nat (List.length (filter p l)).

(** The collisions since the last accepted one. *)
Definition since_accepted (cfg : straRecoStudy.Configurables)
    (collisions : list straRecoStudy.EvSelCollision) : list straRecoStudy.EvSelCollision :=
  fold_left (fun pending collision =>
               if straRecoStudy.accepted cfg collision then []
               else pending ++ [collision])
            collisions [].

(** Collisions to run the counters on: accepted, rejected by sel8, rejected
    by the vertex position. *)
Definition sample_events : list straRecoStudy.EvSelCollision :=
  [ {| straRecoStudy.sel8 := true; straRecoStudy.ev_posZ := 3 |};
    {| straRecoStudy.sel8 := false; straRecoStudy.ev_posZ := 1 |};
    {| straRecoStudy.sel8 := true; straRecoStudy.ev_posZ := -12 |} ].

(** [i] is a row of a table of [n] rows. *)
Definition in_table (n : nat) (i : Z) : bool :=
  (0 <=? i)%Z && (i <? Z.of_nat n)%Z.

(** The sum of the values filled. *)
Definition total (values : list Z) : Z := fold_right Z.add 0%Z values.

(** * Properties *)

(** ** Comparisons *)

Lemma Qltb_lt (x y : Q) : Qltb x y = true <-> x < y.
Proof. unfold Qltb, Qlt. apply Z.ltb_lt. Qed.

Lemma Qltb_ge (x y : Q) : Qltb x y = false <-> y <= x.
Proof. unfold Qltb, Qle. apply Z.ltb_ge. Qed.

Lemma Qgtb_le (x y : Q) : Qgtb x y = false <-> x <= y.
Proof. unfold Qgtb. apply Qltb_ge. Qed.

(** ** Running extrema *)

Lemma keep_smaller_cases (d a : Q) :
  (keep_smaller d a = d /\ d < a) \/ (keep_smaller d a = a /\ a <= d).
Proof.
  unfold keep_smaller. destruct (Qltb d a) eqn:E.
  - left. split; [reflexivity | now apply Qltb_lt].
  - right. split; [reflexivity | now apply Qltb_ge].
Qed.

Lemma keep_larger_cases (d a : Q) :
  (keep_larger d a = d /\ a < d) \/ (keep_larger d a = a /\ d <= a).
Proof.
  unfold keep_larger, Qgtb. destruct (Qltb a d) eqn:E.
  - left. split; [reflexivity | now apply Qltb_lt].
  - right. split; [reflexivity | now apply Qltb_ge].
Qed.

Lemma fold_keep_smaller_least (l : list Q) (a : Q) :
  is_least (fold_left (fun acc d => keep_smaller d acc) l a) (a :: l).
Proof.
  revert a. induction l as [|d l IH]; intros a; simpl.
  - split; [now left | intros x [<- | []]; apply Qle_refl].
  - destruct (IH (keep_smaller d a)) as [Hin Hle]. split.
    + destruct Hin as [Hin | Hin]; [| now right; right].
      destruct (keep_smaller_cases d a) as [[E _] | [E _]]; rewrite E in *.
      * right; now left.
      * now left.
    + intros x Hx.
      assert (Hk : fold_left (fun acc d0 => keep_smaller d0 acc) l (keep_smaller d a)
                   <= keep_smaller d a) by (apply Hle; now left).
      destruct Hx as [<- | [<- | Hx]].
      * eapply Qle_trans; [exact Hk |].
        destruct (keep_smaller_cases d a) as [[E H] | [E H]]; rewrite E.
        -- now apply Qlt_le_weak.
        -- apply Qle_refl.
      * eapply Qle_trans; [exact Hk |].
        destruct (keep_smaller_cases d a) as [[E H] | [E H]]; rewrite E.
        -- apply Qle_refl.
        -- exact H.
      * apply Hle. now right.
Qed.

Lemma fold_keep_larger_greatest (l : list Q) (a : Q) :
  is_greatest (fold_left (fun acc d => keep_larger d acc) l a) (a :: l).
Proof.
  revert a. induction l as [|d l IH]; intros a; simpl.
  - split; [now left | intros x [<- | []]; apply Qle_refl].
  - destruct (IH (keep_larger d a)) as [Hin Hle]. split.
    + destruct Hin as [Hin | Hin]; [| now right; right].
      destruct (keep_larger_cases d a) as [[E _] | [E _]]; rewrite E in *.
      * right; now left.
      * now left.
    + intros x Hx.
      assert (Hk : keep_larger d a
                   <= fold_left (fun acc d0 => keep_larger d0 acc) l (keep_larger d a))
        by (apply Hle; now left).
      destruct Hx as [<- | [<- | Hx]].
      * eapply Qle_trans; [| exact Hk].
        destruct (keep_larger_cases d a) as [[E H] | [E H]]; rewrite E.
        -- now apply Qlt_le_weak.
        -- apply Qle_refl.
      * eapply Qle_trans; [| exact Hk].
        destruct (keep_larger_cases d a) as [[E H] | [E H]]; rewrite E.
        -- apply Qle_refl.
        -- exact H.
      * apply Hle. now right.
Qed.

(** When some element of [l] lies strictly below the starting value, the
    least element of [a :: l] is found in [l]. *)
Lemma is_least_without_start (r a : Q) (l : list Q) :
  is_least r (a :: l) -> (exists d, In d l /\ d < a) -> is_least r l.
Proof.
  intros [Hin Hle] [d [Hd Hlt]]. split.
  - destruct Hin as [<- | Hin]; [| exact Hin].
    exfalso. apply (Qlt_not_le d a Hlt). apply Hle. now right.
  - intros x Hx. apply Hle. now right.
Qed.

Lemma is_greatest_without_start (r a : Q) (l : list Q) :
  is_greatest r (a :: l) -> (exists d, In d l /\ a < d) -> is_greatest r l.
Proof.
  intros [Hin Hle] [d [Hd Hlt]]. split.
  - destruct Hin as [<- | Hin]; [| exact Hin].
    exfalso. apply (Qlt_not_le a d Hlt). apply Hle. now right.
  - intros x Hx. apply Hle. now right.
Qed.

(** ** The scan, one threshold at a time *)

Section ScanProjection.

(** A field of [Scan], the option name that feeds it and the update the
    source applies to it. *)
Variable field : Scan -> Q.
Variable name : string.
Variable update : Q -> Q -> Q.

Hypothesis field_scan_option : forall l o,
  field (scan_option l o)
  = if String.eqb (opt_name o) name then update (defaultValue o) (field l) else field l.

Hypothesis field_set_covmats : forall v l,
  field (set_scan_createV0CovMats v l) = field l.

Let run (l : list Q) (a : Q) : Q := fold_left (fun acc d => update d acc) l a.

Lemma field_scan_options (opts : list ConfigParamSpec) (l : Scan) :
  field (fold_left scan_option opts l) = run (named name opts) (field l).
Proof.
  revert l. induction opts as [|o opts IH]; intros l; simpl; [reflexivity |].
  rewrite IH, field_scan_option. unfold named. simpl.
  destruct (String.eqb (opt_name o) name); reflexivity.
Qed.

Lemma field_scan_input (device : DeviceSpec) (input : InputSpec) (l : Scan) :
  field (scan_input device l input) = run (heard_on name device input) (field l).
Proof.
  unfold scan_input, heard_on.
  destruct (String.eqb (dev_name device) "lambdakzero-initializer"); [reflexivity |].
  destruct (String.eqb (binding input) "V0Covs");
    rewrite ?field_set_covmats;
    destruct (listens_to device input); rewrite ?field_scan_options; reflexivity.
Qed.

Lemma field_scan_inputs (device : DeviceSpec) (ins : list InputSpec) (l : Scan) :
  field (fold_left (scan_input device) ins l)
  = run (flat_map (heard_on name device) ins) (field l).
Proof.
  revert l. induction ins as [|i ins IH]; intros l; simpl; [reflexivity |].
  rewrite IH, field_scan_input. unfold run. now rewrite fold_left_app.
Qed.

Lemma field_scan_devices (devices : list DeviceSpec) (l : Scan) :
  field (fold_left scan_device devices l) = run (heard name devices) (field l).
Proof.
  revert l. induction devices as [|d devices IH]; intros l; simpl; [reflexivity |].
  rewrite IH. unfold scan_device. rewrite field_scan_inputs.
  unfold run, heard. simpl. now rewrite fold_left_app.
Qed.

End ScanProjection.

Ltac scan_option_field :=
  intros l o; unfold scan_option;
  repeat match goal with
         | |- context [String.eqb (opt_name o) ?n] =>
             destruct (String.eqb (opt_name o) n) eqn:?
         end;
  try reflexivity;
  repeat match goal with
         | H : String.eqb _ _ = true |- _ => apply String.eqb_eq in H
         end;
  congruence.

Lemma radius_scan_option l o :
  loosest_radius (scan_option l o)
  = if String.eqb (opt_name o) "v0setting_radius"
    then keep_smaller (defaultValue o) (loosest_radius l) else loosest_radius l.
Proof. revert l o. scan_option_field. Qed.

Lemma dcanegtopv_scan_option l o :
  loosest_dcanegtopv (scan_option l o)
  = if String.eqb (opt_name o) "v0setting_dcanegtopv"
    then keep_smaller (defaultValue o) (loosest_dcanegtopv l) else loosest_dcanegtopv l.
Proof. revert l o. scan_option_field. Qed.

Lemma dcapostopv_scan_option l o :
  loosest_dcapostopv (scan_option l o)
  = if String.eqb (opt_name o) "v0setting_dcapostopv"
    then keep_smaller (defaultValue o) (loosest_dcapostopv l) else loosest_dcapostopv l.
Proof. revert l o. scan_option_field. Qed.

Lemma dcav0dau_scan_option l o :
  loosest_dcav0dau (scan_option l o)
  = if String.eqb (opt_name o) "v0setting_dcav0dau"
    then keep_larger (defaultValue o) (loosest_dcav0dau l) else loosest_dcav0dau l.
Proof. revert l o. scan_option_field. Qed.

Lemma v0cospa_scan_option l o :
  loosest_v0cospa (scan_option l o)
  = if String.eqb (opt_name o) "v0setting_cospa"
    then keep_smaller (defaultValue o) (loosest_v0cospa l) else loosest_v0cospa l.
Proof. revert l o. scan_option_field. Qed.

(** ** [init]: what the negotiation decides *)

Lemma init_ready (cfg : Configurables) (devices : list DeviceSpec) (s : Builder)
    (cfg' : Configurables) (s' : Builder) :
  init cfg devices s = Ready cfg' s' ->
  check_process_switches cfg = None
  /\ cfg' = autodetect cfg devices /\ s' = resetHistos s.
Proof.
  unfold init. destruct (check_process_switches cfg); [discriminate |].
  intros E. injection E as <- <-. repeat split.
Qed.

(** With autodetect mode off, [init] leaves every configurable as given. *)
Lemma init_without_autodetect (cfg : Configurables) (devices : list DeviceSpec)
    (s : Builder) (cfg' : Configurables) (s' : Builder) :
  d_UseAutodetectMode cfg = false ->
  init cfg devices s = Ready cfg' s' -> cfg' = cfg.
Proof.
  intros Hoff E. apply init_ready in E as (_ & -> & _).
  unfold autodetect. now rewrite Hoff.
Qed.

Lemma autodetect_radius (cfg : Configurables) (devices : list DeviceSpec) :
  d_UseAutodetectMode cfg = true ->
  v0radius (autodetect cfg devices)
  = fold_left (fun acc d => keep_smaller d acc) (heard "v0setting_radius" devices) 100.
Proof.
  intros Hon. unfold autodetect, scan_devices. rewrite Hon. simpl.
  now rewrite (field_scan_devices loosest_radius "v0setting_radius" keep_smaller
                 radius_scan_option (fun _ _ => eq_refl)).
Qed.

Lemma autodetect_dcapostopv (cfg : Configurables) (devices : list DeviceSpec) :
  d_UseAutodetectMode cfg = true ->
  dcapostopv (autodetect cfg devices)
  = fold_left (fun acc d => keep_smaller d acc) (heard "v0setting_dcapostopv" devices) 100.
Proof.
  intros Hon. unfold autodetect, scan_devices. rewrite Hon. simpl.
  now rewrite (field_scan_devices loosest_dcapostopv "v0setting_dcapostopv" keep_smaller
                 dcapostopv_scan_option (fun _ _ => eq_refl)).
Qed.

Lemma autodetect_dcanegtopv (cfg : Configurables) (devices : list DeviceSpec) :
  d_UseAutodetectMode cfg = true ->
  dcanegtopv (autodetect cfg devices)
  = fold_left (fun acc d => keep_smaller d acc) (heard "v0setting_dcanegtopv" devices) 100.
Proof.
  intros Hon. unfold autodetect, scan_devices. rewrite Hon. simpl.
  now rewrite (field_scan_devices loosest_dcanegtopv "v0setting_dcanegtopv" keep_smaller
                 dcanegtopv_scan_option (fun _ _ => eq_refl)).
Qed.

Lemma autodetect_v0cospa (cfg : Configurables) (devices : list DeviceSpec) :
  d_UseAutodetectMode cfg = true ->
  v0cospa (autodetect cfg devices)
  = fold_left (fun acc d => keep_smaller d acc) (heard "v0setting_cospa" devices) 100.
Proof.
  intros Hon. unfold autodetect, scan_devices. rewrite Hon. simpl.
  now rewrite (field_scan_devices loosest_v0cospa "v0setting_cospa" keep_smaller
                 v0cospa_scan_option (fun _ _ => eq_refl)).
Qed.

Lemma autodetect_dcav0dau (cfg : Configurables) (devices : list DeviceSpec) :
  d_UseAutodetectMode cfg = true ->
  dcav0dau (autodetect cfg devices)
  = fold_left (fun acc d => keep_larger d acc) (heard "v0setting_dcav0dau" devices) (-100).
Proof.
  intros Hon. unfold autodetect, scan_devices. rewrite Hon. simpl.
  now rewrite (field_scan_devices loosest_dcav0dau "v0setting_dcav0dau" keep_larger
                 dcav0dau_scan_option (fun _ _ => eq_refl)).
Qed.

(** Whatever the scan reads was declared by a device subscribed to V0Datas. *)
Lemma heard_declared (name : string) (devices : list DeviceSpec) (d : Q) :
  In d (heard name devices) -> In d (declared name devices).
Proof.
  unfold heard, declared. rewrite !in_flat_map.
  intros (device & Hdev & Hd). exists device. split; [exact Hdev |].
  apply in_flat_map in Hd as (input & Hin & Hd).
  unfold heard_on, listens_to in Hd.
  destruct (String.eqb (dev_name device) "lambdakzero-initializer"); [destruct Hd |].
  destruct (String.eqb (binding input) "V0Datas") eqn:Eb; [| destruct Hd].
  replace (subscribed_to_V0Datas device) with true.
  - simpl in Hd. now destruct (negb _).
  - symmetry. apply existsb_exists. now exists input.
Qed.

(** Conversely, what a subscribed device declares is read by the scan, unless
    the device is one of the two the scan skips. *)
Lemma declared_heard (name : string) (devices : list DeviceSpec) (d : Q) :
  (forall device, In device devices ->
     String.eqb (dev_name device) "lambdakzero-initializer" = false
     /\ String.eqb (dev_name device) "multistrange-builder" = false) ->
  In d (declared name devices) -> In d (heard name devices).
Proof.
  intros Hnames. unfold heard, declared. rewrite !in_flat_map.
  intros (device & Hdev & Hd). exists device. split; [exact Hdev |].
  destruct (subscribed_to_V0Datas device) eqn:Hsub; [| destruct Hd].
  apply existsb_exists in Hsub as (input & Hin & Hbind).
  apply in_flat_map. exists input. split; [exact Hin |].
  destruct (Hnames device Hdev) as [Hinit Hcasc].
  unfold heard_on, listens_to. now rewrite Hinit, Hbind, Hcasc.
Qed.

(** C1, as the code has it: in autodetect mode each negotiated threshold is
    the loosest value among the scan's starting value (100, or -100 for the
    distance between the daughters) and the defaults the scan reads, that is
    those of the devices with an input bound to V0Datas other than
    lambdakzero-initializer and multistrange-builder: the least one for
    v0radius, dcapostopv, dcanegtopv and v0cospa, the greatest one for
    dcav0dau.  As soon as one of the defaults read lies within the starting
    value, the threshold is the smallest (for dcav0dau, the largest) of the
    defaults read. *)
Theorem negotiated_thresholds_are_loosest_heard
    (cfg : Configurables) (devices : list DeviceSpec) (s : Builder)
    (cfg' : Configurables) (s' : Builder) :
  d_UseAutodetectMode cfg = true ->
  init cfg devices s = Ready cfg' s' ->
  (is_least (v0radius cfg') (100 :: heard "v0setting_radius" devices)
   /\ is_greatest (dcav0dau cfg') (-100 :: heard "v0setting_dcav0dau" devices)
   /\ is_least (dcapostopv cfg') (100 :: heard "v0setting_dcapostopv" devices)
   /\ is_least (dcanegtopv cfg') (100 :: heard "v0setting_dcanegtopv" devices)
   /\ is_least (v0cospa cfg') (100 :: heard "v0setting_cospa" devices))
  /\ ((exists d, In d (heard "v0setting_radius" devices) /\ d < 100) ->
      is_least (v0radius cfg') (heard "v0setting_radius" devices))
  /\ ((exists d, In d (heard "v0setting_dcav0dau" devices) /\ -100 < d) ->
      is_greatest (dcav0dau cfg') (heard "v0setting_dcav0dau" devices))
  /\ ((exists d, In d (heard "v0setting_dcapostopv" devices) /\ d < 100) ->
      is_least (dcapostopv cfg') (heard "v0setting_dcapostopv" devices))
  /\ ((exists d, In d (heard "v0setting_dcanegtopv" devices) /\ d < 100) ->
      is_least (dcanegtopv cfg') (heard "v0setting_dcanegtopv" devices))
  /\ ((exists d, In d (heard "v0setting_cospa" devices) /\ d < 100) ->
      is_least (v0cospa cfg') (heard "v0setting_cospa" devices)).
Proof.
  intros Hon E. apply init_ready in E as (_ & -> & _).
  assert (Hr := fold_keep_smaller_least (heard "v0setting_radius" devices) 100).
  assert (Hd := fold_keep_larger_greatest (heard "v0setting_dcav0dau" devices) (-100)).
  assert (Hp := fold_keep_smaller_least (heard "v0setting_dcapostopv" devices) 100).
  assert (Hn := fold_keep_smaller_least (heard "v0setting_dcanegtopv" devices) 100).
  assert (Hc := fold_keep_smaller_least (heard "v0setting_cospa" devices) 100).
  rewrite <- autodetect_radius with (cfg := cfg) in Hr by exact Hon.
  rewrite <- autodetect_dcav0dau with (cfg := cfg) in Hd by exact Hon.
  rewrite <- autodetect_dcapostopv with (cfg := cfg) in Hp by exact Hon.
  rewrite <- autodetect_dcanegtopv with (cfg := cfg) in Hn by exact Hon.
  rewrite <- autodetect_v0cospa with (cfg := cfg) in Hc by exact Hon.
  split; [exact (conj Hr (conj Hd (conj Hp (conj Hn Hc)))) |].
  split; [exact (is_least_without_start Hr) |].
  split; [exact (is_greatest_without_start Hd) |].
  split; [exact (is_least_without_start Hp) |].
  split; [exact (is_least_without_start Hn) |].
  exact (is_least_without_start Hc).
Qed.

(** Consumers asking for 0.5 and 0.9 negotiate a minimum radius of 0.5. *)
Lemma negotiated_thresholds_are_loosest_heard_witness :
  v0radius (autodetect default_configurables two_consumers) = 1 # 2
  /\ is_least (v0radius (autodetect default_configurables two_consumers))
              (heard "v0setting_radius" two_consumers).
Proof.
  split; [reflexivity |].
  apply (negotiated_thresholds_are_loosest_heard
           default_configurables two_consumers sample_builder eq_refl eq_refl).
  exists (1 # 2). split; [now left | reflexivity].
Defined.

(** C1 as stated fails where every declared default lies beyond the starting
    value of the scan: a single consumer declaring a minimum radius of 150
    leaves the threshold at 100, which is not the smallest declared value. *)
Lemma negotiation_stops_at_starting_value :
  declared "v0setting_radius" far_consumer = [150]
  /\ exists cfg' s',
       init default_configurables far_consumer sample_builder = Ready cfg' s'
       /\ v0radius cfg' = 100
       /\ ~ is_least (v0radius cfg') (declared "v0setting_radius" far_consumer).
Proof.
  split; [reflexivity |].
  eexists. eexists. split; [reflexivity |]. split; [reflexivity |].
  intros [Hin _]. simpl in Hin. destruct Hin as [Hin | []]. discriminate Hin.
Qed.

(** The cascade builder is not listened to: its request for 0.5 is ignored
    and the threshold follows the other consumer. *)
Example cascade_builder_is_ignored :
  v0radius (autodetect default_configurables
              [ consumer "multistrange-builder" [radius_option (1 # 2)];
                consumer "analysis-b" [radius_option (9 # 10)] ]) = 9 # 10.
Proof. reflexivity. Qed.

(** C2, as the code has it: in autodetect mode, when the scan reads no
    default for any of the five thresholds, the thresholds after [init] are
    the starting values of the scan (dcanegtopv = 100, dcapostopv = 100,
    v0cospa = 100, dcav0dau = -100, v0radius = 100), not the defaults of the
    configurables; each of them is tighter than the default it replaces.
    With autodetect mode disabled, [init] leaves the configuration, and so
    the five thresholds, as they were given. *)
Theorem negotiation_without_requests
    (cfg : Configurables) (devices : list DeviceSpec) (s : Builder)
    (cfg' : Configurables) (s' : Builder) :
  init cfg devices s = Ready cfg' s' ->
  (d_UseAutodetectMode cfg = true ->
   heard "v0setting_radius" devices = [] ->
   heard "v0setting_dcav0dau" devices = [] ->
   heard "v0setting_dcapostopv" devices = [] ->
   heard "v0setting_dcanegtopv" devices = [] ->
   heard "v0setting_cospa" devices = [] ->
   (dcanegtopv cfg' = 100 /\ dcapostopv cfg' = 100 /\ v0cospa cfg' = 100
    /\ dcav0dau cfg' = -100 /\ v0radius cfg' = 100)
   /\ (dcanegtopv default_configurables < dcanegtopv cfg'
       /\ dcapostopv default_configurables < dcapostopv cfg'
       /\ v0cospa default_configurables < v0cospa cfg'
       /\ dcav0dau cfg' < dcav0dau default_configurables
       /\ v0radius default_configurables < v0radius cfg'))
  /\ (d_UseAutodetectMode cfg = false ->
      cfg' = cfg
      /\ dcanegtopv cfg' = dcanegtopv cfg /\ dcapostopv cfg' = dcapostopv cfg
      /\ v0cospa cfg' = v0cospa cfg /\ dcav0dau cfg' = dcav0dau cfg
      /\ v0radius cfg' = v0radius cfg).
Proof.
  intros E. split.
  - intros Hon Hr Hd Hp Hn Hc. apply init_ready in E as (_ & -> & _).
    rewrite (@autodetect_radius cfg devices Hon), (@autodetect_dcav0dau cfg devices Hon),
      (@autodetect_dcapostopv cfg devices Hon), (@autodetect_dcanegtopv cfg devices Hon),
      (@autodetect_v0cospa cfg devices Hon), Hr, Hd, Hp, Hn, Hc.
    simpl. repeat split.
  - intros Hoff. rewrite (@init_without_autodetect cfg devices s cfg' s' Hoff E). repeat split.
Qed.

Lemma negotiation_without_requests_witness :
  ((dcanegtopv (autodetect default_configurables []) = 100
    /\ dcapostopv (autodetect default_configurables []) = 100
    /\ v0cospa (autodetect default_configurables []) = 100
    /\ dcav0dau (autodetect default_configurables []) = -100
    /\ v0radius (autodetect default_configurables []) = 100)
   /\ (dcanegtopv default_configurables < dcanegtopv (autodetect default_configurables [])
       /\ dcapostopv default_configurables < dcapostopv (autodetect default_configurables [])
       /\ v0cospa default_configurables < v0cospa (autodetect default_configurables [])
       /\ dcav0dau (autodetect default_configurables []) < dcav0dau default_configurables
       /\ v0radius default_configurables < v0radius (autodetect default_configurables [])))
  /\ (autodetect manual_configurables two_consumers = manual_configurables
      /\ dcanegtopv (autodetect manual_configurables two_consumers) = 1 # 10
      /\ dcapostopv (autodetect manual_configurables two_consumers) = 1 # 10
      /\ v0cospa (autodetect manual_configurables two_consumers) = 995 # 1000
      /\ dcav0dau (autodetect manual_configurables two_consumers) = 1
      /\ v0radius (autodetect manual_configurables two_consumers) = 9 # 10).
Proof.
  split.
  - exact (proj1 (negotiation_without_requests default_configurables []
                    sample_builder eq_refl)
             eq_refl eq_refl eq_refl eq_refl eq_refl eq_refl).
  - exact (proj2 (negotiation_without_requests manual_configurables two_consumers
                    sample_builder eq_refl)
             eq_refl).
Defined.

(** C2 as stated fails on the empty execution graph: with the declared
    configuration and no consumer at all, [init] leaves v0radius at 100 and
    not at its default 0.9, dcav0dau at -100 and not at 1, and so on. *)
Lemma no_consumer_does_not_restore_defaults :
  exists cfg' s',
    init default_configurables [] sample_builder = Ready cfg' s'
    /\ ~ v0radius cfg' == v0radius default_configurables
    /\ ~ dcav0dau cfg' == dcav0dau default_configurables
    /\ ~ v0cospa cfg' == v0cospa default_configurables
    /\ ~ dcapostopv cfg' == dcapostopv default_configurables
    /\ ~ dcanegtopv cfg' == dcanegtopv default_configurables
    /\ v0radius default_configurables < v0radius cfg'.
Proof.
  eexists. eexists. split; [reflexivity |].
  repeat split; intros H; discriminate H.
Qed.

(** ** [init]: the process switches *)

Lemma check_process_switches_spec (c : Configurables) :
  check_process_switches c = None <-> enabled_switches c = 1%nat.
Proof.
  unfold check_process_switches, enabled_switches.
  destruct (doprocessRun2 c), (doprocessRun3 c), (doprocessRun3associated c);
    simpl; split; intros H; try reflexivity; discriminate H.
Qed.

(** C8: [init] ends in a fatal error exactly when the number of enabled
    process switches is not one (none enabled, or any two of processRun2,
    processRun3 and processRun3associated together), and otherwise completes
    with a builder whose counters are reset; the two-switch check of the
    first revision behaves in the same way. *)
Theorem init_fatal_iff_not_one_switch
    (cfg : Configurables) (devices : list DeviceSpec) (s : Builder) :
  ((exists message, init cfg devices s = Fatal message) <-> enabled_switches cfg <> 1%nat)
  /\ (init cfg devices s = Ready (autodetect cfg devices) (resetHistos s)
      <-> enabled_switches cfg = 1%nat)
  /\ (forall run2 run3,
        check_process_switches_rev1 run2 run3 = None
        <-> enabled_switches_rev1 run2 run3 = 1%nat).
Proof.
  pose proof (check_process_switches_spec cfg) as Hspec.
  unfold init. destruct (check_process_switches cfg) as [message |] eqn:E.
  - assert (Hne : enabled_switches cfg <> 1%nat).
    { intros H. apply Hspec in H. discriminate H. }
    split; [| split].
    + split; [intros _; exact Hne | intros _; now exists message].
    + split; [intros H; discriminate H | intros H; now elim Hne].
    + intros [] []; simpl; split; intros H; try reflexivity; discriminate H.
  - assert (Hone : enabled_switches cfg = 1%nat) by now apply Hspec.
    split; [| split].
    + split; [intros [message H]; discriminate H | intros H; now elim H].
    + split; [intros _; exact Hone | reflexivity].
    + intros [] []; simpl; split; intros H; try reflexivity; discriminate H.
Qed.

(** The three pairs and the empty selection, one by one. *)
Example init_fatal_run2_run3 (devices : list DeviceSpec) (s : Builder) :
  init {| createV0CovMats := -1; d_UseAutodetectMode := true; mincrossedrows := 70;
          dcanegtopv := 1 # 10; dcapostopv := 1 # 10; v0cospa := 995 # 1000;
          dcav0dau := 1; v0radius := 9 # 10; tpcrefit := 0; d_UseAbsDCA := true;
          d_UseWeightedPCA := false; useMatCorrType := 0;
          doprocessRun2 := true; doprocessRun3 := true;
          doprocessRun3associated := false |} devices s
  = Fatal "Cannot enable processRun2 and processRun3 at the same time. Please choose one.".
Proof. reflexivity. Qed.

(** ** Rounding to [float] *)

Lemma two_not_zero : ~ 2 == 0.
Proof. discriminate. Qed.

(** [floor_log2] is the exponent of the power of two at or below [q]. *)
Lemma floor_log2_spec (q : Q) :
  0 < q -> 2 ^ floor_log2 q <= q /\ q < 2 ^ (floor_log2 q + 1).
Proof.
  intros Hq. destruct q as [n d].
  assert (Hn : (0 < n)%Z) by (unfold Qlt in Hq; cbn in Hq; lia).
  unfold floor_log2. cbn [Qnum Qden].
  set (ln := Z.log2 n). set (ld := Z.log2 (Z.pos d)).
  destruct (Z.log2_spec n Hn) as [Hn1 Hn2]. fold ln in Hn1, Hn2.
  destruct (Z.log2_spec (Z.pos d) (Pos2Z.is_pos d)) as [Hd1 Hd2]. fold ld in Hd1, Hd2.
  assert (Hln : (0 <= ln)%Z) by apply Z.log2_nonneg.
  assert (Hld : (0 <= ld)%Z) by apply Z.log2_nonneg.
  assert (Hupper : n # d < 2 ^ (ln - ld + 1)).
  { replace (ln - ld + 1)%Z with (Z.succ ln - ld)%Z by lia.
    rewrite (Qpower_minus 2 _ _ two_not_zero).
    rewrite <- !(Zpower_Qpower 2) by lia.
    apply Qlt_shift_div_l.
    - change 0 with (inject_Z 0). rewrite <- Zlt_Qlt. lia.
    - unfold Qlt, Qmult, inject_Z. cbn [Qnum Qden]. rewrite Pos.mul_1_r. nia. }
  assert (Hlower : 2 ^ (ln - ld - 1) <= n # d).
  { replace (ln - ld - 1)%Z with (ln - Z.succ ld)%Z by lia.
    rewrite (Qpower_minus 2 _ _ two_not_zero).
    rewrite <- !(Zpower_Qpower 2) by lia.
    apply Qle_shift_div_r.
    - change 0 with (inject_Z 0). rewrite <- Zlt_Qlt. lia.
    - unfold Qle, Qmult, inject_Z. cbn [Qnum Qden]. rewrite Pos.mul_1_r. nia. }
  destruct (Qle_bool (2 ^ (ln - ld)) (n # d)) eqn:E.
  - apply Qle_bool_iff in E. split; assumption.
  - split; [exact Hlower |].
    replace (ln - ld - 1 + 1)%Z with (ln - ld)%Z by lia.
    apply Qnot_le_lt. intros H. apply Qle_bool_iff in H. congruence.
Qed.

(** The nearest integer is within one half. *)
Lemma round_half_even_error (x : Q) :
  Qabs (inject_Z (round_half_even x) - x) <= 1 # 2.
Proof.
  unfold round_half_even.
  pose proof (Qfloor_le x) as Hlo. pose proof (Qlt_floor x) as Hhi.
  rewrite inject_Z_plus in Hhi. change (inject_Z 1) with 1 in Hhi.
  apply Qabs_Qle_condition.
  destruct (Qcompare (x - inject_Z (Qfloor x)) (1 # 2)) eqn:E.
  - apply Qeq_alt in E. destruct (Z.even (Qfloor x));
      rewrite ?inject_Z_plus; change (inject_Z 1) with 1; split; lra.
  - apply Qlt_alt in E. split; lra.
  - apply Qgt_alt in E. rewrite inject_Z_plus. change (inject_Z 1) with 1. split; lra.
Qed.

(** The rounded number is within half a unit in the last place. *)
Lemma round_binary_quantum (prec emin : Z) (q : Q) :
  ~ q == 0 ->
  let quantum := 2 ^ (Z.max (floor_log2 (Qabs q)) emin - prec + 1) in
  Qabs (round_binary prec emin q - q) <= quantum * (1 # 2).
Proof.
  intros Hq quantum. unfold round_binary.
  destruct (Qeq_bool q 0) eqn:E; [apply Qeq_bool_iff in E; contradiction |].
  rewrite Qred_correct. fold quantum.
  assert (Hpos : 0 < quantum) by (apply Qpower_0_lt; reflexivity).
  pose proof (round_half_even_error (q / quantum)) as H.
  set (m := inject_Z (round_half_even (q / quantum))) in *.
  assert (Eq : m * quantum - q == (m - q / quantum) * quantum) by (field; lra).
  rewrite Eq, Qabs_Qmult, (Qabs_pos quantum) by lra.
  rewrite (Qmult_comm quantum).
  apply Qmult_le_compat_r; [exact H | lra].
Qed.

(** Rounding to [prec] bits changes a number that is not below the least
    normal one by at most the fraction [2 ^ -prec] of it. *)
Lemma round_binary_relative (prec emin : Z) (q : Q) :
  2 ^ emin <= Qabs q ->
  Qabs (round_binary prec emin q - q) <= Qabs q * 2 ^ (- prec).
Proof.
  intros Hnormal.
  assert (Hpos : 0 < Qabs q)
    by (apply Qlt_le_trans with (2 ^ emin); [apply Qpower_0_lt; reflexivity | exact Hnormal]).
  assert (Hq : ~ q == 0).
  { intros E. rewrite E in Hpos. cbn in Hpos. discriminate Hpos. }
  destruct (floor_log2_spec Hpos) as [Hlo Hhi].
  assert (He : (emin <= floor_log2 (Qabs q))%Z).
  { assert (H : 2 ^ emin < 2 ^ (floor_log2 (Qabs q) + 1))
      by (apply Qle_lt_trans with (Qabs q); assumption).
    apply Qpower_lt_compat_l_inv in H; [lia | reflexivity]. }
  pose proof (@round_binary_quantum prec emin q Hq) as H. cbv zeta in H.
  rewrite Z.max_l in H by exact He.
  apply Qle_trans with (1 := H).
  replace (floor_log2 (Qabs q) - prec + 1)%Z
    with (floor_log2 (Qabs q) + (- prec + 1))%Z by lia.
  rewrite (Qpower_plus 2 _ _ two_not_zero).
  rewrite (Qpower_plus 2 (- prec) 1 two_not_zero).
  change (2 ^ 1) with 2.
  assert (Hp : 0 < 2 ^ (- prec)) by (apply Qpower_0_lt; reflexivity).
  setoid_replace (2 ^ floor_log2 (Qabs q) * (2 ^ (- prec) * 2) * (1 # 2))
    with (2 ^ floor_log2 (Qabs q) * 2 ^ (- prec)) by ring.
  apply Qmult_le_compat_r; [exact Hlo | lra].
Qed.

(** For [float]: one part in 2^24, from 2^-126 upwards. *)
Lemma to_float_relative (q : Q) :
  1 # 2 ^ 126 <= Qabs q -> Qabs (to_float q - q) <= Qabs q * (1 # 2 ^ 24).
Proof.
  intros H. apply (@round_binary_relative 24 (-126) q). exact H.
Qed.

(** A number in the normal range is not rounded to zero. *)
Lemma to_float_not_zero (q : Q) :
  1 # 2 ^ 126 <= Qabs q -> ~ to_float q == 0.
Proof.
  intros H E. pose proof (@to_float_relative q H) as R.
  rewrite E in R.
  assert (Hq : Qabs (0 - q) == Qabs q) by (rewrite <- Qabs_opp; apply Qabs_wd; ring).
  rewrite Hq in R.
  assert (Hpos : 0 < Qabs q) by (apply Qlt_le_trans with (1 # 2 ^ 126); [reflexivity | exact H]).
  assert (Hlt : Qabs q * (1 # 2 ^ 24) < Qabs q * 1)
    by (apply Qmult_lt_l; [exact Hpos | reflexivity]).
  lra.
Qed.

(** Whatever the size of [q], the rounding to [float] moves it by no more
    than [rounding_slack q]. *)
Lemma to_float_error (q : Q) : Qabs (to_float q - q) <= rounding_slack q.
Proof.
  unfold rounding_slack.
  assert (Hnonneg : 0 <= Qabs q) by apply Qabs_nonneg.
  assert (Hu : 0 <= Qabs q * (1 # 2 ^ 24))
    by (apply Qmult_le_0_compat; [exact Hnonneg | discriminate]).
  assert (Heps : 0 < 1 # 2 ^ 150) by reflexivity.
  set (u := 1 # 2 ^ 24) in *. set (eps := 1 # 2 ^ 150) in *.
  destruct (Qeq_bool q 0) eqn:E.
  - assert (Hz : to_float q - q == 0).
    { unfold to_float, round_binary. rewrite E.
      apply Qeq_bool_iff in E. rewrite E. reflexivity. }
    rewrite Hz. change (Qabs 0) with 0. lra.
  - assert (Hq : ~ q == 0) by (intros H; apply Qeq_bool_iff in H; congruence).
    assert (Hpos : 0 < Qabs q).
    { destruct (Qlt_le_dec 0 (Qabs q)) as [H | H]; [exact H |].
      exfalso. apply Hq. apply Qabs_Qle_condition in H. lra. }
    pose proof (@round_binary_quantum 24 (-126) q Hq) as H. cbv zeta in H.
    fold to_float in H.
    destruct (floor_log2_spec Hpos) as [Hlo _].
    destruct (Z.max_spec (floor_log2 (Qabs q)) (-126)) as [[Hlt Hmax] | [Hge Hmax]];
      rewrite Hmax in H; apply Qle_trans with (1 := H).
    + assert (Heq : 2 ^ (-126 - 24 + 1) * (1 # 2) == eps) by reflexivity.
      rewrite Heq. lra.
    + replace (floor_log2 (Qabs q) - 24 + 1)%Z with (floor_log2 (Qabs q) + (-23))%Z by lia.
      rewrite (Qpower_plus 2 _ _ two_not_zero).
      assert (Heq : 2 ^ (-23) * (1 # 2) == u) by reflexivity.
      setoid_replace (2 ^ floor_log2 (Qabs q) * 2 ^ (-23) * (1 # 2))
        with (2 ^ floor_log2 (Qabs q) * u) by (rewrite <- Heq; ring).
      assert (Hm : 2 ^ floor_log2 (Qabs q) * u <= Qabs q * u)
        by (apply Qmult_le_compat_r; [exact Hlo | discriminate]).
      lra.
Qed.

(** Some values: 0.1 and 0.9 are not [float]s, small integers are; ties go
    to the even neighbour, also among the subnormal numbers, whose spacing
    is 2^-149. *)
Example to_float_values :
  to_float (1 # 10) = 13421773 # 134217728
  /\ to_float (9 # 10) = 7549747 # 8388608
  /\ to_float 3 = 3 /\ to_float (-5) = -5 /\ to_float 0 = 0
  /\ to_float 16777217 = 16777216 /\ to_float 16777219 = 16777220
  /\ to_float (1 # 2 ^ 149) = 1 # 2 ^ 149
  /\ to_float (1 # 2 ^ 150) = 0
  /\ to_float (3 # 2 ^ 150) = 1 # 2 ^ 148.
Proof. vm_compute. repeat split. Qed.

(** ** One candidate *)

Arguments to_float : simpl never.
Arguments to_double : simpl never.
Arguments Qltb : simpl never.
Arguments Qgtb : simpl never.
Arguments incr_at : simpl never.
Arguments incr_prefix : simpl never.

Lemma incr_at_prefix (k : nat) (a : list Z) :
  incr_at k (incr_prefix k a) = incr_prefix (S k) a.
Proof.
  revert a. induction k as [|k IH]; intros [|x a]; try reflexivity.
  change (x + 1 :: incr_at k (incr_prefix k a) = x + 1 :: incr_prefix (S k) a)%Z.
  now rewrite IH.
Qed.

(** Case analysis on the leftmost test of a condition. *)
Ltac case_cond c :=
  lazymatch c with
  | andb ?a _ => case_cond a
  | orb ?a _ => case_cond a
  | negb ?a => case_cond a
  | _ => destruct c eqn:?
  end.

(** One step through the source: decide the next [if], or the outcome of
    the fit. *)
Ltac step_if :=
  first
    [ match goal with
      | |- context [if ?c then _ else _] => case_cond c
      end
    | match goal with
      | |- context [match fitter_process ?a ?b with _ => _ end] =>
          destruct (fitter_process a b) eqn:?
      end ]; cbn.

Ltac unfold_builder :=
  unfold buildV0Candidate, fit_and_select, select_fitted, verdict, expected_rows,
    reaches_fit, passes_refit, passes_crossed_rows, passes_dcaxy, passes_topology,
    pointing_cosine, transverse_radius, v0covs_row; cbn.

Section OneCandidate.

Context `{External}.
Variable cfg : Configurables.
Variable collision : Collision.

Lemma buildV0Candidate_evaluated (p n : Track) (s : Builder) :
  Evaluated cfg collision p n s
    (fst (buildV0Candidate cfg collision p n s))
    (snd (buildV0Candidate cfg collision p n s)).
Proof.
  split.
  all: unfold_builder.
  all: repeat step_if.
  all: try reflexivity.
  all: rewrite <- ?incr_at_prefix; try reflexivity.
  all: try discriminate.
  all: lia.
Qed.

(** The rows handed to the tables after one evaluation are those computed
    from the inputs alone. *)
Lemma build_step_output (v : V0) (s : Builder) :
  (if fst (buildV0Candidate cfg collision (posTrack v) (negTrack v) s)
   then {| v0data :=
             [v0data_row v
                (v0candidate
                   (snd (buildV0Candidate cfg collision (posTrack v) (negTrack v) s)))];
           v0covs :=
             if negb (createV0CovMats cfg =? 0)%Z
             then [v0covs_row
                     (snd (buildV0Candidate cfg collision (posTrack v) (negTrack v) s))]
             else [] |}
   else {| v0data := []; v0covs := [] |})
  = expected_rows cfg collision v.
Proof.
  unfold_builder. repeat step_if; try reflexivity; try discriminate.
Qed.

Lemma verdict_reaches_fit (p n : Track) :
  fit_invoked (verdict cfg collision p n) = reaches_fit cfg p n.
Proof.
  unfold_builder. repeat step_if; reflexivity.
Qed.

Lemma verdict_throws (p n : Track) (f : FitState) :
  reaches_fit cfg p n = true ->
  fitter_process (getTrackParCov p) (getTrackParCov n) = FitThrows f ->
  verdict cfg collision p n = StopException.
Proof.
  unfold verdict, reaches_fit. intros Hr Hf. rewrite Hf.
  apply andb_prop in Hr as [Hr H3]. apply andb_prop in Hr as [H1 H2].
  now rewrite H1, H2, H3.
Qed.

Lemma verdict_no_candidate (p n : Track) (f : FitState) :
  reaches_fit cfg p n = true ->
  fitter_process (getTrackParCov p) (getTrackParCov n) = FitReturns 0 f ->
  verdict cfg collision p n = StopNoCandidate.
Proof.
  unfold verdict, reaches_fit. intros Hr Hf. rewrite Hf.
  apply andb_prop in Hr as [Hr H3]. apply andb_prop in Hr as [H1 H2].
  now rewrite H1, H2, H3.
Qed.

End OneCandidate.

(** ** The loop over the V0s *)

Lemma non_increasing_incr_prefix (k : nat) (a : list Z) :
  non_increasing a -> non_increasing (incr_prefix k a).
Proof.
  revert k. induction a as [|x a IH]; intros k Ha.
  - destruct k; exact I.
  - destruct k as [|k]; [exact Ha |].
    change (incr_prefix (S k) (x :: a)) with ((x + 1)%Z :: incr_prefix k a).
    destruct a as [|y a].
    + destruct k; exact I.
    + destruct Ha as [Hxy Ha]. specialize (IH k Ha). destruct k as [|k].
      * change (incr_prefix 0 (y :: a)) with (y :: a) in *.
        split; [lia | exact Ha].
      * change (incr_prefix (S k) (y :: a)) with ((y + 1)%Z :: incr_prefix k a) in *.
        split; [lia | exact IH].
Qed.

Lemma length_incr_prefix (k : nat) (a : list Z) :
  List.length (incr_prefix k a) = List.length a.
Proof.
  revert a. induction k as [|k IH]; intros [|x a]; try reflexivity.
  change (S (List.length (incr_prefix k a)) = S (List.length a)). now rewrite IH.
Qed.

(** Every counter moves by zero or one in an evaluation. *)
Lemma nth_incr_prefix (k i : nat) (a : list Z) :
  (nth i a 0 <= nth i (incr_prefix k a) 0 <= nth i a 0 + 1)%Z.
Proof.
  revert i a. induction k as [|k IH]; intros i [|x a].
  - destruct i; simpl; lia.
  - change (incr_prefix 0 (x :: a)) with (x :: a). lia.
  - destruct i; simpl; lia.
  - change (incr_prefix (S k) (x :: a)) with ((x + 1)%Z :: incr_prefix k a).
    destruct i as [|i]; simpl; [lia | apply IH].
Qed.

Lemma non_increasing_chain (a : list Z) :
  List.length a = kNV0Steps -> non_increasing a ->
  (stat kV0All a >= stat kV0TPCrefit a)%Z
  /\ (stat kV0TPCrefit a >= stat kV0CrossedRows a)%Z
  /\ (stat kV0CrossedRows a >= stat kV0DCAxy a)%Z
  /\ (stat kV0DCAxy a >= stat kV0DCADau a)%Z
  /\ (stat kV0DCADau a >= stat kV0CosPA a)%Z
  /\ (stat kV0CosPA a >= stat kV0Radius a)%Z.
Proof.
  destruct a as [|a0 [|a1 [|a2 [|a3 [|a4 [|a5 [|a6 [|a7 a]]]]]]]]; try discriminate.
  intros _. unfold stat. simpl. tauto.
Qed.

Section Loop.

Context `{External}.
Variable cfg : Configurables.
Variable collision : Collision.

Lemma build_loop_cons (v : V0) (rest : list V0) (s : Builder) :
  build_loop cfg collision (v :: rest) s
  = let r := buildV0Candidate cfg collision (posTrack v) (negTrack v) s in
    let l := build_loop cfg collision rest (snd r) in
    (append_produced
       (if fst r
        then {| v0data := [v0data_row v (v0candidate (snd r))];
                v0covs := if negb (createV0CovMats cfg =? 0)%Z
                          then [v0covs_row (snd r)] else [] |}
        else {| v0data := []; v0covs := [] |})
       (fst l),
     snd l).
Proof.
  cbn [build_loop].
  destruct (buildV0Candidate cfg collision (posTrack v) (negTrack v) s) as [ok s1].
  cbn [fst snd]. destruct ok; cbn [negb].
  - destruct (build_loop cfg collision rest s1) as [out s2]. reflexivity.
  - destruct (build_loop cfg collision rest s1) as [[rows covs] s2]. reflexivity.
Qed.

(** A rejected candidate leaves the loop to the remaining ones. *)
Lemma build_loop_rejected (v : V0) (rest : list V0) (s : Builder) :
  fst (buildV0Candidate cfg collision (posTrack v) (negTrack v) s) = false ->
  build_loop cfg collision (v :: rest) s
  = build_loop cfg collision rest
      (snd (buildV0Candidate cfg collision (posTrack v) (negTrack v) s)).
Proof.
  intros Hrej. cbn [build_loop].
  destruct (buildV0Candidate cfg collision (posTrack v) (negTrack v) s) as [ok s1].
  cbn [fst snd] in *. now subst ok.
Qed.

(** The output of the loop does not depend on the builder it starts from. *)
Lemma build_loop_output (V0s : list V0) (s : Builder) :
  fst (build_loop cfg collision V0s s) = expected_output cfg collision V0s.
Proof.
  revert s. induction V0s as [|v rest IH]; intros s; [reflexivity |].
  rewrite build_loop_cons. cbn [fst expected_output].
  now rewrite IH, build_step_output.
Qed.

Lemma buildStrangenessTables_output (V0s : list V0) (s : Builder) :
  fst (buildStrangenessTables cfg collision V0s s) = expected_output cfg collision V0s.
Proof.
  unfold buildStrangenessTables.
  rewrite <- (build_loop_output V0s (count_event s)).
  now destruct (build_loop cfg collision V0s (count_event s)).
Qed.

Lemma buildStrangenessTables_state (V0s : list V0) (s : Builder) :
  snd (buildStrangenessTables cfg collision V0s s)
  = resetHistos (fillHistos (snd (build_loop cfg collision V0s (count_event s)))).
Proof.
  unfold buildStrangenessTables.
  now destruct (build_loop cfg collision V0s (count_event s)).
Qed.

Lemma build_loop_v0stats_shape (V0s : list V0) (s : Builder) :
  non_increasing (v0stats (statisticsRegistry s)) ->
  non_increasing (v0stats (statisticsRegistry (snd (build_loop cfg collision V0s s))))
  /\ List.length (v0stats (statisticsRegistry (snd (build_loop cfg collision V0s s))))
     = List.length (v0stats (statisticsRegistry s)).
Proof.
  revert s. induction V0s as [|v rest IH]; intros s Hs; [now split |].
  rewrite build_loop_cons. cbn [snd].
  destruct (buildV0Candidate_evaluated cfg collision (posTrack v) (negTrack v) s)
    as [_ Hstats _ _ _ _ _].
  destruct (IH (snd (buildV0Candidate cfg collision (posTrack v) (negTrack v) s)))
    as [Hmono Hlen].
  - rewrite Hstats. now apply non_increasing_incr_prefix.
  - split; [exact Hmono |]. now rewrite Hlen, Hstats, length_incr_prefix.
Qed.

(** No counter exceeds its starting value by more than the number of
    candidates handled. *)
Lemma loop_v0stats_bounded (V0s : list V0) (s : Builder) (i : nat) :
  (nth i (v0stats (statisticsRegistry s)) 0
   <= nth i (v0stats (statisticsRegistry (snd (build_loop cfg collision V0s s)))) 0
   <= nth i (v0stats (statisticsRegistry s)) 0 + Z.of_nat (List.length V0s))%Z.
Proof.
  revert s. induction V0s as [|v rest IH]; intros s.
  - cbn. lia.
  - rewrite build_loop_cons. cbn [snd].
    destruct (buildV0Candidate_evaluated cfg collision (posTrack v) (negTrack v) s)
      as [_ Hstats _ _ _ _ _].
    specialize (IH (snd (buildV0Candidate cfg collision (posTrack v) (negTrack v) s))).
    rewrite Hstats in IH.
    pose proof (nth_incr_prefix
                  (stages_reached (verdict cfg collision (posTrack v) (negTrack v)))
                  i (v0stats (statisticsRegistry s))) as Hstep.
    change (List.length (v :: rest)) with (S (List.length rest)). lia.
Qed.

(** Every row comes from one V0 of the batch. *)
Lemma expected_output_rows (V0s : list V0) (row : V0DataRow) :
  In row (v0data (expected_output cfg collision V0s)) ->
  exists v, In v V0s /\ In row (v0data (expected_rows cfg collision v)).
Proof.
  induction V0s as [|v rest IH]; cbn; [intros [] |].
  rewrite in_app_iff. intros [Hrow | Hrow].
  - exists v. split; [now left | exact Hrow].
  - destruct (IH Hrow) as (w & Hw & Hin). exists w. split; [now right | exact Hin].
Qed.

Lemma expected_rows_satisfy_cuts (v : V0) (row : V0DataRow) :
  In row (v0data (expected_rows cfg collision v)) ->
  satisfies_cuts cfg collision row.
Proof.
  unfold expected_rows, reaches_fit, passes_dcaxy, passes_topology.
  destruct (passes_refit cfg (posTrack v) (negTrack v)); [| intros []].
  destruct (passes_crossed_rows cfg (posTrack v) (negTrack v)); [| intros []].
  destruct (Qltb (Qabs (dcaXY (posTrack v))) (dcapostopv cfg)) eqn:Hp; [intros [] |].
  destruct (Qltb (Qabs (dcaXY (negTrack v))) (dcanegtopv cfg)) eqn:Hn; [intros [] |].
  cbn [andb orb negb].
  destruct (fitter_process _ _) as [f | nCand f]; [intros [] |].
  destruct (nCand =? 0)%Z; [intros [] |]. cbn [andb negb].
  destruct (Qgtb _ _) eqn:Hd; [intros [] |].
  destruct (Qltb (to_float (pointing_cosine _ _)) _) eqn:Hc; [intros [] |].
  destruct (Qltb (to_float (transverse_radius _)) _) eqn:Hr; [intros [] |].
  cbn [andb negb v0data]. intros [<- | []].
  unfold satisfies_cuts, row_pointing_cosine, row_radius.
  unfold pointing_cosine, transverse_radius in *. cbn in *.
  repeat split;
    first [now apply Qgtb_le | now apply Qltb_ge].
Qed.

Lemma fails_a_cut_rejected (v : V0) :
  fails_a_cut cfg collision v ->
  is_accepted (verdict cfg collision (posTrack v) (negTrack v)) = false.
Proof.
  unfold fails_a_cut, verdict, passes_dcaxy.
  intros Hfail.
  destruct (passes_refit cfg (posTrack v) (negTrack v)); [| reflexivity].
  destruct (passes_crossed_rows cfg (posTrack v) (negTrack v)); [| reflexivity].
  cbn [negb].
  destruct (Qltb (Qabs (dcaXY (posTrack v))) (dcapostopv cfg)) eqn:Hp; [reflexivity |].
  destruct (Qltb (Qabs (dcaXY (negTrack v))) (dcanegtopv cfg)) eqn:Hn; [reflexivity |].
  cbn [negb orb].
  destruct Hfail as [Hlt | [Hlt | (nCand & f & Hfit & Hcut)]].
  - apply Qltb_lt in Hlt. congruence.
  - apply Qltb_lt in Hlt. congruence.
  - rewrite Hfit. destruct (nCand =? 0)%Z; [reflexivity |].
    cbv zeta in Hcut.
    destruct (Qgtb _ _) eqn:Hd; [reflexivity |].
    destruct (Qltb (to_float (pointing_cosine _ _)) _) eqn:Hc; [reflexivity |].
    destruct (Qltb (to_float (transverse_radius _)) _) eqn:Hr; [reflexivity |].
    exfalso. destruct Hcut as [Hlt | [Hlt | Hlt]].
    + apply Qltb_lt in Hlt. unfold Qgtb in Hd. congruence.
    + apply Qltb_lt in Hlt. congruence.
    + apply Qltb_lt in Hlt. congruence.
Qed.

End Loop.

(** ** The flush to the histograms *)

Lemma fill_criteria_adds (stats h : list Z) (k : v0step) :
  List.length stats = kNV0Steps -> (kNV0Steps <= List.length h)%nat ->
  stat k (fill_criteria kNV0Steps stats h) = (stat k h + stat k stats)%Z.
Proof.
  destruct stats as [|a0 [|a1 [|a2 [|a3 [|a4 [|a5 [|a6 [|a7 stats]]]]]]]];
    try discriminate.
  intros _.
  destruct h as [|h0 [|h1 [|h2 [|h3 [|h4 [|h5 [|h6 h]]]]]]];
    cbn [List.length]; intros Hbins; try (unfold kNV0Steps in Hbins; lia).
  destruct k; reflexivity.
Qed.

Section Flush.

Context `{External}.
Variable cfg : Configurables.
Variable collision : Collision.

Lemma build_loop_registry (V0s : list V0) (s : Builder) :
  registry (snd (build_loop cfg collision V0s s)) = registry s.
Proof.
  revert s. induction V0s as [|v rest IH]; intros s; [reflexivity |].
  rewrite build_loop_cons. cbn [snd]. rewrite IH.
  now destruct (buildV0Candidate_evaluated cfg collision (posTrack v) (negTrack v) s).
Qed.

(** After a call that started from reset counters, every stage bin of
    hV0Criteria has grown by the counter of its stage, and the counters are
    back to zero. *)
Lemma buildStrangenessTables_flush (V0s : list V0) (s : Builder) (k : v0step) :
  (kNV0Steps <= List.length (hV0Criteria (registry s)))%nat ->
  let at_flush :=
    statisticsRegistry (snd (build_loop cfg collision V0s (count_event (resetHistos s)))) in
  let after := snd (buildStrangenessTables cfg collision V0s (resetHistos s)) in
  stat k (hV0Criteria (registry after))
  = (stat k (hV0Criteria (registry s)) + stat k (v0stats at_flush))%Z
  /\ hCaughtExceptions (registry after)
     = (hCaughtExceptions (registry s) + exceptions at_flush)%Z
  /\ statisticsRegistry after = statisticsRegistry (resetHistos s).
Proof.
  intros Hbins. cbv zeta. rewrite buildStrangenessTables_state.
  cbn [resetHistos fillHistos registry set_registry set_statisticsRegistry
       statisticsRegistry hV0Criteria hCaughtExceptions].
  rewrite build_loop_registry. cbn [registry count_event set_statisticsRegistry].
  split; [| split; reflexivity].
  apply fill_criteria_adds; [| exact Hbins].
  destruct (build_loop_v0stats_shape cfg collision V0s (count_event (resetHistos s)))
    as [_ Hlen]; [cbn; repeat split; lia |].
  rewrite Hlen. reflexivity.
Qed.

End Flush.

(** ** The staged selection *)

(** C3: after a counter reset, whatever the batch, the counters handed to
    [fillHistos] decrease along the pipeline, from [kV0All] to [kV0Radius];
    and one evaluation of a candidate increments the counters of a non-empty
    prefix of the stages, those the candidate reached, and no other. *)
Theorem stage_counters_non_increasing `{External}
    (cfg : Configurables) (collision : Collision) (V0s : list V0) (s : Builder) :
  let flushed :=
    v0stats (statisticsRegistry
               (snd (build_loop cfg collision V0s (count_event (resetHistos s))))) in
  ((stat kV0All flushed >= stat kV0TPCrefit flushed)%Z
   /\ (stat kV0TPCrefit flushed >= stat kV0CrossedRows flushed)%Z
   /\ (stat kV0CrossedRows flushed >= stat kV0DCAxy flushed)%Z
   /\ (stat kV0DCAxy flushed >= stat kV0DCADau flushed)%Z
   /\ (stat kV0DCADau flushed >= stat kV0CosPA flushed)%Z
   /\ (stat kV0CosPA flushed >= stat kV0Radius flushed)%Z)
  /\ forall (p n : Track) (s1 : Builder),
       exists k, (1 <= k <= kNV0Steps)%nat
                 /\ k = stages_reached (verdict cfg collision p n)
                 /\ v0stats (statisticsRegistry
                               (snd (buildV0Candidate cfg collision p n s1)))
                    = incr_prefix k (v0stats (statisticsRegistry s1)).
Proof.
  cbv zeta. split.
  - destruct (build_loop_v0stats_shape cfg collision V0s (count_event (resetHistos s)))
      as [Hmono Hlen].
    + cbn. repeat split; lia.
    + apply non_increasing_chain; [| exact Hmono]. rewrite Hlen. reflexivity.
  - intros p n s1. exists (stages_reached (verdict cfg collision p n)).
    split; [| split; [reflexivity |]].
    + unfold kNV0Steps. destruct (verdict cfg collision p n); cbn; lia.
    + now destruct (buildV0Candidate_evaluated cfg collision p n s1).
Qed.

(** C4: when the fit of a candidate throws, [buildV0Candidate] returns
    false, the exception counter has grown by exactly one, and the loop goes
    on with the remaining candidates without a row for this one. *)
Theorem fitter_exception_is_contained `{External}
    (cfg : Configurables) (collision : Collision) (v : V0) (rest : list V0)
    (s : Builder) (f : FitState) :
  reaches_fit cfg (posTrack v) (negTrack v) = true ->
  fitter_process (getTrackParCov (posTrack v)) (getTrackParCov (negTrack v))
  = FitThrows f ->
  let r := buildV0Candidate cfg collision (posTrack v) (negTrack v) s in
  fst r = false
  /\ exceptions (statisticsRegistry (snd r)) = (exceptions (statisticsRegistry s) + 1)%Z
  /\ build_loop cfg collision (v :: rest) s = build_loop cfg collision rest (snd r)
  /\ fst (buildStrangenessTables cfg collision (v :: rest) s)
     = expected_output cfg collision rest.
Proof.
  intros Hreach Hthrow r.
  pose proof (verdict_throws cfg collision _ _ Hreach Hthrow) as Hv.
  destruct (buildV0Candidate_evaluated cfg collision (posTrack v) (negTrack v) s)
    as [Hok _ Hexc _ _ _ _].
  fold r in Hok, Hexc. rewrite Hv in Hok, Hexc. cbn in Hok, Hexc.
  split; [exact Hok |]. split; [exact Hexc |]. split.
  - now apply build_loop_rejected.
  - rewrite buildStrangenessTables_output. cbn [expected_output].
    rewrite <- build_step_output with (s := s). fold r. rewrite Hok.
    now destruct (expected_output cfg collision rest).
Qed.

Lemma fitter_exception_is_contained_witness :
  let v := sample_V0 1 singular_pos good_neg in
  let rest := [sample_V0 4 good_pos good_neg] in
  let r := @buildV0Candidate sample_external default_configurables sample_collision
             (posTrack v) (negTrack v) sample_builder in
  fst r = false
  /\ exceptions (statisticsRegistry (snd r)) = 1%Z
  /\ @build_loop sample_external default_configurables sample_collision
       (v :: rest) sample_builder
     = @build_loop sample_external default_configurables sample_collision rest (snd r)
  /\ fst (@buildStrangenessTables sample_external default_configurables
            sample_collision (v :: rest) sample_builder)
     = @expected_output sample_external default_configurables sample_collision rest.
Proof.
  exact (@fitter_exception_is_contained sample_external default_configurables
           sample_collision (sample_V0 1 singular_pos good_neg)
           [sample_V0 4 good_pos good_neg] sample_builder _ eq_refl eq_refl).
Defined.

(** C5: when the fit returns zero candidates without throwing,
    [buildV0Candidate] returns false and the exception counter keeps its
    value, whereas it grows when the fit throws. *)
Theorem zero_candidates_is_not_an_exception `{External}
    (cfg : Configurables) (collision : Collision) (p n : Track)
    (s : Builder) (f : FitState) :
  reaches_fit cfg p n = true ->
  fitter_process (getTrackParCov p) (getTrackParCov n) = FitReturns 0 f ->
  let r := buildV0Candidate cfg collision p n s in
  fst r = false
  /\ exceptions (statisticsRegistry (snd r)) = exceptions (statisticsRegistry s)
  /\ verdict cfg collision p n = StopNoCandidate.
Proof.
  intros Hreach Hzero r.
  pose proof (verdict_no_candidate cfg collision _ _ Hreach Hzero) as Hv.
  destruct (buildV0Candidate_evaluated cfg collision p n s) as [Hok _ Hexc _ _ _ _].
  fold r in Hok, Hexc. rewrite Hv in Hok, Hexc. cbn in Hok, Hexc.
  split; [exact Hok |]. split; [lia | exact Hv].
Qed.

Lemma zero_candidates_is_not_an_exception_witness :
  let r := @buildV0Candidate sample_external default_configurables sample_collision
             good_pos parallel_neg sample_builder in
  fst r = false
  /\ exceptions (statisticsRegistry (snd r)) = exceptions (statisticsRegistry sample_builder)
  /\ @verdict sample_external default_configurables sample_collision good_pos parallel_neg
     = StopNoCandidate.
Proof.
  exact (@zero_candidates_is_not_an_exception sample_external default_configurables
           sample_collision good_pos parallel_neg sample_builder _ eq_refl eq_refl).
Defined.

(** Below the cut by no more than the rounding: from the test on the rounded
    value to the value itself. *)
Lemma rounded_cut_slack (threshold q : Q) :
  threshold <= to_float q -> threshold - rounding_slack q <= q.
Proof.
  intros Hcut. pose proof (to_float_error q) as Herr.
  apply Qabs_Qle_condition in Herr. lra.
Qed.

(** C6, as the code has it: every row [buildStrangenessTables] hands to the
    V0 table satisfies the five cuts as [buildV0Candidate] tests them:
    distance between the daughters at most dcav0dau, pointing cosine rounded
    to [float] at least v0cospa, radius rounded to [float] at least v0radius,
    |DCAxy| of the daughters at least dcapostopv and dcanegtopv.  The cosine
    and the radius themselves are then below their threshold by no more than
    the rounding, one part in 2^24 of their size and 2^-150.  A V0 that fails
    one of the five tests is rejected by [buildV0Candidate] and yields no
    row. *)
Theorem emitted_rows_satisfy_cuts `{External}
    (cfg : Configurables) (collision : Collision) (V0s : list V0) (s : Builder) :
  (forall row,
      In row (v0data (fst (buildStrangenessTables cfg collision V0s s))) ->
      satisfies_cuts cfg collision row
      /\ v0cospa cfg - rounding_slack (row_pointing_cosine collision row)
         <= row_pointing_cosine collision row
      /\ v0radius cfg - rounding_slack (row_radius row) <= row_radius row)
  /\ (forall v s0,
        fails_a_cut cfg collision v ->
        fst (buildV0Candidate cfg collision (posTrack v) (negTrack v) s0) = false
        /\ v0data (fst (buildStrangenessTables cfg collision [v] s0)) = []).
Proof.
  split.
  - intros row Hrow. rewrite buildStrangenessTables_output in Hrow.
    apply expected_output_rows in Hrow as (v & _ & Hrow).
    apply expected_rows_satisfy_cuts in Hrow.
    split; [exact Hrow |].
    destruct Hrow as (_ & Hcos & Hrad & _).
    split; now apply rounded_cut_slack.
  - intros v s0 Hfail. apply fails_a_cut_rejected in Hfail.
    assert (Hrej : forall s1,
               fst (buildV0Candidate cfg collision (posTrack v) (negTrack v) s1) = false).
    { intros s1.
      destruct (buildV0Candidate_evaluated cfg collision (posTrack v) (negTrack v) s1)
        as [Hok _ _ _ _ _ _].
      now rewrite Hok. }
    split; [apply Hrej |].
    rewrite buildStrangenessTables_output. cbn [expected_output].
    rewrite <- build_step_output with (s := s0), Hrej. reflexivity.
Qed.

(** C6 as stated fails on the cosine itself: with the default thresholds, a
    V0 whose pointing cosine is 66773319 / 2^26 = 0.9949999899, below v0cospa
    = 0.995, gets a row, since the [float] nearest to that cosine is
    8346665 / 2^23 = 0.9950000048. *)
Lemma rounded_cosine_passes_below_v0cospa :
  exists row,
    v0data (fst (@buildStrangenessTables grazing_external default_configurables
                   sample_collision [sample_V0 0 good_pos good_neg] sample_builder))
    = [row]
    /\ @row_pointing_cosine grazing_external sample_collision row = 66773319 # 67108864
    /\ @row_pointing_cosine grazing_external sample_collision row
       < v0cospa default_configurables
    /\ to_float (@row_pointing_cosine grazing_external sample_collision row)
       = 8346665 # 8388608
    /\ ~ @satisfies_cuts_unrounded grazing_external default_configurables
           sample_collision row.
Proof.
  eexists. split; [vm_compute; reflexivity |].
  split; [reflexivity |]. split; [reflexivity |]. split; [vm_compute; reflexivity |].
  intros (_ & Hcos & _). vm_compute in Hcos. now apply Hcos.
Qed.

(** C7: a daughter whose |DCAxy| is strictly below its minimum makes
    [buildV0Candidate] return false with the fitter untouched, no call to
    [process] being made; and whenever a call to [process] is made, both
    daughters have |DCAxy| at or above their minimum. *)
Theorem dcaxy_prefilter_precedes_fit `{External}
    (cfg : Configurables) (collision : Collision) (p n : Track) (s : Builder) :
  let r := buildV0Candidate cfg collision p n s in
  ((Qabs (dcaXY p) < dcapostopv cfg \/ Qabs (dcaXY n) < dcanegtopv cfg) ->
   fst r = false /\ fitter (snd r) = fitter s)
  /\ (process_calls (fitter (snd r)) <> process_calls (fitter s) ->
      process_calls (fitter (snd r)) = S (process_calls (fitter s))
      /\ dcapostopv cfg <= Qabs (dcaXY p) /\ dcanegtopv cfg <= Qabs (dcaXY n)).
Proof.
  intros r.
  destruct (buildV0Candidate_evaluated cfg collision p n s)
    as [Hok _ _ _ _ Hcalls Hfitter].
  fold r in Hok, Hcalls, Hfitter.
  rewrite verdict_reaches_fit in Hcalls, Hfitter.
  split.
  - intros Hlow.
    assert (Hdca : passes_dcaxy cfg p n = false).
    { unfold passes_dcaxy.
      destruct Hlow as [Hlow | Hlow]; apply Qltb_lt in Hlow; rewrite Hlow;
        [reflexivity | now rewrite orb_true_r]. }
    assert (Hreach : reaches_fit cfg p n = false).
    { unfold reaches_fit. rewrite Hdca. apply andb_false_r. }
    split; [| now apply Hfitter].
    rewrite Hok, <- (negb_involutive (is_accepted _)).
    destruct (is_accepted (verdict cfg collision p n)) eqn:Hacc; [| reflexivity].
    pose proof (verdict_reaches_fit cfg collision p n) as Hinv.
    rewrite Hreach in Hinv. destruct (verdict cfg collision p n); discriminate.
  - intros Hcalled. destruct (reaches_fit cfg p n) eqn:Hreach; [| lia].
    split; [lia |].
    unfold reaches_fit in Hreach. apply andb_prop in Hreach as [_ Hdca].
    unfold passes_dcaxy in Hdca. apply negb_true_iff, orb_false_elim in Hdca as [Hp Hn].
    split; now apply Qltb_ge.
Qed.

(** C9: two successive runs of [buildStrangenessTables] on the same batch,
    with the same configuration and the same collision, hand the same rows
    in the same order to both output tables; the second run starts from
    reset counters; and more generally the output does not depend on the
    builder a run starts from. *)
Theorem buildStrangenessTables_repeatable `{External}
    (cfg : Configurables) (collision : Collision) (V0s : list V0) (s : Builder) :
  let first := buildStrangenessTables cfg collision V0s s in
  let second := buildStrangenessTables cfg collision V0s (snd first) in
  fst second = fst first
  /\ statisticsRegistry (snd first)
     = {| v0stats := repeat 0%Z kNV0Steps; exceptions := 0; eventCounter := 0 |}
  /\ forall s1 s2,
       fst (buildStrangenessTables cfg collision V0s s1)
       = fst (buildStrangenessTables cfg collision V0s s2).
Proof.
  cbv zeta. split; [| split].
  - now rewrite !buildStrangenessTables_output.
  - now rewrite buildStrangenessTables_state.
  - intros s1 s2. now rewrite !buildStrangenessTables_output.
Qed.

(** The sample batch: five V0s, of which the second makes the fitter
    throw, the third yields no candidate and the fourth has a daughter too
    close to the primary vertex. *)
Example sample_batch_counters :
  statisticsRegistry
    (snd (@build_loop sample_external default_configurables sample_collision
            sample_batch sample_builder))
  = {| v0stats := [5; 5; 5; 4; 2; 2; 2]%Z; exceptions := 1; eventCounter := 0 |}.
Proof. vm_compute. reflexivity. Qed.

Example sample_batch_rows :
  map row_v0Id
      (v0data (fst (@buildStrangenessTables sample_external default_configurables
                      sample_collision sample_batch sample_builder)))
  = [0; 4]%Z.
Proof. vm_compute. reflexivity. Qed.

Example sample_batch_fitter_calls :
  process_calls
    (fitter (snd (@build_loop sample_external default_configurables sample_collision
                    sample_batch sample_builder)))
  = 4%nat.
Proof. vm_compute. reflexivity. Qed.

(** ** The link table *)

Lemma vector_write_empty (i x : Z) (c : nat) :
  lambdakzeroV0DataLinkBuilder.vector_write i x
    {| lambdakzeroV0DataLinkBuilder.elements := [];
       lambdakzeroV0DataLinkBuilder.capacity := c |} = None.
Proof.
  unfold lambdakzeroV0DataLinkBuilder.vector_write,
    lambdakzeroV0DataLinkBuilder.vector_size. cbn.
  destruct (0 <=? i)%Z eqn:E0; [| reflexivity].
  destruct (i <? 0)%Z eqn:E1; [| reflexivity]. lia.
Qed.

(** C10 fails on the code: [reserve] leaves the size of [lIndices] at zero,
    so for a V0 table with at least one row the first write [lIndices[0] = -1]
    already falls outside the vector's size, and so does any write for a
    V0Datas row when the V0 table is empty; [process] is defined on the two
    empty tables only. *)
Theorem link_process_accesses_beyond_size
    (v0table : list V0) (v0datatable : list lambdakzeroV0DataLinkBuilder.V0Data) :
  (v0table <> [] \/ v0datatable <> [])
  <-> lambdakzeroV0DataLinkBuilder.process v0table v0datatable = None.
Proof.
  unfold lambdakzeroV0DataLinkBuilder.process. split.
  - intros Hne. destruct v0table as [|v v0table].
    + destruct v0datatable as [|d v0datatable]; [destruct Hne; congruence |].
      cbn [List.length lambdakzeroV0DataLinkBuilder.fill_minus_one
           lambdakzeroV0DataLinkBuilder.record_links].
      unfold lambdakzeroV0DataLinkBuilder.vector_reserve,
        lambdakzeroV0DataLinkBuilder.vector_empty.
      cbn [lambdakzeroV0DataLinkBuilder.elements lambdakzeroV0DataLinkBuilder.capacity].
      now rewrite vector_write_empty.
    + cbn [List.length lambdakzeroV0DataLinkBuilder.fill_minus_one].
      rewrite Nat.sub_diag.
      unfold lambdakzeroV0DataLinkBuilder.vector_reserve,
        lambdakzeroV0DataLinkBuilder.vector_empty.
      cbn [lambdakzeroV0DataLinkBuilder.elements lambdakzeroV0DataLinkBuilder.capacity].
      now rewrite vector_write_empty.
  - destruct v0table as [|v v0table]; [| intros _; left; discriminate].
    destruct v0datatable as [|d v0datatable]; [discriminate |].
    intros _. right. discriminate.
Qed.

Example link_process_one_V0 :
  lambdakzeroV0DataLinkBuilder.process [sample_V0 0 good_pos good_neg] [] = None.
Proof. reflexivity. Qed.

(** ** The first revision of [buildV0Candidate] *)

Section FirstRevisionCandidate.

Context `{External} `{FirstRevision.Propagator}.
Variable cfg : Configurables.
Variable d_doTrackQA : bool.
Variable collision : Collision.
Variable dcaInfo : Q * Q.
Variables p n : Track.
Variable s : Builder.
Variable qa : FirstRevision.TrackQA.

Let r := FirstRevision.buildV0Candidate cfg d_doTrackQA collision dcaInfo p n s qa.

Ltac unfold_first_revision :=
  unfold r, FirstRevision.buildV0Candidate, FirstRevision.fit_and_select,
    FirstRevision.select_fitted, FirstRevision.posTrackdcaXY,
    FirstRevision.negTrackdcaXY, pointing_cosine, transverse_radius in *; cbn.

Ltac prefix_of_length k :=
  exists k; split;
  [ unfold FirstRevision.kNV0Steps; lia
  | rewrite <- ?incr_at_prefix; reflexivity ].

(** One evaluation increments the counters of a non-empty prefix of the six
    stages. *)
Lemma rev1_counters_prefix :
  exists k, (1 <= k <= FirstRevision.kNV0Steps)%nat
            /\ v0stats (statisticsRegistry (fst (snd r)))
               = incr_prefix k (v0stats (statisticsRegistry s)).
Proof.
  unfold_first_revision. repeat step_if.
  all: first [ prefix_of_length 1%nat | prefix_of_length 2%nat | prefix_of_length 3%nat
             | prefix_of_length 4%nat | prefix_of_length 5%nat | prefix_of_length 6%nat ].
Qed.

(** A thrown fit: false is returned and the exception counter grows by
    one. *)
Lemma rev1_fitter_exception (f : FitState) :
  rev1_reaches_fit cfg collision dcaInfo p n = true ->
  fitter_process (getTrackParCov p) (getTrackParCov n) = FitThrows f ->
  fst r = false
  /\ exceptions (statisticsRegistry (fst (snd r)))
     = (exceptions (statisticsRegistry s) + 1)%Z.
Proof.
  unfold rev1_reaches_fit, passes_refit. unfold_first_revision.
  repeat step_if; intros; try discriminate; split; reflexivity.
Qed.

(** No candidate: false is returned and the exception counter is left
    alone. *)
Lemma rev1_zero_candidates (f : FitState) :
  rev1_reaches_fit cfg collision dcaInfo p n = true ->
  fitter_process (getTrackParCov p) (getTrackParCov n) = FitReturns 0 f ->
  fst r = false
  /\ exceptions (statisticsRegistry (fst (snd r))) = exceptions (statisticsRegistry s).
Proof.
  unfold rev1_reaches_fit, passes_refit. unfold_first_revision.
  repeat step_if; intros; try discriminate; try (split; reflexivity).
  all: match goal with
       | E : FitReturns _ _ = FitReturns 0 _ |- _ => injection E as -> ->
       end; discriminate.
Qed.

(** A daughter below its minimum distance: false is returned and the fitter
    is left alone; a call to the fitter implies both distances at or above
    their minimum. *)
Lemma rev1_prefilter_precedes_fit :
  ((Qabs (FirstRevision.posTrackdcaXY collision dcaInfo p) < dcapostopv cfg
    \/ Qabs (FirstRevision.negTrackdcaXY collision dcaInfo p n) < dcanegtopv cfg) ->
   fst r = false /\ fitter (fst (snd r)) = fitter s)
  /\ (process_calls (fitter (fst (snd r))) <> process_calls (fitter s) ->
      dcapostopv cfg <= Qabs (FirstRevision.posTrackdcaXY collision dcaInfo p)
      /\ dcanegtopv cfg <= Qabs (FirstRevision.negTrackdcaXY collision dcaInfo p n)).
Proof.
  split.
  - intros Hlow.
    assert (Hgate :
              Qltb (Qabs (FirstRevision.posTrackdcaXY collision dcaInfo p)) (dcapostopv cfg)
              || Qltb (Qabs (FirstRevision.negTrackdcaXY collision dcaInfo p n))
                      (dcanegtopv cfg) = true).
    { destruct Hlow as [Hlow | Hlow]; apply Qltb_lt in Hlow; rewrite Hlow;
        [reflexivity | apply orb_true_r]. }
    clear Hlow. revert Hgate. unfold_first_revision.
    repeat step_if; intros; try discriminate; split; reflexivity.
  - destruct (Qltb (Qabs (FirstRevision.posTrackdcaXY collision dcaInfo p))
                   (dcapostopv cfg)) eqn:Hp;
      destruct (Qltb (Qabs (FirstRevision.negTrackdcaXY collision dcaInfo p n))
                     (dcanegtopv cfg)) eqn:Hn.
    4: { intros _. split; now apply Qltb_ge. }
    all: revert Hp Hn; unfold_first_revision.
    all: repeat step_if; intros; try discriminate; congruence.
Qed.

End FirstRevisionCandidate.

(** * Further properties of the builder *)

(** ** Counters and output of a batch *)

Lemma nth_incr_prefix_exact (k i : nat) (a : list Z) :
  (i < List.length a)%nat ->
  nth i (incr_prefix k a) 0%Z = (nth i a 0 + if (i <? k)%nat then 1 else 0)%Z.
Proof.
  revert i a. induction k as [|k IH]; intros i [|x a] Hi; cbn [List.length] in Hi; try lia.
  - change (incr_prefix 0 (x :: a)) with (x :: a). cbn [Nat.ltb Nat.leb]. lia.
  - change (incr_prefix (S k) (x :: a)) with ((x + 1)%Z :: incr_prefix k a).
    destruct i as [|i]; [reflexivity |].
    cbn [nth]. rewrite IH by lia.
    change (S i <? S k)%nat with (i <? k)%nat. reflexivity.
Qed.

Section BatchCounters.

Context `{External}.
Variable cfg : Configurables.
Variable collision : Collision.

Lemma build_loop_stat (k : v0step) (V0s : list V0) (s : Builder) :
  List.length (v0stats (statisticsRegistry s)) = kNV0Steps ->
  stat k (v0stats (statisticsRegistry (snd (build_loop cfg collision V0s s))))
  = (stat k (v0stats (statisticsRegistry s))
     + Z.of_nat (List.length (reached cfg collision k V0s)))%Z.
Proof.
  revert s. induction V0s as [|v rest IH]; intros s Hlen.
  - cbn. lia.
  - rewrite build_loop_cons. cbn [snd].
    destruct (buildV0Candidate_evaluated cfg collision (posTrack v) (negTrack v) s)
      as [_ Hstats _ _ _ _ _].
    rewrite IH by (rewrite Hstats, length_incr_prefix; exact Hlen).
    rewrite Hstats. unfold stat at 1.
    rewrite nth_incr_prefix_exact
      by (rewrite Hlen; unfold kNV0Steps; destruct k; cbn; lia).
    fold (stat k (v0stats (statisticsRegistry s))).
    unfold reached. cbn [filter].
    destruct (step_index k <? stages_reached _)%nat; cbn [List.length]; lia.
Qed.

Lemma build_loop_exceptions (V0s : list V0) (s : Builder) :
  exceptions (statisticsRegistry (snd (build_loop cfg collision V0s s)))
  = (exceptions (statisticsRegistry s)
     + Z.of_nat (List.length (threw cfg collision V0s)))%Z.
Proof.
  revert s. induction V0s as [|v rest IH]; intros s.
  - cbn. lia.
  - rewrite build_loop_cons. cbn [snd].
    destruct (buildV0Candidate_evaluated cfg collision (posTrack v) (negTrack v) s)
      as [_ _ Hexc _ _ _ _].
    rewrite IH, Hexc. unfold threw. cbn [filter].
    destruct (is_exception _); cbn [List.length]; lia.
Qed.

Lemma build_loop_events (V0s : list V0) (s : Builder) :
  eventCounter (statisticsRegistry (snd (build_loop cfg collision V0s s)))
  = eventCounter (statisticsRegistry s).
Proof.
  revert s. induction V0s as [|v rest IH]; intros s; [reflexivity |].
  rewrite build_loop_cons. cbn [snd]. rewrite IH.
  now destruct (buildV0Candidate_evaluated cfg collision (posTrack v) (negTrack v) s).
Qed.

Lemma expected_rows_accepted (v : V0) :
  List.length (v0data (expected_rows cfg collision v))
  = if is_accepted (verdict cfg collision (posTrack v) (negTrack v)) then 1%nat else 0%nat.
Proof.
  rewrite <- build_step_output with (s := sample_builder).
  destruct (buildV0Candidate_evaluated cfg collision (posTrack v) (negTrack v)
              sample_builder) as [Hok _ _ _ _ _ _].
  rewrite <- Hok. now destruct (fst _).
Qed.

Lemma expected_output_rows_count (V0s : list V0) :
  List.length (v0data (expected_output cfg collision V0s))
  = List.length (reached cfg collision kV0Radius V0s).
Proof.
  induction V0s as [|v rest IH]; [reflexivity |].
  cbn [expected_output append_produced v0data]. rewrite length_app, IH, expected_rows_accepted.
  unfold reached. cbn [filter].
  destruct (verdict cfg collision (posTrack v) (negTrack v)); reflexivity.
Qed.

Lemma expected_rows_covs (v : V0) :
  List.length (v0covs (expected_rows cfg collision v))
  = if (createV0CovMats cfg =? 0)%Z then 0%nat
    else List.length (v0data (expected_rows cfg collision v)).
Proof.
  unfold expected_rows.
  destruct (reaches_fit cfg (posTrack v) (negTrack v));
    [| now destruct (createV0CovMats cfg =? 0)%Z].
  destruct (fitter_process _ _) as [f | nCand f];
    [now destruct (createV0CovMats cfg =? 0)%Z |].
  destruct (negb (nCand =? 0)%Z && _);
    now destruct (createV0CovMats cfg =? 0)%Z.
Qed.

Lemma expected_output_covs (V0s : list V0) :
  List.length (v0covs (expected_output cfg collision V0s))
  = if (createV0CovMats cfg =? 0)%Z then 0%nat
    else List.length (v0data (expected_output cfg collision V0s)).
Proof.
  induction V0s as [|v rest IH]; [now destruct (createV0CovMats cfg =? 0)%Z |].
  cbn [expected_output append_produced v0data v0covs].
  rewrite !length_app, IH, expected_rows_covs.
  now destruct (createV0CovMats cfg =? 0)%Z.
Qed.

End BatchCounters.

(** X1: in a call of [buildStrangenessTables] that starts from reset
    counters, every stage counter handed to [fillHistos] is the number of V0s
    of the batch that reached the stage: the first one counts the whole
    batch, the last one counts the rows written to the V0 table, and the
    exception counter counts the V0s whose fit threw. *)
Theorem counters_count_the_batch `{External}
    (cfg : Configurables) (collision : Collision) (V0s : list V0) (s : Builder) :
  let flushed :=
    statisticsRegistry (snd (build_loop cfg collision V0s (count_event (resetHistos s)))) in
  let out := fst (buildStrangenessTables cfg collision V0s (resetHistos s)) in
  (forall k, stat k (v0stats flushed)
             = Z.of_nat (List.length (reached cfg collision k V0s)))
  /\ stat kV0All (v0stats flushed) = Z.of_nat (List.length V0s)
  /\ stat kV0Radius (v0stats flushed) = Z.of_nat (List.length (v0data out))
  /\ exceptions flushed = Z.of_nat (List.length (threw cfg collision V0s))
  /\ eventCounter flushed = 1%Z.
Proof.
  cbv zeta.
  assert (Hk : forall k,
             stat k (v0stats (statisticsRegistry
                                (snd (build_loop cfg collision V0s
                                        (count_event (resetHistos s))))))
             = Z.of_nat (List.length (reached cfg collision k V0s))).
  { intros k. rewrite build_loop_stat by reflexivity. now destruct k. }
  split; [exact Hk |]. split; [| split; [| split]].
  - rewrite Hk. f_equal. unfold reached. clear Hk.
    induction V0s as [|v rest IH]; [reflexivity |]. cbn [filter].
    replace (step_index kV0All
             <? stages_reached (verdict cfg collision (posTrack v) (negTrack v)))%nat
      with true by (now destruct (verdict cfg collision (posTrack v) (negTrack v))).
    cbn [List.length]. now rewrite IH.
  - rewrite Hk, buildStrangenessTables_output. now rewrite expected_output_rows_count.
  - now rewrite build_loop_exceptions.
  - now rewrite build_loop_events.
Qed.

(** X2: the covariance table is written in step with the V0 table: when
    [createV0CovMats] is not zero, which includes its default -1, a call
    hands as many rows to V0Covs as to the V0 table; when it is zero, none. *)
Theorem covariance_rows_follow_data_rows `{External}
    (cfg : Configurables) (collision : Collision) (V0s : list V0) (s : Builder) :
  let out := fst (buildStrangenessTables cfg collision V0s s) in
  List.length (v0covs out)
  = if (createV0CovMats cfg =? 0)%Z then 0%nat else List.length (v0data out).
Proof.
  cbv zeta. rewrite buildStrangenessTables_output. apply expected_output_covs.
Qed.

(** ** Self-configuration of the covariance table *)

Lemma covmats_scan_options (opts : list ConfigParamSpec) (l : Scan) :
  scan_createV0CovMats (fold_left scan_option opts l) = scan_createV0CovMats l.
Proof.
  revert l. induction opts as [|o opts IH]; intros l; [reflexivity |].
  cbn [fold_left]. rewrite IH. unfold scan_option.
  repeat match goal with
         | |- context [String.eqb (opt_name o) ?n] => destruct (String.eqb (opt_name o) n)
         end; reflexivity.
Qed.

Lemma covmats_scan_inputs (device : DeviceSpec) (ins : list InputSpec) (l : Scan) :
  scan_createV0CovMats (fold_left (scan_input device) ins l)
  = if negb (String.eqb (dev_name device) "lambdakzero-initializer")
       && existsb (fun input => String.eqb (binding input) "V0Covs") ins
    then 1%Z else scan_createV0CovMats l.
Proof.
  revert l. induction ins as [|i ins IH]; intros l.
  - cbn. now rewrite andb_false_r.
  - cbn [fold_left existsb]. rewrite IH. unfold scan_input.
    destruct (String.eqb (dev_name device) "lambdakzero-initializer"); [reflexivity |].
    cbn [negb andb].
    destruct (String.eqb (binding i) "V0Covs"); cbn [orb].
    + now destruct (existsb _ ins).
    + destruct (existsb _ ins); [reflexivity |].
      destruct (listens_to device i); [apply covmats_scan_options | reflexivity].
Qed.

Lemma covmats_scan_devices (devices : list DeviceSpec) (l : Scan) :
  scan_createV0CovMats (fold_left scan_device devices l)
  = if existsb asks_for_covariances devices then 1%Z else scan_createV0CovMats l.
Proof.
  revert l. induction devices as [|d devices IH]; intros l; [reflexivity |].
  cbn [fold_left existsb]. rewrite IH. unfold scan_device.
  rewrite covmats_scan_inputs. fold (asks_for_covariances d).
  unfold asks_for_covariances at 2.
  destruct (existsb asks_for_covariances devices); [now rewrite orb_true_r |].
  rewrite orb_false_r. reflexivity.
Qed.

(** X3: in autodetect mode [init] sets [createV0CovMats] to 1 exactly when
    some device other than lambdakzero-initializer has an input bound to
    V0Covs (the cascade builder counts here, unlike for the thresholds), and
    leaves it as configured otherwise; with autodetect mode off it is always
    left as configured. *)
Theorem covariances_enabled_on_subscription
    (cfg : Configurables) (devices : list DeviceSpec) :
  createV0CovMats (autodetect cfg devices)
  = if d_UseAutodetectMode cfg && existsb asks_for_covariances devices
    then 1%Z else createV0CovMats cfg.
Proof.
  unfold autodetect. destruct (d_UseAutodetectMode cfg); [| reflexivity].
  cbn [andb apply_scan createV0CovMats]. unfold scan_devices.
  now rewrite covmats_scan_devices.
Qed.

(** ** What a call adds to the histograms *)

(** X4: a call of [buildStrangenessTables] that starts from reset counters
    adds one to hEventCounter, the number of caught exceptions to
    hCaughtExceptions and, for each stage, the number of V0s that reached it
    to the stage's bin of hV0Criteria; and it leaves the counters reset. *)
Theorem flush_adds_the_batch `{External}
    (cfg : Configurables) (collision : Collision) (V0s : list V0) (s : Builder)
    (k : v0step) :
  (kNV0Steps <= List.length (hV0Criteria (registry s)))%nat ->
  let after := snd (buildStrangenessTables cfg collision V0s (resetHistos s)) in
  hEventCounter (registry after) = (hEventCounter (registry s) + 1)%Z
  /\ hCaughtExceptions (registry after)
     = (hCaughtExceptions (registry s)
        + Z.of_nat (List.length (threw cfg collision V0s)))%Z
  /\ stat k (hV0Criteria (registry after))
     = (stat k (hV0Criteria (registry s))
        + Z.of_nat (List.length (reached cfg collision k V0s)))%Z
  /\ statisticsRegistry after = statisticsRegistry (resetHistos s).
Proof.
  intros Hbins. cbv zeta.
  destruct (buildStrangenessTables_flush cfg collision V0s s k Hbins)
    as (Hstat & Hexc & Hreset).
  split; [| split; [| split]].
  - rewrite buildStrangenessTables_state.
    cbn [resetHistos fillHistos registry set_registry set_statisticsRegistry
         statisticsRegistry hEventCounter].
    rewrite build_loop_registry, build_loop_events. reflexivity.
  - cbv zeta in Hexc. rewrite Hexc, build_loop_exceptions. cbn. lia.
  - cbv zeta in Hstat. rewrite Hstat, build_loop_stat by reflexivity.
    destruct k; cbn; lia.
  - exact Hreset.
Qed.

Lemma flush_adds_the_batch_witness :
  let after :=
    snd (@buildStrangenessTables sample_external default_configurables
           sample_collision sample_batch (resetHistos sample_builder)) in
  hEventCounter (registry after) = 1%Z
  /\ hCaughtExceptions (registry after) = 1%Z
  /\ stat kV0DCAxy (hV0Criteria (registry after)) = 4%Z
  /\ statisticsRegistry after = statisticsRegistry (resetHistos sample_builder).
Proof.
  apply (@flush_adds_the_batch sample_external default_configurables sample_collision
           sample_batch sample_builder kV0DCAxy).
  vm_compute. lia.
Defined.

(** ** The first revision: stages, failures of the fit, quality counters *)

Lemma length_incr_at (i : nat) (a : list Z) :
  List.length (incr_at i a) = List.length a.
Proof.
  revert i. induction a as [|x a IH]; intros [|i]; try reflexivity.
  change (S (List.length (incr_at i a)) = S (List.length a)). now rewrite IH.
Qed.

Lemma length_count_clusters (t : Track) (clu : list Z) :
  List.length (FirstRevision.count_clusters t clu) = List.length clu.
Proof.
  unfold FirstRevision.count_clusters.
  destruct (itsNCls t <? 10)%Z; [apply length_incr_at | reflexivity].
Qed.

Section FirstRevisionQuality.

Context `{External} `{FirstRevision.Propagator}.
Variable cfg : Configurables.
Variable d_doTrackQA : bool.
Variable collision : Collision.
Variable dcaInfo : Q * Q.
Variables p n : Track.
Variable s : Builder.
Variable qa : FirstRevision.TrackQA.

Lemma rev1_quality_counters :
  snd (snd (FirstRevision.buildV0Candidate cfg d_doTrackQA collision dcaInfo p n s qa))
  = if fst (FirstRevision.buildV0Candidate cfg d_doTrackQA collision dcaInfo p n s qa)
       && d_doTrackQA
    then {| FirstRevision.posITSclu :=
              FirstRevision.count_clusters p (FirstRevision.posITSclu qa);
            FirstRevision.negITSclu :=
              FirstRevision.count_clusters n (FirstRevision.negITSclu qa) |}
    else qa.
Proof.
  assert (Hany : forall g : bool -> FirstRevision.TrackQA,
             g false = qa ->
             g true = (if d_doTrackQA
                       then {| FirstRevision.posITSclu :=
                                 FirstRevision.count_clusters p (FirstRevision.posITSclu qa);
                               FirstRevision.negITSclu :=
                                 FirstRevision.count_clusters n (FirstRevision.negITSclu qa) |}
                       else qa) ->
             snd (snd (FirstRevision.buildV0Candidate cfg d_doTrackQA collision
                         dcaInfo p n s qa))
             = g (fst (FirstRevision.buildV0Candidate cfg d_doTrackQA collision
                         dcaInfo p n s qa))).
  { intros g.
    unfold FirstRevision.buildV0Candidate, FirstRevision.fit_and_select,
      FirstRevision.select_fitted, pointing_cosine, transverse_radius; cbn.
    repeat step_if; intros Hfalse Htrue; now rewrite ?Hfalse, ?Htrue. }
  apply (Hany (fun ok => if ok && d_doTrackQA then _ else qa)); reflexivity.
Qed.

End FirstRevisionQuality.

(** X5: in the first revision, one evaluation of a candidate increments the
    counters of a non-empty prefix of its six stages.  The two arrays of ITS
    cluster counters change only for an accepted candidate with [d_doTrackQA]
    on; then each daughter with fewer than ten clusters adds one to the entry
    of its cluster count, a daughter with ten or more adds nothing, and the
    arrays keep their length. *)
Theorem rev1_stages_and_quality_counters `{External} `{FirstRevision.Propagator}
    (cfg : Configurables) (d_doTrackQA : bool) (collision : Collision)
    (dcaInfo : Q * Q) (p n : Track) (s : Builder) (qa : FirstRevision.TrackQA) :
  let r := FirstRevision.buildV0Candidate cfg d_doTrackQA collision dcaInfo p n s qa in
  (exists k, (1 <= k <= FirstRevision.kNV0Steps)%nat
             /\ v0stats (statisticsRegistry (fst (snd r)))
                = incr_prefix k (v0stats (statisticsRegistry s)))
  /\ snd (snd r)
     = (if fst r && d_doTrackQA
        then {| FirstRevision.posITSclu :=
                  FirstRevision.count_clusters p (FirstRevision.posITSclu qa);
                FirstRevision.negITSclu :=
                  FirstRevision.count_clusters n (FirstRevision.negITSclu qa) |}
        else qa)
  /\ List.length (FirstRevision.posITSclu (snd (snd r)))
     = List.length (FirstRevision.posITSclu qa)
  /\ List.length (FirstRevision.negITSclu (snd (snd r)))
     = List.length (FirstRevision.negITSclu qa)
  /\ ((10 <= itsNCls p)%Z ->
      FirstRevision.posITSclu (snd (snd r)) = FirstRevision.posITSclu qa).
Proof.
  cbv zeta.
  pose proof (rev1_quality_counters cfg d_doTrackQA collision dcaInfo p n s qa) as Hqa.
  split; [apply rev1_counters_prefix |]. split; [exact Hqa |].
  rewrite Hqa.
  destruct (fst _ && d_doTrackQA); cbn [FirstRevision.posITSclu FirstRevision.negITSclu].
  - rewrite !length_count_clusters. repeat split.
    intros Hten. unfold FirstRevision.count_clusters.
    destruct (itsNCls p <? 10)%Z eqn:E; [lia | reflexivity].
  - repeat split.
Qed.

(** X6: in the first revision too a fit that throws is counted and turned
    into a rejection, and a fit that returns no candidate is a rejection that
    leaves the exception counter alone. *)
Theorem rev1_fit_failures `{External} `{FirstRevision.Propagator}
    (cfg : Configurables) (d_doTrackQA : bool) (collision : Collision)
    (dcaInfo : Q * Q) (p n : Track) (s : Builder) (qa : FirstRevision.TrackQA)
    (f : FitState) :
  rev1_reaches_fit cfg collision dcaInfo p n = true ->
  let r := FirstRevision.buildV0Candidate cfg d_doTrackQA collision dcaInfo p n s qa in
  (fitter_process (getTrackParCov p) (getTrackParCov n) = FitThrows f ->
   fst r = false
   /\ exceptions (statisticsRegistry (fst (snd r)))
      = (exceptions (statisticsRegistry s) + 1)%Z)
  /\ (fitter_process (getTrackParCov p) (getTrackParCov n) = FitReturns 0 f ->
      fst r = false
      /\ exceptions (statisticsRegistry (fst (snd r)))
         = exceptions (statisticsRegistry s)).
Proof.
  intros Hreach r. split; intros Hfit.
  - now apply rev1_fitter_exception with (f := f).
  - now apply rev1_zero_candidates with (f := f).
Qed.

Lemma rev1_fit_failures_witness :
  let r :=
    @FirstRevision.buildV0Candidate sample_external sample_propagator
      default_configurables true sample_collision (0, 0) singular_pos good_neg
      sample_builder sample_qa in
  fst r = false /\ exceptions (statisticsRegistry (fst (snd r))) = 1%Z.
Proof.
  apply (@rev1_fit_failures sample_external sample_propagator default_configurables
           true sample_collision (0, 0) singular_pos good_neg sample_builder sample_qa
           (match sample_process (getTrackParCov singular_pos) (getTrackParCov good_neg)
            with FitThrows f => f | FitReturns _ f => f end)
           eq_refl).
  reflexivity.
Defined.

(** X7: in the first revision the distances compared with the thresholds
    are those left by the two propagations to the primary vertex; a daughter
    below its minimum makes [buildV0Candidate] return false with the fitter
    untouched, and a call to the fitter implies that both distances are at or
    above their minimum. *)
Theorem rev1_prefilter_before_fit `{External} `{FirstRevision.Propagator}
    (cfg : Configurables) (d_doTrackQA : bool) (collision : Collision)
    (dcaInfo : Q * Q) (p n : Track) (s : Builder) (qa : FirstRevision.TrackQA) :
  let r := FirstRevision.buildV0Candidate cfg d_doTrackQA collision dcaInfo p n s qa in
  ((Qabs (FirstRevision.posTrackdcaXY collision dcaInfo p) < dcapostopv cfg
    \/ Qabs (FirstRevision.negTrackdcaXY collision dcaInfo p n) < dcanegtopv cfg) ->
   fst r = false /\ fitter (fst (snd r)) = fitter s)
  /\ (process_calls (fitter (fst (snd r))) <> process_calls (fitter s) ->
      dcapostopv cfg <= Qabs (FirstRevision.posTrackdcaXY collision dcaInfo p)
      /\ dcanegtopv cfg <= Qabs (FirstRevision.negTrackdcaXY collision dcaInfo p n)).
Proof.
  cbv zeta. apply rev1_prefilter_precedes_fit.
Qed.

(** * The magnetic field *)

Section FieldOncePerRun.

Context `{ConditionsDB}.
Variable d_bz_input : Q.

Lemma initCCDB_same_run (bc : BC) (s : FieldState) :
  mRunNumber s = runNumber bc -> initCCDB d_bz_input bc s = CCDBReady s.
Proof.
  intros Hrun. unfold initCCDB. now rewrite Hrun, Z.eqb_refl.
Qed.

Lemma initCCDB_run_number (bc : BC) (s s' : FieldState) :
  initCCDB d_bz_input bc s = CCDBReady s' -> mRunNumber s' = runNumber bc.
Proof.
  unfold initCCDB. destruct (mRunNumber s =? runNumber bc)%Z eqn:Erun.
  - intros E. injection E as <-. now apply Z.eqb_eq.
  - destruct (getGRPObject (timestamp bc)); [intros E; now injection E as <- |].
    destruct (getGRPMagField (timestamp bc)); [| discriminate].
    intros E. now injection E as <-.
Qed.

(** Either the field given to the fitter is the builder's [d_bz], or nothing
    was touched since [init]. *)
Definition field_consistent (s : FieldState) : Prop :=
  fitter_Bz s = Some (d_bz s) \/ s = init_field.

Lemma initCCDB_consistent (bc : BC) (s s' : FieldState) :
  field_consistent s ->
  initCCDB d_bz_input bc s = CCDBReady s' -> field_consistent s'.
Proof.
  intros Hs. unfold initCCDB. destruct (mRunNumber s =? runNumber bc)%Z.
  - intros E. now injection E as <-.
  - destruct (getGRPObject (timestamp bc));
      [intros E; injection E as <-; now left |].
    destruct (getGRPMagField (timestamp bc)); [| discriminate].
    intros E. injection E as <-. now left.
Qed.

Lemma initCCDB_each_consistent (bcs : list BC) (s s' : FieldState) :
  field_consistent s ->
  initCCDB_each d_bz_input bcs s = CCDBReady s' -> field_consistent s'.
Proof.
  revert s. induction bcs as [|bc rest IH]; intros s Hs; cbn [initCCDB_each].
  - intros E. now injection E as <-.
  - destruct (initCCDB d_bz_input bc s) as [| s1] eqn:E1; [discriminate |].
    apply IH. now apply initCCDB_consistent with (bc := bc) (s := s).
Qed.

Lemma initCCDB_each_untouched (bcs : list BC) :
  Forall (fun bc => runNumber bc = 0%Z) bcs ->
  initCCDB_each d_bz_input bcs init_field = CCDBReady init_field.
Proof.
  induction 1 as [|bc rest Hbc _ IH]; [reflexivity |].
  cbn [initCCDB_each]. rewrite initCCDB_same_run by (now rewrite Hbc). exact IH.
Qed.

End FieldOncePerRun.

(** X8: [initCCDB] works once per run: a successful call leaves
    [mRunNumber] at the run of the bunch crossing, a call for the run already
    recorded changes nothing, and so repeating a successful call changes
    nothing either. *)
Theorem initCCDB_once_per_run `{ConditionsDB}
    (d_bz_input : Q) (bc : BC) (s s' : FieldState) :
  initCCDB d_bz_input bc s = CCDBReady s' ->
  mRunNumber s' = runNumber bc
  /\ initCCDB d_bz_input bc s' = CCDBReady s'
  /\ (mRunNumber s = runNumber bc -> s' = s)
  /\ forall bc', runNumber bc' = runNumber bc ->
                 initCCDB d_bz_input bc' s' = CCDBReady s'.
Proof.
  intros E. pose proof (initCCDB_run_number _ _ _ E) as Hrun.
  split; [exact Hrun |]. split; [now apply initCCDB_same_run |]. split.
  - intros Hsame. rewrite initCCDB_same_run in E by exact Hsame. now injection E.
  - intros bc' Hbc'. apply initCCDB_same_run. congruence.
Qed.

Lemma initCCDB_once_per_run_witness :
  let bc := {| runNumber := 544122; timestamp := 1000 |} in
  let s' := {| mRunNumber := 544122; d_bz := 5; fitter_Bz := Some 5;
               propagator_field := FromGRPMagField {| getL3Current := 30000 |};
               matLUT := true |} in
  mRunNumber s' = runNumber bc
  /\ @initCCDB sample_ccdb (-999) bc s' = CCDBReady s'
  /\ (mRunNumber init_field = runNumber bc -> s' = init_field)
  /\ forall bc', runNumber bc' = runNumber bc ->
                 @initCCDB sample_ccdb (-999) bc' s' = CCDBReady s'.
Proof.
  exact (@initCCDB_once_per_run sample_ccdb (-999)
           {| runNumber := 544122; timestamp := 1000 |} init_field _ eq_refl).
Defined.

(** X9: the second revision of [initCCDB] is fatal exactly when the run
    changes and the conditions database has neither a GRPObject nor a
    GRPMagField for the timestamp, whether or not the field is overridden;
    the first revision is fatal under the same conditions only when the field
    is not overridden (d_bz_input at most -990). *)
Theorem initCCDB_fatal_iff `{ConditionsDB}
    (d_bz_input : Q) (useMatCorr : Z) (bc : BC) (s : FieldState) :
  (initCCDB d_bz_input bc s = CCDBFatal
   <-> mRunNumber s <> runNumber bc
       /\ getGRPObject (timestamp bc) = None
       /\ getGRPMagField (timestamp bc) = None)
  /\ (rev1_initCCDB d_bz_input useMatCorr bc s = CCDBFatal
      <-> mRunNumber s <> runNumber bc
          /\ d_bz_input <= -990
          /\ getGRPObject (timestamp bc) = None
          /\ getGRPMagField (timestamp bc) = None).
Proof.
  split.
  - unfold initCCDB.
    destruct (Z.eqb_spec (mRunNumber s) (runNumber bc)) as [Hrun | Hrun].
    + split; [discriminate | intros [Hne _]; contradiction].
    + destruct (getGRPObject (timestamp bc)) as [grpo |].
      * split; [discriminate | intros (_ & Hobj & _); discriminate].
      * destruct (getGRPMagField (timestamp bc)) as [grpmag |].
        -- split; [discriminate | intros (_ & _ & Hmag); discriminate].
        -- split; [intros _; now repeat split | reflexivity].
  - unfold rev1_initCCDB, Qgtb.
    destruct (Z.eqb_spec (mRunNumber s) (runNumber bc)) as [Hrun | Hrun].
    + split; [discriminate | intros [Hne _]; contradiction].
    + destruct (Qltb (-990) d_bz_input) eqn:Eover.
      * apply Qltb_lt in Eover.
        split; [discriminate | intros (_ & Hle & _)].
        exfalso. now apply (Qlt_not_le _ _ Eover).
      * apply Qltb_ge in Eover.
        destruct (getGRPObject (timestamp bc)) as [grpo |].
        -- split; [discriminate | intros (_ & _ & Hobj & _); discriminate].
        -- destruct (getGRPMagField (timestamp bc)) as [grpmag |].
           ++ split; [discriminate | intros (_ & _ & _ & Hmag); discriminate].
           ++ split; [intros _; now repeat split | reflexivity].
Qed.

(** X10: over any sequence of bunch crossings handled after [init] without
    a fatal error, the field given to the fitter is the builder's [d_bz],
    unless the builder is still exactly as [init] left it; the latter is what
    happens as long as every bunch crossing has run number 0, the value
    [init] gives to [mRunNumber]: the field is then never set. *)
Theorem fitter_field_follows_d_bz `{ConditionsDB}
    (d_bz_input : Q) (bcs : list BC) :
  (forall s', initCCDB_each d_bz_input bcs init_field = CCDBReady s' ->
              fitter_Bz s' = Some (d_bz s') \/ s' = init_field)
  /\ (Forall (fun bc => runNumber bc = 0%Z) bcs ->
      initCCDB_each d_bz_input bcs init_field = CCDBReady init_field
      /\ fitter_Bz init_field = None).
Proof.
  split.
  - intros s' E.
    apply (initCCDB_each_consistent d_bz_input bcs (s := init_field)); [now right | exact E].
  - intros Hzero. split; [now apply initCCDB_each_untouched | reflexivity].
Qed.

(** ** The overridden field of the first revision *)

(** A quotient [30000 / A] computed as the code does, with [A] and then the
    quotient rounded with relative error [u]: what comes out, times [A], is
    30000 up to [60000 * u / (1 - u)]. *)
Lemma reciprocal_rounding (u A x y c : Q) :
  0 <= u -> u < 1 ->
  Qabs (x - A) <= Qabs A * u ->
  ~ x == 0 ->
  y == 30000 / x ->
  Qabs (c - y) <= Qabs y * u ->
  (1 - u) * Qabs (c * A - 30000) <= 60000 * u.
Proof.
  intros Hu0 Hu1 Hx Hnz Hy Hc.
  assert (Hyx : y * x == 30000) by (rewrite Hy; field; exact Hnz).
  assert (HT : c * A - 30000 == (c - y) * A + - (y * (x - A))).
  { rewrite <- Hyx. ring. }
  assert (Ht : Qabs (c * A - 30000) <= Qabs (c - y) * Qabs A + Qabs y * Qabs (x - A)).
  { rewrite HT. eapply Qle_trans; [apply Qabs_triangle |].
    rewrite Qabs_opp, !Qabs_Qmult. apply Qle_refl. }
  assert (Ha : Qabs A <= Qabs x + Qabs (x - A)).
  { assert (E : A == x + - (x - A)) by ring.
    rewrite E at 1. eapply Qle_trans; [apply Qabs_triangle |].
    rewrite Qabs_opp. apply Qle_refl. }
  assert (Hb : Qabs y * Qabs x == 30000).
  { rewrite <- Qabs_Qmult, Hyx. reflexivity. }
  pose proof (Qabs_nonneg A) as Ha0. pose proof (Qabs_nonneg y) as Hb0.
  pose proof (Qabs_nonneg x) as Hx0.
  pose proof (Qabs_nonneg (x - A)) as He1. pose proof (Qabs_nonneg (c - y)) as He2.
  set (t := Qabs (c * A - 30000)) in *.
  set (a := Qabs A) in *. set (b := Qabs y) in *. set (xx := Qabs x) in *.
  set (e1 := Qabs (x - A)) in *. set (e2 := Qabs (c - y)) in *.
  assert (H1 : t <= 2 * (a * b) * u) by nra.
  assert (H2 : (1 - u) * (a * b) <= 30000) by nra.
  set (ab := a * b) in *.
  assert (H3 : 0 <= ab) by (unfold ab; nra).
  nra.
Qed.

Lemma Qabs_fifth (d : Q) : Qabs (d / 5) == Qabs d * (1 # 5).
Proof. unfold Qdiv. rewrite Qabs_Qmult. reflexivity. Qed.

(** A field within the range of [float] stays below 2^128 when rounded. *)
Lemma to_float_in_range (q : Q) :
  -990 < q -> q <= max_float -> Qabs (to_float q) <= inject_Z (2 ^ 128).
Proof.
  intros Hlo Hhi.
  pose proof (to_float_error q) as Herr. unfold rounding_slack in Herr.
  assert (Hq : Qabs q <= max_float).
  { apply Qabs_Qle_condition. split; [| exact Hhi].
    apply Qle_trans with (-990); [vm_compute; discriminate | now apply Qlt_le_weak]. }
  assert (Ht : Qabs (to_float q) <= Qabs (to_float q - q) + Qabs q).
  { assert (E : to_float q == (to_float q - q) + q) by ring.
    rewrite E at 1. apply Qabs_triangle. }
  assert (Hu : (1 # 2 ^ 24) == 1 # 16777216) by reflexivity.
  assert (He : (1 # 2 ^ 150) <= 1) by (vm_compute; discriminate).
  assert (Hm : max_float == 340282346638528859811704183484516925440) by reflexivity.
  assert (H2 : inject_Z (2 ^ 128) == 340282366920938463463374607431768211456) by reflexivity.
  rewrite Hu in Herr. rewrite H2. rewrite Hm in Hq.
  set (a := Qabs q) in *. set (e := Qabs (to_float q - q)) in *.
  set (eps := 1 # 2 ^ 150) in *. lra.
Qed.

(** X11: in the first revision an overridden field (d_bz_input above -990,
    within the range of [float]) never consults the conditions database and
    is never fatal: on a change of run the field [d_bz] and the fitter get
    d_bz_input rounded to [float].  The current given to the local
    GRPMagField is set only when |d_bz| exceeds the [double] 1e-5; the
    divisor d_bz / 5, rounded to [float], is then not zero, and the current
    is 30000 divided by it, rounded to [float] again.  The field this current
    stands for, 5 * current / 30000, is 25 / d_bz up to the two roundings:
    multiplied by d_bz it is 25 within 25 * 2^-22.  So it can be d_bz again
    only if d_bz * d_bz is 25 within that bound; for d_bz = 5 and -5 the
    current is exactly 30000 and -30000. *)
Theorem rev1_override_current
    (db1 db2 : ConditionsDB) (d_bz_input : Q) (useMatCorr : Z) (bc : BC)
    (s : FieldState) :
  -990 < d_bz_input ->
  d_bz_input <= max_float ->
  mRunNumber s <> runNumber bc ->
  let d := to_float d_bz_input in
  @rev1_initCCDB db1 d_bz_input useMatCorr bc s
  = @rev1_initCCDB db2 d_bz_input useMatCorr bc s
  /\ exists current,
       @rev1_initCCDB db1 d_bz_input useMatCorr bc s
       = CCDBReady {| mRunNumber := runNumber bc; d_bz := d;
                      fitter_Bz := Some d;
                      propagator_field := FromLocalGRPMagField current;
                      matLUT := matLUT s |}
       /\ (Qabs d <= to_double (1 # 100000) -> current = None)
       /\ (to_double (1 # 100000) < Qabs d ->
           ~ to_float (d / 5) == 0
           /\ exists c, current = Some c
                        /\ c = to_float (30000 / to_float (d / 5))
                        /\ Qabs (5 * c / 30000 * d - 25) <= 25 * (1 # 2 ^ 22)
                        /\ (5 * c / 30000 == d ->
                            Qabs (d * d - 25) <= 25 * (1 # 2 ^ 22))
                        /\ (d = 5 -> c = 30000)
                        /\ (d = -5 -> c = -30000)).
Proof.
  intros Hover Hrange Hrun d. unfold rev1_initCCDB.
  destruct (Z.eqb_spec (mRunNumber s) (runNumber bc)) as [E | _]; [contradiction |].
  pose proof (to_float_in_range Hover Hrange) as Hd. fold d in Hd.
  apply Qltb_lt in Hover. unfold Qgtb at 1 3 5. rewrite Hover. fold d.
  split; [reflexivity |].
  eexists. split; [reflexivity |]. unfold Qgtb. split.
  - intros Hsmall.
    destruct (Qltb (to_double (1 # 100000)) (Qabs d)) eqn:E; [| reflexivity].
    apply Qltb_lt in E. exfalso. now apply (Qlt_not_le _ _ E).
  - intros Hbig.
    assert (Hlit : 1 # 200000 <= to_double (1 # 100000)) by (vm_compute; discriminate).
    assert (Hfifth := Qabs_fifth d).
    assert (H2 : inject_Z (2 ^ 128) == 340282366920938463463374607431768211456)
      by reflexivity.
    rewrite H2 in Hd.
    assert (Hmin : (1 # 2 ^ 126) == 1 # 85070591730234615865843651857942052864)
      by reflexivity.
    assert (Hu : (1 # 2 ^ 24) == 1 # 16777216) by reflexivity.
    assert (HA : 1 # 2 ^ 126 <= Qabs (d / 5)).
    { rewrite Hfifth, Hmin. set (a := Qabs d) in *. lra. }
    pose proof (@to_float_relative (d / 5) HA) as Hx.
    pose proof (@to_float_not_zero (d / 5) HA) as Hnz.
    set (x := to_float (d / 5)) in *.
    assert (Hyx : 30000 / x * x == 30000) by (field; exact Hnz).
    assert (Hyabs : Qabs (30000 / x) * Qabs x == 30000).
    { rewrite <- Qabs_Qmult, Hyx. reflexivity. }
    assert (Hxabs : Qabs x <= Qabs (x - d / 5) + Qabs (d / 5)).
    { assert (E : x == (x - d / 5) + d / 5) by ring.
      rewrite E at 1. apply Qabs_triangle. }
    assert (Hy : 1 # 2 ^ 126 <= Qabs (30000 / x)).
    { pose proof (Qabs_nonneg (30000 / x)) as Hy0. pose proof (Qabs_nonneg x) as Hx0.
      rewrite Hfifth, Hu in Hx. rewrite Hfifth in Hxabs. rewrite Hmin.
      set (a := Qabs d) in *. set (b := Qabs (30000 / x)) in *.
      set (xx := Qabs x) in *. set (e := Qabs (x - d / 5)) in *.
      assert (Hxx : xx <= 85070591730234615865843651857942052864) by lra.
      destruct (Qlt_le_dec b (1 # 85070591730234615865843651857942052864)) as [Hlt | Hge];
        [exfalso; nra | exact Hge]. }
    pose proof (@to_float_relative (30000 / x) Hy) as Hc.
    apply Qltb_lt in Hbig. rewrite Hbig. unfold current_of_field. fold x.
    split; [exact Hnz |].
    eexists. split; [reflexivity |]. split; [reflexivity |].
    set (c := to_float (30000 / x)) in *.
    assert (Hbound : Qabs (5 * c / 30000 * d - 25) <= 25 * (1 # 2 ^ 22)).
    { assert (Hrec : (1 - (1 # 2 ^ 24)) * Qabs (c * (d / 5) - 30000) <= 60000 * (1 # 2 ^ 24)).
      { apply reciprocal_rounding with (x := x) (y := 30000 / x);
          [discriminate | reflexivity | exact Hx | exact Hnz | reflexivity | exact Hc]. }
      assert (E : 5 * c / 30000 * d - 25 == (c * (d / 5) - 30000) * (1 # 1200)) by field.
      rewrite E, Qabs_Qmult. change (Qabs (1 # 1200)) with (1 # 1200).
      assert (Hq : (1 # 2 ^ 22) == 1 # 4194304) by reflexivity.
      rewrite Hq. rewrite Hu in Hrec.
      set (t := Qabs (c * (d / 5) - 30000)) in *. lra. }
    split; [exact Hbound |]. split; [| split].
    + intros Hsame.
      assert (E : d * d - 25 == 5 * c / 30000 * d - 25) by (rewrite Hsame; ring).
      rewrite E. exact Hbound.
    + intros E5. subst c x. rewrite E5. vm_compute. reflexivity.
    + intros E5. subst c x. rewrite E5. vm_compute. reflexivity.
Qed.

Lemma rev1_override_current_witness :
  let bc := {| runNumber := 544122; timestamp := 1001 |} in
  @rev1_initCCDB empty_ccdb 3 0 bc init_field
  = @rev1_initCCDB sample_ccdb 3 0 bc init_field
  /\ exists current,
       @rev1_initCCDB empty_ccdb 3 0 bc init_field
       = CCDBReady {| mRunNumber := 544122; d_bz := 3; fitter_Bz := Some 3;
                      propagator_field := FromLocalGRPMagField current;
                      matLUT := false |}
       /\ (Qabs 3 <= to_double (1 # 100000) -> current = None)
       /\ (to_double (1 # 100000) < Qabs 3 ->
           ~ to_float (3 / 5) == 0
           /\ exists c, current = Some c
                        /\ c = to_float (30000 / to_float (3 / 5))
                        /\ Qabs (5 * c / 30000 * 3 - 25) <= 25 * (1 # 2 ^ 22)
                        /\ (5 * c / 30000 == 3 ->
                            Qabs (3 * 3 - 25) <= 25 * (1 # 2 ^ 22))
                        /\ (3 = 5 -> c = 30000)
                        /\ (3 = -5 -> c = -30000)).
Proof.
  apply (@rev1_override_current empty_ccdb sample_ccdb 3 0
           {| runNumber := 544122; timestamp := 1001 |} init_field).
  - reflexivity.
  - vm_compute. discriminate.
  - discriminate.
Defined.

(** With d_bz_input = 3 the two divisions give 49999.99609375 A and not
    50000 A: the quotient 3 / 5 is not a [float]. *)
Example override_current_at_3 :
  to_float (3 / 5) = 5033165 # 8388608
  /\ current_of_field (to_float 3) = 12799999 # 256
  /\ current_of_field (to_float 5) = 30000.
Proof. vm_compute. repeat split. Qed.

(** ** The preselector and the label builders *)

Lemma Forall2_map_right (A B : Type) (P : A -> B -> Prop) (f : A -> B) (l : list A) :
  (forall x, In x l -> P x (f x)) -> Forall2 P l (map f l).
Proof.
  induction l as [|x l IH]; intros H; cbn; constructor.
  - apply H. now left.
  - apply IH. intros y Hy. apply H. now right.
Qed.

Lemma inner_scan_cases (pick : McMother -> Z) (m : McMother) (poss : list McMother) :
  forall acc,
    let r := fold_left
               (fun acc lPosMother =>
                  if (mother_globalIndex m =? mother_globalIndex lPosMother)%Z
                  then pick m else acc) poss acc in
    ((forall p, In p poss -> mother_globalIndex m <> mother_globalIndex p) /\ r = acc)
    \/ ((exists p, In p poss /\ mother_globalIndex m = mother_globalIndex p) /\ r = pick m).
Proof.
  induction poss as [|p poss IH]; intros acc; cbn.
  - left. split; [intros p [] | reflexivity].
  - destruct (Z.eqb_spec (mother_globalIndex m) (mother_globalIndex p)) as [E|E].
    + right. split; [exists p; split; [now left | exact E] |].
      destruct (IH (pick m)) as [[_ H]|[_ H]]; exact H.
    + destruct (IH acc) as [[Hno H]|[[q [Hq Eq]] H]].
      * left. split; [| exact H].
        intros q [<-|Hq]; [exact E | now apply Hno].
      * right. split; [exists q; split; [now right | exact Eq] | exact H].
Qed.

Lemma scan_mothers_cases (pick : McMother -> Z) (negs poss : list McMother) :
  forall start,
    let r := scan_mothers pick negs poss start in
    ((forall m p, In m negs -> In p poss -> mother_globalIndex m <> mother_globalIndex p)
     /\ r = start)
    \/ (exists m p, In m negs /\ In p poss
                    /\ mother_globalIndex m = mother_globalIndex p /\ r = pick m).
Proof.
  unfold scan_mothers.
  induction negs as [|m negs IH]; intros start; cbn.
  - left. split; [intros m p [] | reflexivity].
  - match goal with |- context [fold_left _ negs ?a] => set (acc := a) end.
    destruct (IH acc) as [[Hno H]|[m' [p [Hm [Hp [E H]]]]]].
    + destruct (inner_scan_cases pick m poss start) as [[Hno' H']|[[p [Hp E]] H']];
        fold acc in H'.
      * left. split; [| now rewrite H, H'].
        intros m' p [<-|Hm] Hp; [now apply Hno' | now apply Hno].
      * right. exists m, p. repeat split; try assumption; [now left | now rewrite H, H'].
    + right. exists m', p. repeat split; try assumption. now right.
Qed.

(** Without a mother common to both daughters the association stays at -1. *)
Lemma association_none (pick : McMother -> Z) (v : LabeledV0) :
  (forall m, ~ common_mother v m) ->
  association pick (lv_negTrack v) (lv_posTrack v) = (-1)%Z.
Proof.
  intros Hno. unfold association.
  destruct (mcParticle (lv_negTrack v)) as [n|] eqn:En; [| reflexivity].
  destruct (mcParticle (lv_posTrack v)) as [p|] eqn:Ep; [| reflexivity].
  destruct (has_mothers n && has_mothers p); [| reflexivity].
  destruct (scan_mothers_cases pick (mothers n) (mothers p) (-1))
    as [[_ H]|[m [q [Hm [Hq [E _]]]]]]; [exact H |].
  exfalso. apply (Hno m). exists n, p, q. repeat split; assumption.
Qed.

(** With one, the association is what [pick] gives on a common mother. *)
Lemma association_some (pick : McMother -> Z) (v : LabeledV0) (m : McMother) :
  common_mother v m ->
  exists m', common_mother v m'
             /\ association pick (lv_negTrack v) (lv_posTrack v) = pick m'.
Proof.
  intros [n [p [q [En [Ep [Hm [Hq E]]]]]]]. unfold association. rewrite En, Ep.
  assert (Hn : has_mothers n = true)
    by (unfold has_mothers; destruct (mothers n); [destruct Hm | reflexivity]).
  assert (Hp : has_mothers p = true)
    by (unfold has_mothers; destruct (mothers p); [destruct Hq | reflexivity]).
  rewrite Hn, Hp. cbn [andb].
  destruct (scan_mothers_cases pick (mothers n) (mothers p) (-1))
    as [[Hno _]|[m' [q' [Hm' [Hq' [E' H]]]]]].
  - exfalso. exact (Hno m q Hm Hq E).
  - exists m'. split; [| exact H].
    exists n, p, q'. repeat split; assumption.
Qed.

(** Whatever the association is, it is -1 or comes from a common mother. *)
Lemma association_cases (pick : McMother -> Z) (v : LabeledV0) :
  association pick (lv_negTrack v) (lv_posTrack v) = (-1)%Z
  \/ exists m, common_mother v m
               /\ association pick (lv_negTrack v) (lv_posTrack v) = pick m.
Proof.
  unfold association.
  destruct (mcParticle (lv_negTrack v)) as [n|] eqn:En; [| now left].
  destruct (mcParticle (lv_posTrack v)) as [p|] eqn:Ep; [| now left].
  destruct (has_mothers n && has_mothers p); [| now left].
  destruct (scan_mothers_cases pick (mothers n) (mothers p) (-1))
    as [[_ H]|[m [q [Hm [Hq [E H]]]]]]; [now left |].
  right. exists m. split; [| exact H].
  exists n, p, q. repeat split; assumption.
Qed.

Lemma checkTrackQuality_closed_form (cfg : lambdakzeroPreselector.Configurables)
    (v : LabeledV0) (f : lambdakzeroPreselector.Species) :
  let P := lambdakzeroPreselector.enough_rows cfg (lv_posTrack v) in
  let N := lambdakzeroPreselector.enough_rows cfg (lv_negTrack v) in
  let B := lambdakzeroPreselector.dPreselectOnlyBaryons cfg in
  lambdakzeroPreselector.checkTrackQuality cfg v f
  = ((lambdakzeroPreselector.lIsGamma f || lambdakzeroPreselector.lIsK0Short f) && (P && N))
    || (lambdakzeroPreselector.lIsLambda f || lambdakzeroPreselector.lIsHypertriton f)
       && (P && (N || B))
    || (lambdakzeroPreselector.lIsAntiLambda f || lambdakzeroPreselector.lIsHypertriton f)
       && (N && (P || B)).
Proof.
  unfold lambdakzeroPreselector.checkTrackQuality.
  destruct f as [g k l a h ah]; cbn [lambdakzeroPreselector.lIsGamma
    lambdakzeroPreselector.lIsK0Short lambdakzeroPreselector.lIsLambda
    lambdakzeroPreselector.lIsAntiLambda lambdakzeroPreselector.lIsHypertriton
    lambdakzeroPreselector.lIsAntiHypertriton].
  destruct (lambdakzeroPreselector.enough_rows cfg (lv_posTrack v)),
           (lambdakzeroPreselector.enough_rows cfg (lv_negTrack v)),
           (lambdakzeroPreselector.dPreselectOnlyBaryons cfg);
    destruct g, k, l, a, h; reflexivity.
Qed.

(** X12: [processBuildAll] writes one row per V0 with all twelve species
    flags set, but it does not tag every V0: the row is interesting exactly
    when both daughters have the required crossed rows, or, with
    [dPreselectOnlyBaryons], when one of them has. *)
Theorem processBuildAll_tags_by_crossed_rows :
  forall (cfg : lambdakzeroPreselector.Configurables) (v0table : list LabeledV0),
    Forall2
      (fun v0 tag =>
         let P := lambdakzeroPreselector.enough_rows cfg (lv_posTrack v0) in
         let N := lambdakzeroPreselector.enough_rows cfg (lv_negTrack v0) in
         lambdakzeroPreselector.isInteresting tag
         = (P && N) || (lambdakzeroPreselector.dPreselectOnlyBaryons cfg && (P || N))
         /\ lambdakzeroPreselector.isTrue tag = lambdakzeroPreselector.all_species
         /\ lambdakzeroPreselector.isCandidate tag = lambdakzeroPreselector.all_species)
      v0table (lambdakzeroPreselector.processBuildAll cfg v0table).
Proof.
  intros cfg v0table. unfold lambdakzeroPreselector.processBuildAll.
  apply Forall2_map_right. intros v0 _. cbn zeta.
  cbn [lambdakzeroPreselector.isInteresting lambdakzeroPreselector.isTrue
       lambdakzeroPreselector.isCandidate].
  split; [| split; reflexivity].
  rewrite checkTrackQuality_closed_form. cbn.
  destruct (lambdakzeroPreselector.enough_rows cfg (lv_posTrack v0)),
           (lambdakzeroPreselector.enough_rows cfg (lv_negTrack v0)),
           (lambdakzeroPreselector.dPreselectOnlyBaryons cfg); reflexivity.
Qed.

Lemma checkdEdx_closed_form (cfg : lambdakzeroPreselector.Configurables) (v : LabeledV0) :
  let w := lambdakzeroPreselector.within cfg in
  let n := lv_negTrack v in
  let p := lv_posTrack v in
  let B := lambdakzeroPreselector.dPreselectOnlyBaryons cfg in
  let f :=
    {| lambdakzeroPreselector.lIsGamma :=
         w (tpcNSigmaEl n) && w (tpcNSigmaEl p)
         && lambdakzeroPreselector.ddEdxPreSelectGamma cfg;
       lambdakzeroPreselector.lIsK0Short :=
         w (tpcNSigmaPi n) && w (tpcNSigmaPi p)
         && lambdakzeroPreselector.ddEdxPreSelectK0Short cfg;
       lambdakzeroPreselector.lIsLambda :=
         (w (tpcNSigmaPi n) || B) && w (tpcNSigmaPr p)
         && lambdakzeroPreselector.ddEdxPreSelectLambda cfg;
       lambdakzeroPreselector.lIsAntiLambda :=
         w (tpcNSigmaPr n) && (w (tpcNSigmaPi p) || B)
         && lambdakzeroPreselector.ddEdxPreSelectAntiLambda cfg;
       lambdakzeroPreselector.lIsHypertriton :=
         w (tpcNSigmaPi n) && (w (tpcNSigmaHe p) || B)
         && lambdakzeroPreselector.ddEdxPreSelectHypertriton cfg;
       lambdakzeroPreselector.lIsAntiHypertriton :=
         (w (tpcNSigmaHe n) || B) && w (tpcNSigmaPi p)
         && lambdakzeroPreselector.ddEdxPreSelectAntiHypertriton cfg |} in
  lambdakzeroPreselector.checkdEdx cfg v false lambdakzeroPreselector.no_species
  = (lambdakzeroPreselector.lIsGamma f || lambdakzeroPreselector.lIsK0Short f
     || lambdakzeroPreselector.lIsLambda f || lambdakzeroPreselector.lIsAntiLambda f
     || lambdakzeroPreselector.lIsHypertriton f
     || lambdakzeroPreselector.lIsAntiHypertriton f, f).
Proof.
  cbv zeta. unfold lambdakzeroPreselector.checkdEdx.
  cbn [lambdakzeroPreselector.lIsGamma
    lambdakzeroPreselector.lIsK0Short lambdakzeroPreselector.lIsLambda
    lambdakzeroPreselector.lIsAntiLambda lambdakzeroPreselector.lIsHypertriton
    lambdakzeroPreselector.lIsAntiHypertriton].
  set (c1 := _ && _ && lambdakzeroPreselector.ddEdxPreSelectGamma cfg).
  set (c2 := _ && _ && lambdakzeroPreselector.ddEdxPreSelectK0Short cfg).
  set (c3 := _ && _ && lambdakzeroPreselector.ddEdxPreSelectLambda cfg).
  set (c4 := _ && _ && lambdakzeroPreselector.ddEdxPreSelectAntiLambda cfg).
  set (c5 := _ && _ && lambdakzeroPreselector.ddEdxPreSelectHypertriton cfg).
  set (c6 := _ && _ && lambdakzeroPreselector.ddEdxPreSelectAntiHypertriton cfg).
  destruct c1, c2, c3, c4, c5, c6; reflexivity.
Qed.

Lemma quality_needs_a_flag (cfg : lambdakzeroPreselector.Configurables)
    (v : LabeledV0) (f : lambdakzeroPreselector.Species) :
  lambdakzeroPreselector.checkTrackQuality cfg v f = true ->
  lambdakzeroPreselector.lIsGamma f || lambdakzeroPreselector.lIsK0Short f
  || lambdakzeroPreselector.lIsLambda f || lambdakzeroPreselector.lIsAntiLambda f
  || lambdakzeroPreselector.lIsHypertriton f = true.
Proof.
  rewrite checkTrackQuality_closed_form. cbv zeta.
  destruct (lambdakzeroPreselector.lIsGamma f), (lambdakzeroPreselector.lIsK0Short f),
    (lambdakzeroPreselector.lIsLambda f), (lambdakzeroPreselector.lIsAntiLambda f),
    (lambdakzeroPreselector.lIsHypertriton f); cbn; intros H; try reflexivity;
    discriminate H.
Qed.

(** X13: the quality check never reads the antihypertriton flag, so with
    dE/dx preselection a V0 is tagged interesting only if it is a candidate
    for one of the five other species: a V0 compatible with the
    antihypertriton alone is never tagged, whatever its tracks. *)
Theorem antihypertriton_alone_is_never_tagged :
  forall (cfg : lambdakzeroPreselector.Configurables) (v0table : list LabeledV0),
    (forall v f,
        lambdakzeroPreselector.checkTrackQuality cfg v f
        = lambdakzeroPreselector.checkTrackQuality cfg v
            {| lambdakzeroPreselector.lIsGamma := lambdakzeroPreselector.lIsGamma f;
               lambdakzeroPreselector.lIsK0Short := lambdakzeroPreselector.lIsK0Short f;
               lambdakzeroPreselector.lIsLambda := lambdakzeroPreselector.lIsLambda f;
               lambdakzeroPreselector.lIsAntiLambda :=
                 lambdakzeroPreselector.lIsAntiLambda f;
               lambdakzeroPreselector.lIsHypertriton :=
                 lambdakzeroPreselector.lIsHypertriton f;
               lambdakzeroPreselector.lIsAntiHypertriton := false |})
    /\ Forall
         (fun tag =>
            lambdakzeroPreselector.isInteresting tag = true ->
            let f := lambdakzeroPreselector.isCandidate tag in
            lambdakzeroPreselector.lIsGamma f || lambdakzeroPreselector.lIsK0Short f
            || lambdakzeroPreselector.lIsLambda f
            || lambdakzeroPreselector.lIsAntiLambda f
            || lambdakzeroPreselector.lIsHypertriton f = true)
         (lambdakzeroPreselector.processBuildValiddEdx cfg v0table
          ++ lambdakzeroPreselector.processBuildValiddEdxMCAssociated cfg v0table).
Proof.
  intros cfg v0table. split.
  - intros v f. now rewrite !checkTrackQuality_closed_form.
  - apply Forall_app. split; apply Forall_forall; intros tag Hin;
      apply in_map_iff in Hin; destruct Hin as [v [<- _]].
    + destruct (lambdakzeroPreselector.checkdEdx cfg v false
                  lambdakzeroPreselector.no_species) as [i f].
      cbn [lambdakzeroPreselector.isInteresting lambdakzeroPreselector.isCandidate].
      intros H. apply andb_true_iff in H. destruct H as [_ H].
      exact (quality_needs_a_flag cfg v f H).
    + destruct (lambdakzeroPreselector.checkPDG cfg v false
                  lambdakzeroPreselector.no_species) as [j t].
      destruct (lambdakzeroPreselector.checkdEdx cfg v false
                  lambdakzeroPreselector.no_species) as [i f].
      cbn [lambdakzeroPreselector.isInteresting lambdakzeroPreselector.isCandidate].
      intros H. apply andb_true_iff in H. destruct H as [_ H].
      exact (quality_needs_a_flag cfg v f H).
Qed.

Lemma dEdx_verdict_implied (cfg : lambdakzeroPreselector.Configurables) (v : LabeledV0) :
  let r := lambdakzeroPreselector.checkdEdx cfg v false lambdakzeroPreselector.no_species in
  fst r && lambdakzeroPreselector.checkTrackQuality cfg v (snd r)
  = lambdakzeroPreselector.checkTrackQuality cfg v (snd r).
Proof.
  cbv zeta.
  pose proof (quality_needs_a_flag cfg v
                (snd (lambdakzeroPreselector.checkdEdx cfg v false
                        lambdakzeroPreselector.no_species))) as Hq.
  rewrite checkdEdx_closed_form in *. cbv zeta in *. cbn [fst snd] in *.
  match goal with |- ?i && ?q = _ => destruct q eqn:Eq end.
  - specialize (Hq eq_refl).
    cbn [lambdakzeroPreselector.lIsGamma
      lambdakzeroPreselector.lIsK0Short lambdakzeroPreselector.lIsLambda
      lambdakzeroPreselector.lIsAntiLambda lambdakzeroPreselector.lIsHypertriton
      lambdakzeroPreselector.lIsAntiHypertriton] in *.
    rewrite Hq. reflexivity.
  - apply andb_false_r.
Qed.

(** X14: in [processBuildValiddEdx] the dE/dx verdict is implied by the
    quality verdict computed from its flags, so the tag written is the
    quality verdict itself: some species enabled for preselection is
    compatible with both daughters' dE/dx and passes its crossed-rows
    requirement. *)
Theorem dEdx_tag_is_the_quality_verdict :
  forall (cfg : lambdakzeroPreselector.Configurables) (v0table : list LabeledV0),
    Forall2
      (fun v0 tag =>
         lambdakzeroPreselector.isCandidate tag
         = snd (lambdakzeroPreselector.checkdEdx cfg v0 false
                  lambdakzeroPreselector.no_species)
         /\ lambdakzeroPreselector.isInteresting tag
            = lambdakzeroPreselector.checkTrackQuality cfg v0
                (lambdakzeroPreselector.isCandidate tag)
         /\ lambdakzeroPreselector.isTrue tag = lambdakzeroPreselector.all_species)
      v0table (lambdakzeroPreselector.processBuildValiddEdx cfg v0table).
Proof.
  intros cfg v0table. unfold lambdakzeroPreselector.processBuildValiddEdx.
  apply Forall2_map_right. intros v0 _.
  pose proof (dEdx_verdict_implied cfg v0) as H. cbv zeta in H.
  destruct (lambdakzeroPreselector.checkdEdx cfg v0 false
              lambdakzeroPreselector.no_species) as [i f].
  cbn [fst snd] in *.
  cbn [lambdakzeroPreselector.isInteresting lambdakzeroPreselector.isTrue
       lambdakzeroPreselector.isCandidate].
  split; [reflexivity | split; [exact H | reflexivity]].
Qed.

Lemma checkPDG_one_species (cfg : lambdakzeroPreselector.Configurables) (v : LabeledV0) :
  let lPDG := association mother_pdgCode (lv_negTrack v) (lv_posTrack v) in
  let r := lambdakzeroPreselector.checkPDG cfg v false lambdakzeroPreselector.no_species in
  (lambdakzeroPreselector.count_species (snd r) <= 1)%nat
  /\ (fst r = true <-> lambdakzeroPreselector.count_species (snd r) = 1%nat)
  /\ (fst r = true -> In lPDG known_codes).
Proof.
  cbv zeta. unfold lambdakzeroPreselector.checkPDG, known_codes.
  generalize (association mother_pdgCode (lv_negTrack v) (lv_posTrack v)).
  intros lPDG.
  destruct (Z.eqb_spec lPDG 310) as [->|E1];
    [| destruct (Z.eqb_spec lPDG 3122) as [->|E2];
       [| destruct (Z.eqb_spec lPDG (-3122)) as [->|E3];
          [| destruct (Z.eqb_spec lPDG 22) as [->|E4];
             [| destruct (Z.eqb_spec lPDG 1010010030) as [->|E5];
                [| destruct (Z.eqb_spec lPDG (-1010010030)) as [->|E6]]]]]];
    cbn;
    destruct (lambdakzeroPreselector.dIfMCgenerateK0Short cfg),
             (lambdakzeroPreselector.dIfMCgenerateLambda cfg),
             (lambdakzeroPreselector.dIfMCgenerateAntiLambda cfg),
             (lambdakzeroPreselector.dIfMCgenerateGamma cfg),
             (lambdakzeroPreselector.dIfMCgenerateHypertriton cfg),
             (lambdakzeroPreselector.dIfMCgenerateAntiHypertriton cfg);
    cbn; (split; [lia | split; [split; intros H; (reflexivity || discriminate H) |]]);
    intros H; try discriminate H; tauto.
Qed.

(** X15: [processBuildMCAssociated] sets at most one of the six true-species
    flags of a V0, and tags a V0 interesting only if exactly one is set, both
    daughters descend from a common generated mother carrying one of the six
    known particle codes, and the crossed-rows check passes; a V0 without a
    common mother gets no flag and is not tagged. *)
Theorem mc_association_tags_one_species :
  forall (cfg : lambdakzeroPreselector.Configurables) (v0table : list LabeledV0),
    Forall2
      (fun v0 tag =>
         (lambdakzeroPreselector.count_species (lambdakzeroPreselector.isTrue tag) <= 1)%nat
         /\ (lambdakzeroPreselector.isInteresting tag = true ->
             lambdakzeroPreselector.count_species (lambdakzeroPreselector.isTrue tag) = 1%nat
             /\ (exists m, common_mother v0 m /\ In (mother_pdgCode m) known_codes)
             /\ lambdakzeroPreselector.checkTrackQuality cfg v0
                  lambdakzeroPreselector.all_species = true)
         /\ ((forall m, ~ common_mother v0 m) ->
             lambdakzeroPreselector.isInteresting tag = false
             /\ lambdakzeroPreselector.isTrue tag = lambdakzeroPreselector.no_species))
      v0table (lambdakzeroPreselector.processBuildMCAssociated cfg v0table).
Proof.
  intros cfg v0table. unfold lambdakzeroPreselector.processBuildMCAssociated.
  apply Forall2_map_right. intros v0 _.
  destruct (checkPDG_one_species cfg v0) as [Hle [Hone Hcode]].
  assert (Hnone : (forall m, ~ common_mother v0 m) ->
                  lambdakzeroPreselector.checkPDG cfg v0 false
                    lambdakzeroPreselector.no_species
                  = (false, lambdakzeroPreselector.no_species)).
  { intros Hno. unfold lambdakzeroPreselector.checkPDG.
    rewrite (association_none mother_pdgCode Hno). reflexivity. }
  destruct (lambdakzeroPreselector.checkPDG cfg v0 false
              lambdakzeroPreselector.no_species) as [i f].
  cbn [fst snd] in *.
  cbn [lambdakzeroPreselector.isInteresting lambdakzeroPreselector.isTrue].
  split; [exact Hle | split].
  - intros H. apply andb_true_iff in H. destruct H as [Hi Hq].
    split; [now apply Hone | split; [| exact Hq]].
    specialize (Hcode Hi).
    destruct (association_cases mother_pdgCode v0) as [E|[m [Hm E]]].
    + rewrite E in Hcode. unfold known_codes in Hcode. cbn in Hcode.
      exfalso. intuition discriminate.
    + exists m. split; [exact Hm | now rewrite <- E].
  - intros Hno. specialize (Hnone Hno). injection Hnone as -> ->.
    split; reflexivity.
Qed.

Lemma to_int_small (x : Z) : (- 2 ^ 31 <= x < 2 ^ 31)%Z -> to_int x = x.
Proof.
  intros H. unfold to_int. rewrite Z.mod_small; lia.
Qed.

(** X16: with mother indices that fit an [int], [processBuildV0Labels]
    writes one label per V0: -1 exactly when the two daughters have no
    generated mother in common, and otherwise the index of a mother common to
    both. *)
Theorem labels_point_to_a_common_mother :
  forall (v0table : list LabeledV0),
    Forall indices_fit_int v0table ->
    Forall2
      (fun v0 lLabel =>
         (lLabel = (-1)%Z <-> forall m, ~ common_mother v0 m)
         /\ (lLabel <> (-1)%Z ->
             exists m, common_mother v0 m /\ lLabel = mother_globalIndex m))
      v0table (lambdakzeroLabelBuilder.processBuildV0Labels v0table).
Proof.
  intros v0table Hfit. unfold lambdakzeroLabelBuilder.processBuildV0Labels.
  apply Forall2_map_right. intros v0 Hin.
  rewrite Forall_forall in Hfit. specialize (Hfit v0 Hin).
  assert (Hidx : forall m, common_mother v0 m ->
                           (0 <= mother_globalIndex m < 2 ^ 31)%Z).
  { intros m [n [p [q [En [Ep [Hm _]]]]]].
    apply (Hfit (lv_negTrack v0) n m); [now left | exact En | exact Hm]. }
  set (pick := fun m => to_int (mother_globalIndex m)).
  assert (Hhit : forall m, common_mother v0 m ->
                           exists m', common_mother v0 m'
                                      /\ association pick (lv_negTrack v0) (lv_posTrack v0)
                                         = mother_globalIndex m').
  { intros m Hm. destruct (association_some pick Hm) as [m' [Hm' E]].
    exists m'. split; [exact Hm' |]. rewrite E. unfold pick.
    apply to_int_small. specialize (Hidx m' Hm'). lia. }
  split.
  - split.
    + intros E m Hm. destruct (Hhit m Hm) as [m' [Hm' E']].
      specialize (Hidx m' Hm'). lia.
    + intros Hno. now apply association_none.
  - intros Hne. destruct (association_cases pick v0) as [E|[m [Hm _]]];
      [contradiction |].
    exact (Hhit m Hm).
Qed.

(** X17: [processBuildV0Tags] and the preselector's [checkPDG] agree when
    the preselector generates K0Short, Lambda, AntiLambda and both
    hypertritons but no photons; with hypertritons switched off, as in the
    preselector's defaults, every V0 [checkPDG] finds interesting is tagged
    1 by the tag builder. *)
Theorem tag_builder_agrees_with_checkPDG :
  forall (cfg : lambdakzeroPreselector.Configurables) (v0table : list LabeledV0),
    lambdakzeroPreselector.dIfMCgenerateK0Short cfg = true ->
    lambdakzeroPreselector.dIfMCgenerateLambda cfg = true ->
    lambdakzeroPreselector.dIfMCgenerateAntiLambda cfg = true ->
    lambdakzeroPreselector.dIfMCgenerateGamma cfg = false ->
    Forall2
      (fun v0 lInteresting =>
         let found :=
           fst (lambdakzeroPreselector.checkPDG cfg v0 false
                  lambdakzeroPreselector.no_species) in
         (lInteresting = 0 \/ lInteresting = 1)%Z
         /\ (found = true -> lInteresting = 1%Z)
         /\ (lambdakzeroPreselector.dIfMCgenerateHypertriton cfg = true ->
             lambdakzeroPreselector.dIfMCgenerateAntiHypertriton cfg = true ->
             (found = true <-> lInteresting = 1%Z)))
      v0table (lambdakzeroTagBuilder.processBuildV0Tags v0table).
Proof.
  intros cfg v0table HK HL HA HG.
  unfold lambdakzeroTagBuilder.processBuildV0Tags.
  apply Forall2_map_right. intros v0 _. cbv zeta.
  unfold lambdakzeroPreselector.checkPDG, lambdakzeroTagBuilder.interesting_pdg.
  rewrite HK, HL, HA, HG.
  generalize (association mother_pdgCode (lv_negTrack v0) (lv_posTrack v0)).
  intros lPDG.
  destruct (Z.eqb_spec lPDG 310) as [->|E1];
    [| destruct (Z.eqb_spec lPDG 3122) as [->|E2];
       [| destruct (Z.eqb_spec lPDG (-3122)) as [->|E3];
          [| destruct (Z.eqb_spec lPDG 22) as [->|E4];
             [| destruct (Z.eqb_spec lPDG 1010010030) as [->|E5];
                [| destruct (Z.eqb_spec lPDG (-1010010030)) as [->|E6]]]]]];
    cbn;
    try (destruct (Z.eqb_spec (Z.abs lPDG) 3122) as [A1|A1]; [lia |]);
    try (destruct (Z.eqb_spec (Z.abs lPDG) 1010010030) as [A2|A2]; [lia |]);
    destruct (lambdakzeroPreselector.dIfMCgenerateHypertriton cfg),
             (lambdakzeroPreselector.dIfMCgenerateAntiHypertriton cfg);
    cbn; (split; [lia | split; [intros H; (reflexivity || discriminate H) |]]);
    intros H1 H2; try discriminate H1; try discriminate H2;
    split; intros H; (reflexivity || discriminate H).
Qed.

Lemma Forall2_map_both (A B C : Type) (P : B -> C -> Prop) (f : A -> B) (g : A -> C)
    (l : list A) :
  (forall x, In x l -> P (f x) (g x)) -> Forall2 P (map f l) (map g l).
Proof.
  induction l as [|x l IH]; intros H; cbn; constructor.
  - apply H. now left.
  - apply IH. intros y Hy. apply H. now right.
Qed.

Lemma within_wider (cfg : lambdakzeroPreselector.Configurables) (w1 w2 x : Q) :
  w1 <= w2 ->
  lambdakzeroPreselector.within (with_window cfg w1) x = true ->
  lambdakzeroPreselector.within (with_window cfg w2) x = true.
Proof.
  unfold lambdakzeroPreselector.within, with_window.
  cbn [lambdakzeroPreselector.ddEdxPreSelectionWindow].
  unfold Qltb. rewrite !Z.ltb_lt. intros Hle Hlt.
  exact (Qlt_le_trans (Qabs x) w1 w2 Hlt Hle).
Qed.

Lemma conjunction_wider (a1 b1 a2 b2 c : bool) :
  (a1 = true -> a2 = true) -> (b1 = true -> b2 = true) ->
  a1 && b1 && c = true -> a2 && b2 && c = true.
Proof.
  destruct a1, b1, c; cbn; intros Ha Hb H; try discriminate H.
  now rewrite Ha, Hb.
Qed.

Lemma disjunction_wider (a1 a2 b : bool) :
  (a1 = true -> a2 = true) -> a1 || b = true -> a2 || b = true.
Proof.
  destruct a1, b; cbn; intros Ha H; try discriminate H.
  - now rewrite Ha.
  - now rewrite Ha.
  - apply orb_true_r.
Qed.

Lemma species_wider (cfg : lambdakzeroPreselector.Configurables) (w1 w2 : Q)
    (v : LabeledV0) :
  w1 <= w2 ->
  let f1 := snd (lambdakzeroPreselector.checkdEdx (with_window cfg w1) v false
                   lambdakzeroPreselector.no_species) in
  let f2 := snd (lambdakzeroPreselector.checkdEdx (with_window cfg w2) v false
                   lambdakzeroPreselector.no_species) in
  (lambdakzeroPreselector.lIsGamma f1 = true -> lambdakzeroPreselector.lIsGamma f2 = true)
  /\ (lambdakzeroPreselector.lIsK0Short f1 = true
      -> lambdakzeroPreselector.lIsK0Short f2 = true)
  /\ (lambdakzeroPreselector.lIsLambda f1 = true
      -> lambdakzeroPreselector.lIsLambda f2 = true)
  /\ (lambdakzeroPreselector.lIsAntiLambda f1 = true
      -> lambdakzeroPreselector.lIsAntiLambda f2 = true)
  /\ (lambdakzeroPreselector.lIsHypertriton f1 = true
      -> lambdakzeroPreselector.lIsHypertriton f2 = true)
  /\ (lambdakzeroPreselector.lIsAntiHypertriton f1 = true
      -> lambdakzeroPreselector.lIsAntiHypertriton f2 = true).
Proof.
  intros Hle. cbv zeta. rewrite !checkdEdx_closed_form. cbv zeta.
  cbn [snd lambdakzeroPreselector.lIsGamma
    lambdakzeroPreselector.lIsK0Short lambdakzeroPreselector.lIsLambda
    lambdakzeroPreselector.lIsAntiLambda lambdakzeroPreselector.lIsHypertriton
    lambdakzeroPreselector.lIsAntiHypertriton].
  pose proof (fun x => @within_wider cfg w1 w2 x Hle) as Hw.
  repeat split; apply conjunction_wider;
    try apply disjunction_wider; apply Hw.
Qed.

Lemma quality_wider (g1 k1 l1 a1 h1 g2 k2 l2 a2 h2 P N B : bool) :
  (g1 = true -> g2 = true) -> (k1 = true -> k2 = true) -> (l1 = true -> l2 = true) ->
  (a1 = true -> a2 = true) -> (h1 = true -> h2 = true) ->
  ((g1 || k1) && (P && N)) || (l1 || h1) && (P && (N || B))
  || (a1 || h1) && (N && (P || B)) = true ->
  ((g2 || k2) && (P && N)) || (l2 || h2) && (P && (N || B))
  || (a2 || h2) && (N && (P || B)) = true.
Proof.
  intros Hg Hk Hl Ha Hh.
  destruct P, N, B; cbn; rewrite ?andb_true_r, ?andb_false_r, ?orb_false_r;
    try (intros H; discriminate H);
    rewrite ?orb_true_iff; tauto.
Qed.

Lemma indicator_wider (b1 b2 : bool) :
  (b1 = true -> b2 = true) ->
  ((if b1 then 1 else 0) <= (if b2 then 1 else 0))%nat.
Proof.
  destruct b1, b2; intros H; first [lia | discriminate (H eq_refl)].
Qed.

(** X18: widening the dE/dx window never loses a V0: every V0 that
    [processBuildValiddEdx] tags interesting with a window stays tagged with
    a wider one, with at least as many species flags. *)
Theorem wider_window_keeps_candidates :
  forall (cfg : lambdakzeroPreselector.Configurables) (w1 w2 : Q)
         (v0table : list LabeledV0),
    w1 <= w2 ->
    Forall2
      (fun narrow wide =>
         (lambdakzeroPreselector.isInteresting narrow = true
          -> lambdakzeroPreselector.isInteresting wide = true)
         /\ (lambdakzeroPreselector.count_species
               (lambdakzeroPreselector.isCandidate narrow)
             <= lambdakzeroPreselector.count_species
                  (lambdakzeroPreselector.isCandidate wide))%nat)
      (lambdakzeroPreselector.processBuildValiddEdx (with_window cfg w1) v0table)
      (lambdakzeroPreselector.processBuildValiddEdx (with_window cfg w2) v0table).
Proof.
  intros cfg w1 w2 v0table Hle.
  unfold lambdakzeroPreselector.processBuildValiddEdx.
  apply Forall2_map_both. intros v _.
  pose proof (dEdx_verdict_implied (with_window cfg w1) v) as Q1.
  pose proof (dEdx_verdict_implied (with_window cfg w2) v) as Q2.
  pose proof (@species_wider cfg w1 w2 v Hle) as Hs.
  cbv zeta in Q1, Q2, Hs.
  destruct (lambdakzeroPreselector.checkdEdx (with_window cfg w1) v false
              lambdakzeroPreselector.no_species) as [i1 f1].
  destruct (lambdakzeroPreselector.checkdEdx (with_window cfg w2) v false
              lambdakzeroPreselector.no_species) as [i2 f2].
  cbn [fst snd] in *.
  cbn [lambdakzeroPreselector.isInteresting lambdakzeroPreselector.isCandidate].
  rewrite Q1, Q2.
  destruct Hs as [Hg [Hk [Hl [Ha [Hh Hah]]]]].
  split.
  - rewrite !checkTrackQuality_closed_form. cbv zeta.
    apply quality_wider; assumption.
  - unfold lambdakzeroPreselector.count_species.
    pose proof (indicator_wider Hg). pose proof (indicator_wider Hk).
    pose proof (indicator_wider Hl). pose proof (indicator_wider Ha).
    pose proof (indicator_wider Hh). pose proof (indicator_wider Hah).
    lia.
Qed.

Lemma sample_lambda_fits : Forall indices_fit_int [sample_lambda].
Proof.
  constructor; [| constructor].
  intros t p m [-> | ->] E Hin; cbn in E; injection E as <-; cbn in Hin;
    destruct Hin as [<- | []]; cbn; lia.
Qed.

Lemma labels_point_to_a_common_mother_witness :
  Forall indices_fit_int [sample_lambda]
  /\ Forall2
       (fun v0 lLabel =>
          (lLabel = (-1)%Z <-> forall m, ~ common_mother v0 m)
          /\ (lLabel <> (-1)%Z ->
              exists m, common_mother v0 m /\ lLabel = mother_globalIndex m))
       [sample_lambda] (lambdakzeroLabelBuilder.processBuildV0Labels [sample_lambda]).
Proof.
  split; [exact sample_lambda_fits |].
  apply (@labels_point_to_a_common_mother [sample_lambda]). exact sample_lambda_fits.
Defined.

Lemma tag_builder_agrees_with_checkPDG_witness :
  lambdakzeroPreselector.dIfMCgenerateK0Short
    lambdakzeroPreselector.default_configurables = true
  /\ lambdakzeroPreselector.dIfMCgenerateLambda
       lambdakzeroPreselector.default_configurables = true
  /\ lambdakzeroPreselector.dIfMCgenerateAntiLambda
       lambdakzeroPreselector.default_configurables = true
  /\ lambdakzeroPreselector.dIfMCgenerateGamma
       lambdakzeroPreselector.default_configurables = false
  /\ Forall2
       (fun v0 lInteresting =>
          let found :=
            fst (lambdakzeroPreselector.checkPDG
                   lambdakzeroPreselector.default_configurables v0 false
                   lambdakzeroPreselector.no_species) in
          (lInteresting = 0 \/ lInteresting = 1)%Z
          /\ (found = true -> lInteresting = 1%Z)
          /\ (lambdakzeroPreselector.dIfMCgenerateHypertriton
                lambdakzeroPreselector.default_configurables = true ->
              lambdakzeroPreselector.dIfMCgenerateAntiHypertriton
                lambdakzeroPreselector.default_configurables = true ->
              (found = true <-> lInteresting = 1%Z)))
       [sample_lambda] (lambdakzeroTagBuilder.processBuildV0Tags [sample_lambda]).
Proof.
  repeat (split; [reflexivity |]).
  apply (@tag_builder_agrees_with_checkPDG
           lambdakzeroPreselector.default_configurables [sample_lambda]);
    reflexivity.
Defined.

Lemma wider_window_keeps_candidates_witness :
  3 <= 7
  /\ Forall2
       (fun narrow wide =>
          (lambdakzeroPreselector.isInteresting narrow = true
           -> lambdakzeroPreselector.isInteresting wide = true)
          /\ (lambdakzeroPreselector.count_species
                (lambdakzeroPreselector.isCandidate narrow)
              <= lambdakzeroPreselector.count_species
                   (lambdakzeroPreselector.isCandidate wide))%nat)
       (lambdakzeroPreselector.processBuildValiddEdx
          (with_window lambdakzeroPreselector.default_configurables 3) [sample_lambda])
       (lambdakzeroPreselector.processBuildValiddEdx
          (with_window lambdakzeroPreselector.default_configurables 7) [sample_lambda]).
Proof.
  split; [unfold Qle; cbn; lia |].
  apply (@wider_window_keeps_candidates
           lambdakzeroPreselector.default_configurables 3 7 [sample_lambda]).
  unfold Qle; cbn; lia.
Defined.

Example sample_lambda_is_tagged :
  lambdakzeroLabelBuilder.processBuildV0Labels [sample_lambda] = [12%Z]
  /\ lambdakzeroTagBuilder.processBuildV0Tags [sample_lambda] = [1%Z]
  /\ map lambdakzeroPreselector.isInteresting
       (lambdakzeroPreselector.processBuildValiddEdxMCAssociated
          lambdakzeroPreselector.default_configurables [sample_lambda]) = [true].
Proof. repeat split; vm_compute; reflexivity. Qed.

(** ** [StrangenessBuilder] *)

Lemma length_list_set (i : nat) (x : Z) (l : list Z) :
  List.length (lambdakzeroV0DataLinkBuilder.list_set i x l) = List.length l.
Proof.
  revert i. induction l as [|y l IH]; intros [|i]; cbn; try reflexivity.
  now rewrite IH.
Qed.

Lemma nth_error_list_set (i j : nat) (x : Z) (l : list Z) :
  (i < List.length l)%nat ->
  nth_error (lambdakzeroV0DataLinkBuilder.list_set i x l) j
  = if (i =? j)%nat then Some x else nth_error l j.
Proof.
  revert i j. induction l as [|y l IH]; intros i j Hi; cbn in Hi; [lia |].
  destruct i as [|i], j as [|j]; cbn; try reflexivity.
  apply IH. lia.
Qed.

Lemma vector_write_some (i x : Z) (v : lambdakzeroV0DataLinkBuilder.vector) :
  (0 <= i < Z.of_nat (lambdakzeroV0DataLinkBuilder.vector_size v))%Z ->
  lambdakzeroV0DataLinkBuilder.vector_write i x v
  = Some {| lambdakzeroV0DataLinkBuilder.elements :=
              lambdakzeroV0DataLinkBuilder.list_set (Z.to_nat i) x
                (lambdakzeroV0DataLinkBuilder.elements v);
            lambdakzeroV0DataLinkBuilder.capacity :=
              lambdakzeroV0DataLinkBuilder.capacity v |}.
Proof.
  intros H. unfold lambdakzeroV0DataLinkBuilder.vector_write.
  replace (0 <=? i)%Z with true by (symmetry; apply Z.leb_le; lia).
  replace (i <? _)%Z with true by (symmetry; apply Z.ltb_lt; lia).
  reflexivity.
Qed.

Lemma vector_write_none (i x : Z) (v : lambdakzeroV0DataLinkBuilder.vector) :
  ~ (0 <= i < Z.of_nat (lambdakzeroV0DataLinkBuilder.vector_size v))%Z ->
  lambdakzeroV0DataLinkBuilder.vector_write i x v = None.
Proof.
  intros H. unfold lambdakzeroV0DataLinkBuilder.vector_write.
  destruct (Z.leb_spec 0 i); destruct (Z.ltb_spec i
    (Z.of_nat (lambdakzeroV0DataLinkBuilder.vector_size v))); cbn; try reflexivity.
  lia.
Qed.

Lemma vector_size_resize (n : nat) (x : Z) (v : lambdakzeroV0DataLinkBuilder.vector) :
  lambdakzeroV0DataLinkBuilder.vector_size (StrangenessBuilder.vector_resize n x v) = n.
Proof.
  unfold lambdakzeroV0DataLinkBuilder.vector_size, StrangenessBuilder.vector_resize.
  cbn. rewrite length_app, length_firstn, repeat_length.
  unfold lambdakzeroV0DataLinkBuilder.vector_size. lia.
Qed.

Lemma entry_resize (n i : nat) (x : Z) (v : lambdakzeroV0DataLinkBuilder.vector) :
  (i < n)%nat ->
  entry (StrangenessBuilder.vector_resize n x v) i
  = Some (match entry v i with Some old => old | None => x end).
Proof.
  intros Hi. unfold entry, StrangenessBuilder.vector_resize,
    lambdakzeroV0DataLinkBuilder.vector_size. cbn.
  set (l := lambdakzeroV0DataLinkBuilder.elements v).
  destruct (Nat.lt_ge_cases i (List.length l)) as [Hlt|Hge].
  - rewrite nth_error_app1 by (rewrite length_firstn; lia).
    rewrite nth_error_firstn.
    replace (i <? n)%nat with true by (symmetry; apply Nat.ltb_lt; lia).
    destruct (nth_error l i) eqn:E; [reflexivity |].
    apply nth_error_None in E. lia.
  - rewrite nth_error_app2 by (rewrite length_firstn; lia).
    rewrite length_firstn.
    replace (nth_error l i) with (@None Z) by (symmetry; apply nth_error_None; lia).
    rewrite nth_error_repeat by lia. reflexivity.
Qed.

Lemma mark_used_entries (cascades : list StrangenessBuilder.Cascade) :
  forall (m : lambdakzeroV0DataLinkBuilder.vector),
    let n := lambdakzeroV0DataLinkBuilder.vector_size m in
    if refers_within n cascades
    then exists m',
        StrangenessBuilder.mark_used cascades m = Some m'
        /\ lambdakzeroV0DataLinkBuilder.vector_size m' = n
        /\ forall i, entry m' i = if referenced cascades i && (i <? n)%nat
                                  then Some (-1)%Z else entry m i
    else StrangenessBuilder.mark_used cascades m = None.
Proof.
  induction cascades as [|c rest IH]; intros m; cbn zeta.
  - cbn. exists m. repeat split; reflexivity.
  - cbn [refers_within forallb StrangenessBuilder.mark_used].
    fold (refers_within (lambdakzeroV0DataLinkBuilder.vector_size m) rest).
    destruct (Z.leb_spec 0 (StrangenessBuilder.cascade_v0Id c)) as [H0|H0];
      [| cbn [andb]; rewrite vector_write_none by lia; reflexivity].
    destruct (Z.ltb_spec (StrangenessBuilder.cascade_v0Id c)
                (Z.of_nat (lambdakzeroV0DataLinkBuilder.vector_size m))) as [H1|H1];
      [| cbn [andb]; rewrite vector_write_none by lia; reflexivity].
    cbn [andb]. rewrite vector_write_some by lia.
    match goal with |- context [StrangenessBuilder.mark_used rest ?v] => set (m1 := v) end.
    assert (Hsize : lambdakzeroV0DataLinkBuilder.vector_size m1
                    = lambdakzeroV0DataLinkBuilder.vector_size m)
      by (unfold m1, lambdakzeroV0DataLinkBuilder.vector_size; cbn;
          apply length_list_set).
    specialize (IH m1). cbn zeta in IH. rewrite Hsize in IH.
    destruct (refers_within (lambdakzeroV0DataLinkBuilder.vector_size m) rest);
      [| exact IH].
    destruct IH as [m' [E [Hs He]]]. exists m'. split; [exact E | split; [exact Hs |]].
    intros i. rewrite He. cbn [referenced existsb]. fold (referenced rest i).
    destruct (referenced rest i && (i <? lambdakzeroV0DataLinkBuilder.vector_size m)%nat)
      eqn:Er.
    + apply andb_true_iff in Er. destruct Er as [Er1 Er2].
      rewrite Er1, Er2, orb_true_r. reflexivity.
    + unfold entry, m1. cbn [lambdakzeroV0DataLinkBuilder.elements].
      rewrite nth_error_list_set
        by (unfold lambdakzeroV0DataLinkBuilder.vector_size in H1; lia).
      destruct (Z.eqb_spec (StrangenessBuilder.cascade_v0Id c) (Z.of_nat i)) as [Ec|Ec].
      * replace (Z.to_nat (StrangenessBuilder.cascade_v0Id c) =? i)%nat with true
          by (symmetry; apply Nat.eqb_eq; lia).
        replace (i <? lambdakzeroV0DataLinkBuilder.vector_size m)%nat with true
          by (symmetry; apply Nat.ltb_lt; lia).
        reflexivity.
      * replace (Z.to_nat (StrangenessBuilder.cascade_v0Id c) =? i)%nat with false
          by (symmetry; apply Nat.eqb_neq; lia).
        cbn [orb]. rewrite Er. reflexivity.
Qed.

Lemma markV0sUsedInCascades_entries_aux :
  forall (v0s : list V0) (cascades : list StrangenessBuilder.Cascade)
         (v0Map : lambdakzeroV0DataLinkBuilder.vector),
    let n := List.length v0s in
    if refers_within n cascades
    then exists map,
        StrangenessBuilder.markV0sUsedInCascades v0s cascades v0Map = Some map
        /\ lambdakzeroV0DataLinkBuilder.vector_size map = n
        /\ forall i, (i < n)%nat ->
             entry map i
             = Some (if referenced cascades i then (-1)%Z
                     else match entry v0Map i with Some old => old | None => (-2)%Z end)
    else StrangenessBuilder.markV0sUsedInCascades v0s cascades v0Map = None.
Proof.
  intros v0s cascades v0Map n. unfold StrangenessBuilder.markV0sUsedInCascades.
  pose proof (mark_used_entries cascades
                (StrangenessBuilder.vector_resize n (-2) v0Map)) as H.
  cbn zeta in H. rewrite vector_size_resize in H. fold n.
  destruct (refers_within n cascades); [| exact H].
  destruct H as [m' [E [Hs He]]]. exists m'. split; [exact E | split; [exact Hs |]].
  intros i Hi. rewrite He.
  replace (i <? n)%nat with true by (symmetry; apply Nat.ltb_lt; lia).
  rewrite andb_true_r. destruct (referenced cascades i); [reflexivity |].
  now apply entry_resize.
Qed.

(** X19: [markV0sUsedInCascades] is defined exactly when every cascade
    refers to a V0 of the table.  Then the map has one entry per V0: -1 for
    a V0 some cascade refers to; for the others the entry the member vector
    held before the call, and -2 only where it held none. *)
Theorem markV0sUsedInCascades_entries :
  forall (v0s : list V0) (cascades : list StrangenessBuilder.Cascade)
         (v0Map : lambdakzeroV0DataLinkBuilder.vector),
    let n := List.length v0s in
    if refers_within n cascades
    then exists map,
        StrangenessBuilder.markV0sUsedInCascades v0s cascades v0Map = Some map
        /\ lambdakzeroV0DataLinkBuilder.vector_size map = n
        /\ forall i, (i < n)%nat ->
             entry map i
             = Some (if referenced cascades i then (-1)%Z
                     else match entry v0Map i with Some old => old | None => (-2)%Z end)
    else StrangenessBuilder.markV0sUsedInCascades v0s cascades v0Map = None.
Proof.
  exact markV0sUsedInCascades_entries_aux.
Qed.

(** X20: the map is a member that is resized but never cleared, so marks
    outlive their data frame: after a second call for a table of at most as
    many V0s, a V0 that a cascade of the first call referred to is still
    marked -1, also when no cascade refers to it any more; a call on the
    empty map marks with -1 exactly the V0s referred to. *)
Theorem marks_outlive_the_data_frame :
  forall (v0s1 v0s2 : list V0) (cascades1 cascades2 : list StrangenessBuilder.Cascade)
         (map1 map2 : lambdakzeroV0DataLinkBuilder.vector),
    StrangenessBuilder.markV0sUsedInCascades v0s1 cascades1
      lambdakzeroV0DataLinkBuilder.vector_empty = Some map1 ->
    StrangenessBuilder.markV0sUsedInCascades v0s2 cascades2 map1 = Some map2 ->
    (forall i, (i < List.length v0s1)%nat ->
               entry map1 i = Some (if referenced cascades1 i then -1 else -2)%Z)
    /\ (forall i, (i < List.length v0s2)%nat -> (i < List.length v0s1)%nat ->
                  entry map2 i
                  = Some (if referenced cascades2 i || referenced cascades1 i
                          then -1 else -2)%Z).
Proof.
  intros v0s1 v0s2 cascades1 cascades2 map1 map2 E1 E2.
  pose proof (markV0sUsedInCascades_entries_aux v0s1 cascades1
                lambdakzeroV0DataLinkBuilder.vector_empty) as H1.
  pose proof (markV0sUsedInCascades_entries_aux v0s2 cascades2 map1) as H2.
  cbn zeta in H1, H2.
  destruct (refers_within (List.length v0s1) cascades1);
    [| rewrite H1 in E1; discriminate E1].
  destruct (refers_within (List.length v0s2) cascades2);
    [| rewrite H2 in E2; discriminate E2].
  destruct H1 as [m1 [F1 [_ G1]]]. destruct H2 as [m2 [F2 [_ G2]]].
  rewrite F1 in E1. injection E1 as <-. rewrite F2 in E2. injection E2 as <-.
  assert (K1 : forall i, (i < List.length v0s1)%nat ->
                         entry m1 i = Some (if referenced cascades1 i then -1 else -2)%Z).
  { intros i Hi. rewrite (G1 i Hi). unfold entry at 1. cbn.
    now destruct i. }
  split; [exact K1 |].
  intros i Hi2 Hi1. rewrite (G2 i Hi2), (K1 i Hi1).
  destruct (referenced cascades2 i), (referenced cascades1 i); reflexivity.
Qed.

Lemma enable_tables_entries (enabledTables : nat -> Z) (todo : nat) :
  forall (m : lambdakzeroV0DataLinkBuilder.vector),
    lambdakzeroV0DataLinkBuilder.vector_size m = StrangenessBuilder.nTables ->
    (todo <= StrangenessBuilder.nTables)%nat ->
    exists m',
      StrangenessBuilder.enable_tables enabledTables todo m = Some m'
      /\ lambdakzeroV0DataLinkBuilder.vector_size m' = StrangenessBuilder.nTables
      /\ forall i, entry m' i
                   = if (StrangenessBuilder.nTables - todo <=? i)%nat
                        && (i <? StrangenessBuilder.nTables)%nat
                        && (enabledTables i =? 1)%Z
                     then Some 1%Z else entry m i.
Proof.
  induction todo as [|todo IH]; intros m Hsize Hle.
  - exists m. split; [reflexivity | split; [exact Hsize |]].
    intros i. rewrite Nat.sub_0_r.
    destruct (Nat.leb_spec StrangenessBuilder.nTables i);
      destruct (Nat.ltb_spec i StrangenessBuilder.nTables); try reflexivity. lia.
  - cbn [StrangenessBuilder.enable_tables]. cbv zeta.
    set (k := (StrangenessBuilder.nTables - S todo)%nat).
    assert (Hk : (k < StrangenessBuilder.nTables)%nat) by (unfold k; lia).
    assert (Hnext : (StrangenessBuilder.nTables - todo = S k)%nat) by (unfold k; lia).
    destruct (Z.eqb_spec (enabledTables k) 1) as [E|E].
    + rewrite vector_write_some by (rewrite Hsize; lia).
      match goal with
      | |- context [StrangenessBuilder.enable_tables _ todo ?v] => set (m1 := v)
      end.
      assert (Hsize1 : lambdakzeroV0DataLinkBuilder.vector_size m1
                       = StrangenessBuilder.nTables)
        by (unfold m1, lambdakzeroV0DataLinkBuilder.vector_size; cbn;
            rewrite length_list_set; exact Hsize).
      destruct (IH m1 Hsize1 ltac:(lia)) as [m' [F [Hs He]]].
      exists m'. split; [exact F | split; [exact Hs |]].
      intros i. rewrite He, Hnext. unfold entry, m1.
      cbn [lambdakzeroV0DataLinkBuilder.elements].
      rewrite nth_error_list_set
        by (unfold lambdakzeroV0DataLinkBuilder.vector_size in Hsize; lia).
      rewrite Nat2Z.id.
      destruct (Nat.eqb_spec k i) as [<-|Hne].
      * replace (S k <=? k)%nat with false by (symmetry; apply Nat.leb_gt; lia).
        replace (k <=? k)%nat with true by (symmetry; apply Nat.leb_le; lia).
        replace (k <? StrangenessBuilder.nTables)%nat with true
          by (symmetry; apply Nat.ltb_lt; lia).
        rewrite E. reflexivity.
      * replace (S k <=? i)%nat with (k <=? i)%nat; [reflexivity |].
        destruct (Nat.leb_spec k i); destruct (Nat.leb_spec (S k) i); (reflexivity || lia).
    + destruct (IH m Hsize ltac:(lia)) as [m' [F [Hs He]]].
      exists m'. split; [exact F | split; [exact Hs |]].
      intros i. rewrite He, Hnext.
      destruct (Nat.eqb_spec k i) as [<-|Hne].
      * replace (S k <=? k)%nat with false by (symmetry; apply Nat.leb_gt; lia).
        replace (enabledTables k =? 1)%Z with false by (symmetry; apply Z.eqb_neq; exact E).
        rewrite !andb_false_r. reflexivity.
      * replace (S k <=? i)%nat with (k <=? i)%nat; [reflexivity |].
        destruct (Nat.leb_spec k i); destruct (Nat.leb_spec (S k) i); (reflexivity || lia).
Qed.

Lemma init_entries (enabledTables : nat -> Z) :
  exists s,
    StrangenessBuilder.init enabledTables = Some s
    /\ StrangenessBuilder.mRunNumber s = 0%Z
    /\ StrangenessBuilder.v0Map s = lambdakzeroV0DataLinkBuilder.vector_empty
    /\ StrangenessBuilder.lut_loads s = 0%nat
    /\ lambdakzeroV0DataLinkBuilder.vector_size (StrangenessBuilder.mEnabledTables s)
       = StrangenessBuilder.nTables
    /\ forall i, (i < StrangenessBuilder.nTables)%nat ->
                 entry (StrangenessBuilder.mEnabledTables s) i
                 = Some (if (enabledTables i =? 1)%Z then 1 else 0)%Z.
Proof.
  unfold StrangenessBuilder.init.
  destruct (@enable_tables_entries enabledTables StrangenessBuilder.nTables
              (StrangenessBuilder.vector_resize StrangenessBuilder.nTables 0
                 lambdakzeroV0DataLinkBuilder.vector_empty)
              (vector_size_resize _ _ _) (Nat.le_refl _)) as [m [F [Hs He]]].
  rewrite F. eexists. split; [reflexivity |].
  cbn [StrangenessBuilder.mRunNumber StrangenessBuilder.v0Map
       StrangenessBuilder.lut_loads StrangenessBuilder.mEnabledTables].
  repeat (split; [reflexivity || exact Hs |]).
  intros i Hi. rewrite He, Nat.sub_diag.
  replace (i <? StrangenessBuilder.nTables)%nat with true
    by (symmetry; apply Nat.ltb_lt; lia).
  cbn [Nat.leb andb].
  destruct (enabledTables i =? 1)%Z; [reflexivity |].
  rewrite entry_resize by exact Hi. unfold entry. cbn. now destruct i.
Qed.

(** X21: [init] stays inside [mEnabledTables] and leaves one entry per
    table: 1 where the configured value is 1, 0 for every other value; the
    value -1, documented as autodetect and the default of every table,
    enables nothing. *)
Theorem init_enables_only_ones :
  forall (enabledTables : nat -> Z),
  exists s,
    StrangenessBuilder.init enabledTables = Some s
    /\ lambdakzeroV0DataLinkBuilder.vector_size (StrangenessBuilder.mEnabledTables s)
       = StrangenessBuilder.nTables
    /\ (forall i, (i < StrangenessBuilder.nTables)%nat ->
                  entry (StrangenessBuilder.mEnabledTables s) i
                  = Some (if (enabledTables i =? 1)%Z then 1 else 0)%Z)
    /\ (forall i, (i < StrangenessBuilder.nTables)%nat ->
                  enabledTables i = (-1)%Z ->
                  entry (StrangenessBuilder.mEnabledTables s) i = Some 0%Z).
Proof.
  intros enabledTables.
  destruct (init_entries enabledTables) as [s [E [_ [_ [_ [Hs He]]]]]].
  exists s. split; [exact E | split; [exact Hs | split; [exact He |]]].
  intros i Hi Hauto. rewrite (He i Hi), Hauto. reflexivity.
Qed.

Lemma vector_read_entry (i : nat) (v : lambdakzeroV0DataLinkBuilder.vector) (x : Z) :
  entry v i = Some x ->
  lambdakzeroV0DataLinkBuilder.vector_read (Z.of_nat i) v = Some x.
Proof.
  unfold entry, lambdakzeroV0DataLinkBuilder.vector_read. intros E.
  assert (H : (i < List.length (lambdakzeroV0DataLinkBuilder.elements v))%nat)
    by (apply nth_error_Some; rewrite E; discriminate).
  replace (0 <=? Z.of_nat i)%Z with true by (symmetry; apply Z.leb_le; lia).
  replace (Z.of_nat i <? _)%Z with true
    by (symmetry; apply Z.ltb_lt; unfold lambdakzeroV0DataLinkBuilder.vector_size; lia).
  cbn [andb]. rewrite Nat2Z.id. exact E.
Qed.

Lemma dataProcess_cases (enabledTables : nat -> Z) (s0 s : StrangenessBuilder.State)
    (collisions : list BC) (v0s : list V0) (cascades : list StrangenessBuilder.Cascade)
    (bcs : list BC) :
  StrangenessBuilder.init enabledTables = Some s0 ->
  StrangenessBuilder.mEnabledTables s = StrangenessBuilder.mEnabledTables s0 ->
  let f := {| StrangenessBuilder.frame_collisions := collisions;
              StrangenessBuilder.frame_v0s := v0s;
              StrangenessBuilder.frame_cascades := cascades;
              StrangenessBuilder.frame_bcs := bcs |} in
  match bcs with
  | [] =>
      StrangenessBuilder.dataProcess collisions v0s cascades bcs s
      = Some {| StrangenessBuilder.state := s; StrangenessBuilder.built := [] |}
  | _ :: _ =>
      if refers_within (List.length v0s) cascades
      then exists o,
          StrangenessBuilder.dataProcess collisions v0s cascades bcs s = Some o
          /\ StrangenessBuilder.built o
             = (if (enabledTables 1%nat =? 1)%Z then v0s else [])
          /\ StrangenessBuilder.mEnabledTables (StrangenessBuilder.state o)
             = StrangenessBuilder.mEnabledTables s
          /\ StrangenessBuilder.mRunNumber (StrangenessBuilder.state o)
             = StrangenessBuilder.mRunNumber s
          /\ StrangenessBuilder.lut_loads (StrangenessBuilder.state o)
             = ((if loads_lut (StrangenessBuilder.mRunNumber s) f then 1 else 0)
                + StrangenessBuilder.lut_loads s)%nat
          /\ StrangenessBuilder.markV0sUsedInCascades v0s cascades
               (StrangenessBuilder.v0Map s)
             = Some (StrangenessBuilder.v0Map (StrangenessBuilder.state o))
      else StrangenessBuilder.dataProcess collisions v0s cascades bcs s = None
  end.
Proof.
  intros Hinit Hm f.
  destruct (init_entries enabledTables) as [s0' [E [_ [_ [_ [_ He]]]]]].
  rewrite Hinit in E. injection E as <-.
  assert (R1 : lambdakzeroV0DataLinkBuilder.vector_read StrangenessBuilder.kV0CoresBase
                 (StrangenessBuilder.mEnabledTables s)
               = Some (if (enabledTables 1%nat =? 1)%Z then 1 else 0)%Z).
  { rewrite Hm. apply (@vector_read_entry 1). apply He.
    unfold StrangenessBuilder.nTables. lia. }
  assert (R6 : lambdakzeroV0DataLinkBuilder.vector_read StrangenessBuilder.kStoredCascCores
                 (StrangenessBuilder.mEnabledTables s)
               = Some (if (enabledTables 6%nat =? 1)%Z then 1 else 0)%Z).
  { rewrite Hm. apply (@vector_read_entry 6). apply He.
    unfold StrangenessBuilder.nTables. lia. }
  destruct bcs as [|first bcs]; [reflexivity |].
  pose proof (markV0sUsedInCascades_entries_aux v0s cascades
                (StrangenessBuilder.v0Map s)) as Hmark. cbn zeta in Hmark.
  unfold StrangenessBuilder.dataProcess, StrangenessBuilder.initCCDB, loads_lut, f.
  cbn [StrangenessBuilder.frame_bcs StrangenessBuilder.frame_collisions].
  set (bc := match collisions with c :: _ => c | [] => first end).
  destruct (refers_within (List.length v0s) cascades).
  - destruct Hmark as [map [F _]].
    destruct (StrangenessBuilder.mRunNumber s =? runNumber bc)%Z;
      cbn [negb StrangenessBuilder.v0Map StrangenessBuilder.mEnabledTables
           StrangenessBuilder.mRunNumber StrangenessBuilder.lut
           StrangenessBuilder.lut_loads];
      rewrite F;
      cbn [StrangenessBuilder.v0Map StrangenessBuilder.mEnabledTables
           StrangenessBuilder.mRunNumber StrangenessBuilder.lut
           StrangenessBuilder.lut_loads];
      rewrite R1, R6; eexists; (split; [reflexivity |]);
      cbn [StrangenessBuilder.built StrangenessBuilder.state
           StrangenessBuilder.v0Map StrangenessBuilder.mEnabledTables
           StrangenessBuilder.mRunNumber StrangenessBuilder.lut_loads];
      (split; [destruct (enabledTables 1%nat =? 1)%Z; reflexivity |]);
      repeat split; reflexivity.
  - destruct (StrangenessBuilder.mRunNumber s =? runNumber bc)%Z;
      cbn [negb StrangenessBuilder.v0Map]; rewrite Hmark; reflexivity.
Qed.

(** X22: after [init], [dataProcess] skips a data frame without bunch
    crossings and leaves the members as they were; otherwise it is defined
    exactly when every cascade refers to a V0 of the frame, and hands to
    [buildV0Candidate] all V0s of the frame, in order, when the V0CoresBase
    table is configured with 1, and none for any other value, the default -1
    included. *)
Theorem dataProcess_builds_only_when_enabled :
  forall (enabledTables : nat -> Z) (s0 s : StrangenessBuilder.State)
         (collisions : list BC) (v0s : list V0)
         (cascades : list StrangenessBuilder.Cascade) (bcs : list BC),
    StrangenessBuilder.init enabledTables = Some s0 ->
    StrangenessBuilder.mEnabledTables s = StrangenessBuilder.mEnabledTables s0 ->
    match bcs with
    | [] =>
        StrangenessBuilder.dataProcess collisions v0s cascades bcs s
        = Some {| StrangenessBuilder.state := s; StrangenessBuilder.built := [] |}
    | _ :: _ =>
        if refers_within (List.length v0s) cascades
        then exists o,
            StrangenessBuilder.dataProcess collisions v0s cascades bcs s = Some o
            /\ StrangenessBuilder.built o
               = (if (enabledTables 1%nat =? 1)%Z then v0s else [])
            /\ StrangenessBuilder.mEnabledTables (StrangenessBuilder.state o)
               = StrangenessBuilder.mEnabledTables s
        else StrangenessBuilder.dataProcess collisions v0s cascades bcs s = None
    end.
Proof.
  intros enabledTables s0 s collisions v0s cascades bcs Hinit Hm.
  pose proof (@dataProcess_cases enabledTables s0 s collisions v0s cascades bcs Hinit Hm)
    as H. cbv zeta in H.
  destruct bcs as [|first bcs]; [exact H |].
  destruct (refers_within (List.length v0s) cascades); [| exact H].
  destruct H as [o [E [Hb [He _]]]]. exists o. repeat split; assumption.
Qed.

(** X23: [initCCDB] compares [mRunNumber] with the run of the data frame but
    never stores the run: over any sequence of data frames the member keeps
    the value [init] gave it, 0, and the look-up table is loaded again for
    every frame that has bunch crossings and a run number other than 0. *)
Theorem lut_is_loaded_for_every_frame :
  forall (enabledTables : nat -> Z) (s0 s' : StrangenessBuilder.State)
         (frames : list StrangenessBuilder.Frame) (out : list (list V0)),
    StrangenessBuilder.init enabledTables = Some s0 ->
    StrangenessBuilder.processRealData_each frames s0 = Some (s', out) ->
    StrangenessBuilder.mRunNumber s' = 0%Z
    /\ StrangenessBuilder.lut_loads s'
       = List.length (filter (loads_lut 0) frames)
    /\ List.length out = List.length frames.
Proof.
  intros enabledTables s0 s' frames out Hinit.
  destruct (init_entries enabledTables) as [s0' [E [Hrun [_ [Hloads _]]]]].
  rewrite Hinit in E. injection E as <-.
  assert (G : forall frames s s' out,
             StrangenessBuilder.mEnabledTables s = StrangenessBuilder.mEnabledTables s0 ->
             StrangenessBuilder.mRunNumber s = 0%Z ->
             StrangenessBuilder.processRealData_each frames s = Some (s', out) ->
             StrangenessBuilder.mRunNumber s' = 0%Z
             /\ StrangenessBuilder.lut_loads s'
                = (List.length (filter (loads_lut 0) frames)
                   + StrangenessBuilder.lut_loads s)%nat
             /\ List.length out = List.length frames).
  { clear s' frames out. induction frames as [|f rest IH]; intros s s' out Hm Hr Hrun'.
    - cbn in Hrun'. injection Hrun' as <- <-. split; [exact Hr | split; reflexivity].
    - cbn [StrangenessBuilder.processRealData_each] in Hrun'.
      pose proof (@dataProcess_cases enabledTables s0 s
                    (StrangenessBuilder.frame_collisions f)
                    (StrangenessBuilder.frame_v0s f)
                    (StrangenessBuilder.frame_cascades f)
                    (StrangenessBuilder.frame_bcs f) Hinit Hm) as H.
      cbv zeta in H.
      assert (Hf : {| StrangenessBuilder.frame_collisions :=
                        StrangenessBuilder.frame_collisions f;
                      StrangenessBuilder.frame_v0s := StrangenessBuilder.frame_v0s f;
                      StrangenessBuilder.frame_cascades :=
                        StrangenessBuilder.frame_cascades f;
                      StrangenessBuilder.frame_bcs := StrangenessBuilder.frame_bcs f |}
                   = f) by (destruct f; reflexivity).
      rewrite Hf in H. cbn [filter]. rewrite Hr in H.
      destruct (StrangenessBuilder.frame_bcs f) as [|first bcs] eqn:Ebcs.
      + rewrite H in Hrun'. cbn [StrangenessBuilder.state StrangenessBuilder.built] in Hrun'.
        destruct (StrangenessBuilder.processRealData_each rest s) as [[s1 out1]|] eqn:Er;
          [| discriminate Hrun'].
        injection Hrun' as <- <-.
        destruct (IH s s1 out1 Hm Hr Er) as [A [B C]].
        assert (Hl : loads_lut 0 f = false) by (unfold loads_lut; now rewrite Ebcs).
        rewrite Hl. cbn [List.length]. split; [exact A | split; [exact B | now rewrite C]].
      + destruct (refers_within _ _); [| rewrite H in Hrun'; discriminate Hrun'].
        destruct H as [o [E [_ [Hm' [Hr' [Hl' _]]]]]]. rewrite E in Hrun'.
        destruct (StrangenessBuilder.processRealData_each rest (StrangenessBuilder.state o))
          as [[s1 out1]|] eqn:Er; [| discriminate Hrun'].
        injection Hrun' as <- <-.
        destruct (IH (StrangenessBuilder.state o) s1 out1
                    (eq_trans Hm' Hm) Hr' Er) as [A [B C]].
        split; [exact A | split; [| cbn [List.length]; now rewrite C]].
        rewrite B, Hl'.
        destruct (loads_lut 0 f); cbn [List.length]; lia. }
  intros Hrun'.
  destruct (G frames s0 s' out eq_refl Hrun Hrun') as [A [B C]].
  split; [exact A | split; [| exact C]]. rewrite B, Hloads. lia.
Qed.

Lemma marks_outlive_the_data_frame_witness :
  StrangenessBuilder.markV0sUsedInCascades sample_batch sample_cascades
    lambdakzeroV0DataLinkBuilder.vector_empty = Some sample_map
  /\ StrangenessBuilder.markV0sUsedInCascades sample_batch later_cascades sample_map
     = Some later_map
  /\ (forall i, (i < List.length sample_batch)%nat ->
                entry sample_map i
                = Some (if referenced sample_cascades i then -1 else -2)%Z)
  /\ (forall i, (i < List.length sample_batch)%nat -> (i < List.length sample_batch)%nat ->
                entry later_map i
                = Some (if referenced later_cascades i || referenced sample_cascades i
                        then -1 else -2)%Z).
Proof.
  split; [reflexivity | split; [reflexivity |]].
  apply (@marks_outlive_the_data_frame sample_batch sample_batch
           sample_cascades later_cascades); reflexivity.
Defined.

Example stale_marks_on_sample :
  lambdakzeroV0DataLinkBuilder.elements later_map = [-1; -1; -2; -1; -2]%Z.
Proof. reflexivity. Qed.

Lemma dataProcess_builds_only_when_enabled_witness :
  StrangenessBuilder.init enabled_V0Cores = Some sample_state
  /\ StrangenessBuilder.mEnabledTables sample_state
     = StrangenessBuilder.mEnabledTables sample_state
  /\ exists o,
      StrangenessBuilder.dataProcess [] sample_batch sample_cascades
        [ {| runNumber := 5; timestamp := 100 |} ] sample_state = Some o
      /\ StrangenessBuilder.built o
         = (if (enabled_V0Cores 1%nat =? 1)%Z then sample_batch else [])
      /\ StrangenessBuilder.mEnabledTables (StrangenessBuilder.state o)
         = StrangenessBuilder.mEnabledTables sample_state.
Proof.
  split; [reflexivity | split; [reflexivity |]].
  exact (@dataProcess_builds_only_when_enabled enabled_V0Cores sample_state sample_state
           [] sample_batch sample_cascades [ {| runNumber := 5; timestamp := 100 |} ]
           eq_refl eq_refl).
Defined.

Lemma lut_is_loaded_for_every_frame_witness :
  StrangenessBuilder.init enabled_V0Cores = Some sample_state
  /\ StrangenessBuilder.processRealData_each sample_frames sample_state
     = Some (fst sample_run, snd sample_run)
  /\ StrangenessBuilder.mRunNumber (fst sample_run) = 0%Z
  /\ StrangenessBuilder.lut_loads (fst sample_run)
     = List.length (filter (loads_lut 0) sample_frames)
  /\ List.length (snd sample_run) = List.length sample_frames.
Proof.
  split; [reflexivity | split; [reflexivity |]].
  apply (@lut_is_loaded_for_every_frame enabled_V0Cores sample_state (fst sample_run)
           sample_frames (snd sample_run)); reflexivity.
Defined.

Example sample_frames_load_twice :
  StrangenessBuilder.lut_loads (fst sample_run) = 2%nat
  /\ StrangenessBuilder.lut (fst sample_run) = Some 200%Z
  /\ map (@List.length V0) (snd sample_run) = [5; 5; 0]%nat.
Proof. repeat split; reflexivity. Qed.

(** ** [straRecoStudy.cxx] *)

Lemma insert_index_permutation (v : list Z) (i : nat) (idx : list nat) :
  Permutation (preProcessMCcollisions.insert_index v i idx) (i :: idx).
Proof.
  induction idx as [|j rest IH]; cbn; [reflexivity |].
  destruct (_ <? _)%Z; [reflexivity |].
  rewrite IH. apply perm_swap.
Qed.

Lemma insert_index_sorted (v : list Z) (i : nat) (idx : list nat) :
  StronglySorted (ranks_before v) idx ->
  Forall (fun j => (j < i)%nat) idx ->
  StronglySorted (ranks_before v) (preProcessMCcollisions.insert_index v i idx).
Proof.
  induction idx as [|j rest IH]; intros Hs Hlt; cbn.
  - constructor; constructor.
  - apply StronglySorted_inv in Hs. destruct Hs as [Hrest Hj].
    apply Forall_cons_iff in Hlt. destruct Hlt as [Hji Hlt].
    destruct (Z.ltb_spec (preProcessMCcollisions.at_index v j)
                (preProcessMCcollisions.at_index v i)) as [Hv|Hv].
    + constructor; [constructor; assumption |].
      constructor; [left; exact Hv |].
      rewrite Forall_forall in Hj |- *. intros k Hk. left.
      destruct (Hj k Hk) as [H|[H _]]; lia.
    + constructor; [apply IH; assumption |].
      rewrite (insert_index_permutation v i rest).
      constructor; [| exact Hj].
      unfold ranks_before.
      destruct (Z.eq_dec (preProcessMCcollisions.at_index v j)
                  (preProcessMCcollisions.at_index v i)) as [E|E];
        [right; split; assumption | left; lia].
Qed.

Lemma stable_sort_upto (v : list Z) (n : nat) :
  let idx := preProcessMCcollisions.stable_sort v (seq 0 n) in
  Permutation idx (seq 0 n) /\ StronglySorted (ranks_before v) idx.
Proof.
  unfold preProcessMCcollisions.stable_sort.
  induction n as [|n [IHp IHs]]; cbn zeta.
  - split; [reflexivity | constructor].
  - rewrite seq_S, fold_left_app. cbn [fold_left Nat.add].
    split.
    + rewrite insert_index_permutation, IHp.
      apply Permutation_cons_append.
    + apply insert_index_sorted; [exact IHs |].
      rewrite IHp. apply Forall_forall. intros j Hj. apply in_seq in Hj. lia.
Qed.

(** X24: [sort_indices] returns every index of the vector exactly once,
    ordered by decreasing value; indices of equal values keep their
    increasing order. *)
Theorem sort_indices_orders_by_decreasing_value :
  forall (v : list Z),
    Permutation (preProcessMCcollisions.sort_indices v) (seq 0 (List.length v))
    /\ StronglySorted (ranks_before v) (preProcessMCcollisions.sort_indices v)
    /\ StronglySorted Z.ge
         (map (preProcessMCcollisions.at_index v) (preProcessMCcollisions.sort_indices v))
    /\ Permutation
         (map (preProcessMCcollisions.at_index v) (preProcessMCcollisions.sort_indices v))
         v.
Proof.
  intros v. unfold preProcessMCcollisions.sort_indices.
  destruct (stable_sort_upto v (List.length v)) as [Hp Hs]. cbn zeta in Hp, Hs.
  split; [exact Hp | split; [exact Hs | split]].
  - clear Hp. induction Hs as [|i l Hs IH Hi]; cbn; [constructor |].
    constructor; [exact IH |].
    rewrite Forall_forall in Hi |- *. intros x Hx.
    apply in_map_iff in Hx. destruct Hx as [j [<- Hj]].
    destruct (Hi j Hj) as [H|[H _]]; lia.
  - rewrite Hp. unfold preProcessMCcollisions.at_index.
    clear. induction v as [|x v IH]; [reflexivity |].
    cbn [List.length seq map nth]. constructor.
    rewrite <- seq_shift, map_map. exact IH.
Qed.

Lemma lYAxisOffset_triangular (n : Z) :
  (0 <= n)%Z -> (2 * preProcessMCcollisions.lYAxisOffset n = n * (n - 1))%Z.
Proof.
  intros Hn. unfold preProcessMCcollisions.lYAxisOffset, preProcessMCcollisions.truncate.
  cbn [Qmult Qnum Qden inject_Z Pos.mul].
  change (Z.pos (2 * 1 * 1)) with 2%Z.
  destruct (Z.Even_or_Odd n) as [[k ->]|[k ->]].
  - replace (1 * (2 * k) * (2 * k - 1))%Z with (k * (2 * k - 1) * 2)%Z by ring.
    rewrite Z.quot_mul by lia. ring.
  - replace (1 * (2 * k + 1) * (2 * k + 1 - 1))%Z with ((2 * k + 1) * k * 2)%Z by ring.
    rewrite Z.quot_mul by lia. ring.
Qed.

Lemma fill_sorted_columns (v : list Z) (offset : Z) (idx : list nat) :
  forall c,
    map fst (preProcessMCcollisions.fill_sorted v offset idx c)
    = map (preProcessMCcollisions.at_index v) idx
    /\ map snd (preProcessMCcollisions.fill_sorted v offset idx c)
       = map (fun k => (offset + c + Z.of_nat k)%Z) (seq 0 (List.length idx)).
Proof.
  induction idx as [|i idx IH]; intros c; cbn; [split; reflexivity |].
  destruct (IH (c + 1)%Z) as [H1 H2]. rewrite H1, H2. split; [reflexivity |].
  f_equal; [cbn; lia |].
  rewrite <- seq_shift, map_map. apply map_ext. intros k. lia.
Qed.

Lemma length_sort_indices (v : list Z) :
  List.length (preProcessMCcollisions.sort_indices v) = List.length v.
Proof.
  destruct (stable_sort_upto v (List.length v)) as [Hp _]. cbn zeta in Hp.
  unfold preProcessMCcollisions.sort_indices.
  rewrite (Permutation_length Hp). apply length_seq.
Qed.

(** X25: [process] fills [h2dNContributors] once per reconstructed collision,
    in the order of [sort_indices]; the collision of rank [k] among [n]
    goes to row [n (n - 1) / 2 + k], so the rows of events reconstructed a
    different number of times never coincide, and they stay below the 20
    rows of the axis exactly for events reconstructed at most 5 times. *)
Theorem contributor_rows_are_disjoint :
  forall (collisions : list Z),
    let n := List.length collisions in
    let offset := preProcessMCcollisions.lYAxisOffset (Z.of_nat n) in
    (2 * offset = Z.of_nat n * (Z.of_nat n - 1))%Z
    /\ map fst (preProcessMCcollisions.process collisions)
       = map (preProcessMCcollisions.at_index collisions)
           (preProcessMCcollisions.sort_indices collisions)
    /\ map snd (preProcessMCcollisions.process collisions)
       = map (fun k => (offset + Z.of_nat k)%Z) (seq 0 n)
    /\ (forall (others : list Z) (y : Z),
           List.length others <> n ->
           In y (map snd (preProcessMCcollisions.process collisions)) ->
           ~ In y (map snd (preProcessMCcollisions.process others)))
    /\ (Forall (fun y => (y < 20)%Z) (map snd (preProcessMCcollisions.process collisions))
        <-> (n <= 5)%nat).
Proof.
  intros collisions n offset.
  assert (Hrows : forall c : list Z,
             map snd (preProcessMCcollisions.process c)
             = map (fun k => (preProcessMCcollisions.lYAxisOffset
                                (Z.of_nat (List.length c)) + Z.of_nat k)%Z)
                 (seq 0 (List.length c))).
  { intros c. unfold preProcessMCcollisions.process.
    destruct (fill_sorted_columns c
                (preProcessMCcollisions.lYAxisOffset (Z.of_nat (List.length c)))
                (preProcessMCcollisions.sort_indices c) 0) as [_ H].
    cbv zeta. rewrite H, length_sort_indices. apply map_ext. intros k. lia. }
  assert (Hoff : forall m : nat,
             (2 * preProcessMCcollisions.lYAxisOffset (Z.of_nat m)
              = Z.of_nat m * (Z.of_nat m - 1))%Z)
    by (intros m; apply lYAxisOffset_triangular; lia).
  split; [apply Hoff | split; [| split; [apply Hrows | split]]].
  - unfold preProcessMCcollisions.process. cbv zeta.
    apply (fill_sorted_columns collisions _ _ 0).
  - intros others y Hlen Hy Hy'. rewrite Hrows in Hy, Hy'.
    apply in_map_iff in Hy. destruct Hy as [k [<- Hk]]. apply in_seq in Hk.
    apply in_map_iff in Hy'. destruct Hy' as [j [E Hj]]. apply in_seq in Hj.
    pose proof (Hoff n) as H1. pose proof (Hoff (List.length others)) as H2.
    fold n in E. nia.
  - rewrite Hrows. fold n. fold offset. pose proof (Hoff n) as H1. fold offset in H1.
    rewrite Forall_forall. split.
    + intros H. destruct n as [|m]; [lia |].
      assert (Hin : In (offset + Z.of_nat m)%Z
                      (map (fun k : nat => (offset + Z.of_nat k)%Z) (seq 0 (S m)))).
      { apply in_map_iff. exists m. split; [reflexivity |]. apply in_seq. lia. }
      specialize (H _ Hin). nia.
    + intros Hn y Hy. apply in_map_iff in Hy. destruct Hy as [k [<- Hk]].
      apply in_seq in Hk. nia.
Qed.

Lemma how_many_app (A : Type) (p : A -> bool) (l1 l2 : list A) :
  how_many p (l1 ++ l2) = (how_many p l1 + how_many p l2)%Z.
Proof.
  unfold how_many. rewrite filter_app, length_app. lia.
Qed.

Lemma how_many_one (A : Type) (p : A -> bool) (x : A) :
  how_many p [x] = if p x then 1%Z else 0%Z.
Proof.
  unfold how_many. cbn. now destruct (p x).
Qed.

Lemma how_many_bounds (A : Type) (p : A -> bool) (l : list A) :
  (0 <= how_many p l <= Z.of_nat (List.length l))%Z.
Proof.
  unfold how_many. pose proof (filter_length_le p l). lia.
Qed.

Lemma processV0_cases (cfg : straRecoStudy.Configurables)
    (c : straRecoStudy.EvSelCollision) (a b v ha hb hv : Z) :
  straRecoStudy.processV0 cfg c
    {| straRecoStudy.evselstats := (a, b, v);
       straRecoStudy.hEventSelection := (ha, hb, hv) |}
  = if negb (straRecoStudy.passes_sel8 cfg c)
    then {| straRecoStudy.evselstats := (a + 1, b, v)%Z;
            straRecoStudy.hEventSelection := (ha, hb, hv) |}
    else if negb (straRecoStudy.passes_posZ cfg c)
    then {| straRecoStudy.evselstats := (a + 1, b + 1, v)%Z;
            straRecoStudy.hEventSelection := (ha, hb, hv) |}
    else {| straRecoStudy.evselstats := (0, 0, 0)%Z;
            straRecoStudy.hEventSelection :=
              (ha + (a + 1), hb + (b + 1), hv + (v + 1))%Z |}.
Proof.
  unfold straRecoStudy.processV0, straRecoStudy.passes_sel8, straRecoStudy.passes_posZ.
  rewrite !negb_involutive.
  destruct (straRecoStudy.event_sel8_selection cfg && negb (straRecoStudy.sel8 c));
    [reflexivity |].
  destruct (straRecoStudy.event_posZ_selection cfg
            && Qgtb (Qabs (straRecoStudy.ev_posZ c)) 10); reflexivity.
Qed.

(** X26: the event counters of [processV0] reach [hEventSelection] only when
    a collision is accepted.  After any sequence of collisions the histogram
    and the pending counters together account for every collision seen,
    every collision passing sel8 and every accepted collision; the pending
    counters hold exactly the collisions since the last accepted one, so the
    rejected collisions after it are missing from the histogram. *)
Theorem event_counters_reach_the_histogram_on_acceptance :
  forall (cfg : straRecoStudy.Configurables)
         (collisions : list straRecoStudy.EvSelCollision),
    let s := straRecoStudy.processV0_each cfg collisions straRecoStudy.init in
    let pending := since_accepted cfg collisions in
    let stats := straRecoStudy.evselstats s in
    let histo := straRecoStudy.hEventSelection s in
    kEvSelAll stats = Z.of_nat (List.length pending)
    /\ kEvSelBool stats = how_many (straRecoStudy.passes_sel8 cfg) pending
    /\ kEvSelVtxZ stats = 0%Z
    /\ (kEvSelAll histo + Z.of_nat (List.length pending)
        = Z.of_nat (List.length collisions))%Z
    /\ (kEvSelBool histo + how_many (straRecoStudy.passes_sel8 cfg) pending
        = how_many (straRecoStudy.passes_sel8 cfg) collisions)%Z
    /\ kEvSelVtxZ histo = how_many (straRecoStudy.accepted cfg) collisions
    /\ (kEvSelVtxZ histo <= kEvSelBool histo <= kEvSelAll histo)%Z.
Proof.
  intros cfg collisions.
  induction collisions as [|c l IH] using rev_ind.
  - cbn. unfold how_many, kEvSelAll, kEvSelBool, kEvSelVtxZ. cbn. lia.
  - cbv zeta in *. unfold straRecoStudy.processV0_each, since_accepted in *.
    rewrite !fold_left_app. cbn [fold_left].
    set (s := fold_left _ l straRecoStudy.init) in *.
    set (pending := fold_left _ l []) in *.
    rewrite !how_many_app, !how_many_one, length_app. cbn [List.length].
    destruct IH as [I1 [I2 [I3 [I4 [I5 [I6 I7]]]]]].
    pose proof (how_many_bounds (straRecoStudy.passes_sel8 cfg) pending) as Hb.
    destruct s as [[[a b] v] [[ha hb] hv]].
    rewrite processV0_cases.
    assert (Ha : straRecoStudy.accepted cfg c
                 = straRecoStudy.passes_sel8 cfg c && straRecoStudy.passes_posZ cfg c)
      by reflexivity.
    rewrite !Ha.
    unfold kEvSelAll, kEvSelBool, kEvSelVtxZ in *.
    cbn [fst snd straRecoStudy.evselstats straRecoStudy.hEventSelection] in *.
    destruct (straRecoStudy.passes_sel8 cfg c) eqn:E8;
      [destruct (straRecoStudy.passes_posZ cfg c) eqn:Ez |];
      cbn [negb andb fst snd straRecoStudy.evselstats straRecoStudy.hEventSelection
           List.length];
      rewrite ?how_many_app, ?how_many_one, ?length_app, ?E8;
      cbn [List.length];
      change (how_many (straRecoStudy.passes_sel8 cfg) []) with 0%Z;
      repeat split; lia.
Qed.

Example sample_events_counters :
  let s := straRecoStudy.processV0_each straRecoStudy.default_configurables
             sample_events straRecoStudy.init in
  straRecoStudy.hEventSelection s = (1, 1, 1)%Z
  /\ straRecoStudy.evselstats s = (2, 1, 0)%Z.
Proof. vm_compute. split; reflexivity. Qed.

(** ** The grouping benchmarks *)

Lemma push_back_nth_some (i : nat) (x : Z) (g : list (list Z)) :
  (i < List.length g)%nat ->
  exists g',
    groupingBenchmarkCustom.push_back_nth i x g = Some g'
    /\ List.length g' = List.length g
    /\ forall j, nth_error g' j
                 = if (i =? j)%nat then option_map (fun l => l ++ [x]) (nth_error g j)
                   else nth_error g j.
Proof.
  revert i. induction g as [|l g IH]; intros i Hi; cbn in Hi; [lia |].
  destruct i as [|i]; cbn [groupingBenchmarkCustom.push_back_nth].
  - eexists. split; [reflexivity | split; [reflexivity |]].
    intros [|j]; reflexivity.
  - destruct (IH i ltac:(lia)) as [g' [E [Hl Hn]]]. rewrite E.
    eexists. split; [reflexivity | split; [cbn; now rewrite Hl |]].
    intros [|j]; [reflexivity |]. cbn. apply Hn.
Qed.

Lemma push_back_nth_none (i : nat) (x : Z) (g : list (list Z)) :
  (List.length g <= i)%nat -> groupingBenchmarkCustom.push_back_nth i x g = None.
Proof.
  revert i. induction g as [|l g IH]; intros i Hi; [now destruct i |].
  cbn in Hi. destruct i as [|i]; [lia |]. cbn. rewrite IH by lia. reflexivity.
Qed.

Lemma group_entries (fullV0s : list V0CollRef) :
  forall (g : list (list Z)),
    if forallb (fun v0 => in_table (List.length g) (straCollisionId v0)) fullV0s
    then exists g',
        groupingBenchmarkCustom.group fullV0s g = Some g'
        /\ List.length g' = List.length g
        /\ forall j, nth_error g' j
                     = option_map
                         (fun l => l ++ map ref_globalIndex (sliceBy fullV0s (Z.of_nat j)))
                         (nth_error g j)
    else groupingBenchmarkCustom.group fullV0s g = None.
Proof.
  induction fullV0s as [|v0 rest IH]; intros g.
  - cbn. exists g. split; [reflexivity | split; [reflexivity |]].
    intros j. destruct (nth_error g j); cbn; [now rewrite app_nil_r | reflexivity].
  - cbn [forallb groupingBenchmarkCustom.group].
    unfold in_table at 1, groupingBenchmarkCustom.push_back_at.
    destruct (Z.leb_spec 0 (straCollisionId v0)) as [H0|H0]; [| reflexivity].
    destruct (Z.ltb_spec (straCollisionId v0) (Z.of_nat (List.length g))) as [H1|H1];
      cbn [andb]; [| rewrite push_back_nth_none by lia; reflexivity].
    destruct (@push_back_nth_some (Z.to_nat (straCollisionId v0)) (ref_globalIndex v0) g
                ltac:(lia)) as [g1 [E [Hl Hn]]].
    rewrite E. specialize (IH g1). rewrite Hl in IH.
    destruct (forallb _ rest); [| exact IH].
    destruct IH as [g' [E' [Hl' Hn']]]. exists g'.
    split; [exact E' | split; [exact Hl' |]].
    intros j. rewrite Hn', Hn. unfold sliceBy. cbn [filter].
    destruct (Nat.eqb_spec (Z.to_nat (straCollisionId v0)) j) as [<-|Hne].
    + rewrite Z2Nat.id by lia. rewrite Z.eqb_refl.
      destruct (nth_error g _); cbn; [now rewrite <- app_assoc | reflexivity].
    + replace (straCollisionId v0 =? Z.of_nat j)%Z with false
        by (symmetry; apply Z.eqb_neq; lia).
      reflexivity.
Qed.

Lemma group_sizes_entries (collisions : list Z) (g : list (list Z)) :
  if forallb (in_table (List.length g)) collisions
  then groupingBenchmarkCustom.group_sizes collisions g
       = Some (map (fun coll => Z.of_nat (List.length (nth (Z.to_nat coll) g []))) collisions)
  else groupingBenchmarkCustom.group_sizes collisions g = None.
Proof.
  induction collisions as [|c rest IH]; [reflexivity |].
  cbn [forallb groupingBenchmarkCustom.group_sizes map]. unfold in_table at 1.
  destruct (Z.leb_spec 0 c) as [H0|H0]; [| reflexivity].
  destruct (Z.ltb_spec c (Z.of_nat (List.length g))) as [H1|H1]; cbn [andb].
  - destruct (nth_error g (Z.to_nat c)) as [l|] eqn:E;
      [| apply nth_error_None in E; lia].
    rewrite (nth_error_nth _ _ _ E).
    destruct (forallb _ rest); rewrite IH; reflexivity.
  - replace (nth_error g (Z.to_nat c)) with (@None (list Z))
      by (symmetry; apply nth_error_None; lia).
    reflexivity.
Qed.

Lemma total_slices (fullV0s : list V0CollRef) (n : nat) :
  forallb (fun v0 => in_table n (straCollisionId v0)) fullV0s = true ->
  total (groupingBenchmarkPreslice.process (map Z.of_nat (seq 0 n)) fullV0s)
  = Z.of_nat (List.length fullV0s).
Proof.
  unfold groupingBenchmarkPreslice.process. cbv zeta. rewrite map_map.
  induction fullV0s as [|v0 rest IH]; intros Hin.
  - cbn. induction (seq 0 n); cbn; [reflexivity | assumption].
  - cbn [forallb] in Hin. apply andb_true_iff in Hin. destruct Hin as [Hv Hrest].
    specialize (IH Hrest). cbn [List.length]. rewrite Nat2Z.inj_succ, <- IH. clear IH Hrest.
    unfold in_table in Hv. apply andb_true_iff in Hv. destruct Hv as [H0 H1].
    apply Z.leb_le in H0. apply Z.ltb_lt in H1.
    assert (G : forall start len,
               total (map (fun x => Z.of_nat (List.length (sliceBy (v0 :: rest) (Z.of_nat x))))
                        (seq start len))
               = ((if (Z.of_nat start <=? straCollisionId v0)%Z
                      && (straCollisionId v0 <? Z.of_nat (start + len))%Z
                   then 1 else 0)
                  + total (map (fun x => Z.of_nat (List.length (sliceBy rest (Z.of_nat x))))
                             (seq start len)))%Z).
    { intros start len. revert start.
      induction len as [|len IHl]; intros start.
      - cbn. rewrite Nat.add_0_r.
        destruct (Z.leb_spec (Z.of_nat start) (straCollisionId v0));
          destruct (Z.ltb_spec (straCollisionId v0) (Z.of_nat start)); cbn; lia.
      - cbn [seq map total fold_right]. fold (total (map (fun x => Z.of_nat
          (List.length (sliceBy (v0 :: rest) (Z.of_nat x)))) (seq (S start) len))).
        fold (total (map (fun x => Z.of_nat
          (List.length (sliceBy rest (Z.of_nat x)))) (seq (S start) len))).
        rewrite IHl. unfold sliceBy at 1. cbn [filter]. fold (sliceBy rest (Z.of_nat start)).
        destruct (Z.eqb_spec (straCollisionId v0) (Z.of_nat start)) as [E|E];
          cbn [List.length];
          destruct (Z.leb_spec (Z.of_nat start) (straCollisionId v0));
          destruct (Z.leb_spec (Z.of_nat (S start)) (straCollisionId v0));
          destruct (Z.ltb_spec (straCollisionId v0) (Z.of_nat (start + S len)));
          destruct (Z.ltb_spec (straCollisionId v0) (Z.of_nat (S start + len)));
          cbn [andb]; lia. }
    rewrite G.
    replace (Z.of_nat 0 <=? straCollisionId v0)%Z with true
      by (symmetry; apply Z.leb_le; lia).
    replace (straCollisionId v0 <? Z.of_nat (0 + n))%Z with true
      by (symmetry; apply Z.ltb_lt; lia).
    cbn [andb]. lia.
Qed.

(** X27: [groupingBenchmarkCustom::process] leaves an empty data frame
    uncounted.  On any other it is defined exactly when every V0 refers to a
    collision of the frame and every collision index is a row of the frame;
    it then fills [hV0sPerEvent] with the values [groupingBenchmarkPreslice]
    fills from the slices, records the sizes of the frame under [atDF] and
    advances [atDF]; over the collisions 0, 1, ..., n-1 these values add up
    to the number of V0s. *)
Theorem custom_grouping_fills_the_slice_sizes :
  forall (collisions : list Z) (fullV0s : list V0CollRef)
         (s : groupingBenchmarkCustom.State),
    let n := List.length collisions in
    (collisions = [] -> groupingBenchmarkCustom.process collisions fullV0s s = Some s)
    /\ (collisions <> [] ->
        if forallb (fun v0 => in_table n (straCollisionId v0)) fullV0s
           && forallb (in_table n) collisions
        then groupingBenchmarkCustom.process collisions fullV0s s
             = Some {| groupingBenchmarkCustom.atDF := groupingBenchmarkCustom.atDF s + 1;
                       groupingBenchmarkCustom.hV0sPerEvent :=
                         groupingBenchmarkCustom.hV0sPerEvent s
                         ++ groupingBenchmarkPreslice.process collisions fullV0s;
                       groupingBenchmarkCustom.hCollisionsVsDF :=
                         groupingBenchmarkCustom.hCollisionsVsDF s
                         ++ [(groupingBenchmarkCustom.atDF s, Z.of_nat n)];
                       groupingBenchmarkCustom.hV0sVsDF :=
                         groupingBenchmarkCustom.hV0sVsDF s
                         ++ [(groupingBenchmarkCustom.atDF s,
                              Z.of_nat (List.length fullV0s))] |}
        else groupingBenchmarkCustom.process collisions fullV0s s = None)
    /\ (collisions = map Z.of_nat (seq 0 n) ->
        forallb (fun v0 => in_table n (straCollisionId v0)) fullV0s = true ->
        total (groupingBenchmarkPreslice.process collisions fullV0s)
        = Z.of_nat (List.length fullV0s)).
Proof.
  intros collisions fullV0s s n. subst n. split; [| split].
  - intros ->. reflexivity.
  - intros Hne. unfold groupingBenchmarkCustom.process.
    destruct collisions as [|c0 rest]; [contradiction |].
    set (collisions := c0 :: rest) in *.
    pose proof (group_entries fullV0s (repeat [] (List.length collisions))) as Hg.
    rewrite repeat_length in Hg.
    destruct (forallb (fun v0 => in_table (List.length collisions) (straCollisionId v0))
                fullV0s);
      [| rewrite Hg; reflexivity].
    destruct Hg as [g [E [Hl Hn]]]. rewrite E.
    pose proof (group_sizes_entries collisions g) as Hs. rewrite Hl in Hs.
    cbn [andb].
    destruct (forallb (in_table (List.length collisions)) collisions) eqn:Hc;
      rewrite Hs; [| reflexivity].
    do 2 f_equal. f_equal.
    unfold groupingBenchmarkPreslice.process. cbv zeta.
    apply map_ext_in. intros c Hin.
    rewrite forallb_forall in Hc. specialize (Hc c Hin).
    unfold in_table in Hc. apply andb_true_iff in Hc. destruct Hc as [H0 H1].
    apply Z.leb_le in H0. apply Z.ltb_lt in H1.
    specialize (Hn (Z.to_nat c)). rewrite Z2Nat.id in Hn by lia.
    rewrite nth_error_repeat in Hn by lia. cbn in Hn.
    rewrite (nth_error_nth _ _ _ Hn). now rewrite length_map.
  - remember (List.length collisions) as n eqn:En. intros E Hin.
    rewrite E. now apply total_slices.
Qed.

Lemma unsorted_pair (f : list Z * list V0CollRef)
    (s : groupingBenchmarkPresliceUnsorted.State) :
  fst f <> [] ->
  (0 <= groupingBenchmarkPresliceUnsorted.atDF s)%Z ->
  groupingBenchmarkPresliceUnsorted.process [] []
    (groupingBenchmarkPresliceUnsorted.process (fst f) (snd f) s)
  = {| groupingBenchmarkPresliceUnsorted.atDF :=
         groupingBenchmarkPresliceUnsorted.atDF s + 1 + 1;
       groupingBenchmarkPresliceUnsorted.atFilledDF :=
         groupingBenchmarkPresliceUnsorted.atFilledDF s + 1;
       groupingBenchmarkPresliceUnsorted.collisionsThisDF :=
         Some (Z.of_nat (List.length (fst f)));
       groupingBenchmarkPresliceUnsorted.V0sThisDF :=
         Some (Z.of_nat (List.length (snd f)));
       groupingBenchmarkPresliceUnsorted.hCollisionsVsDF :=
         groupingBenchmarkPresliceUnsorted.hCollisionsVsDF s
         ++ [(groupingBenchmarkPresliceUnsorted.atFilledDF s,
              Some (Z.of_nat (List.length (fst f))))];
       groupingBenchmarkPresliceUnsorted.hV0sVsDF :=
         groupingBenchmarkPresliceUnsorted.hV0sVsDF s
         ++ [(groupingBenchmarkPresliceUnsorted.atFilledDF s,
              Some (Z.of_nat (List.length (snd f))))] |}.
Proof.
  intros Hne Hat. destruct f as [collisions fullV0s]. cbn [fst snd] in *.
  unfold groupingBenchmarkPresliceUnsorted.process. cbv zeta.
  assert (Hpos : (Z.of_nat (List.length collisions) >? 0)%Z = true)
    by (destruct collisions; [contradiction | cbn; reflexivity]).
  assert (Hnz : (Z.of_nat (List.length collisions) =? 0)%Z = false)
    by (destruct collisions; [contradiction | cbn; reflexivity]).
  rewrite Hpos.
  cbn [groupingBenchmarkPresliceUnsorted.atDF
    groupingBenchmarkPresliceUnsorted.atFilledDF
    groupingBenchmarkPresliceUnsorted.collisionsThisDF
    groupingBenchmarkPresliceUnsorted.V0sThisDF
    groupingBenchmarkPresliceUnsorted.hCollisionsVsDF
    groupingBenchmarkPresliceUnsorted.hV0sVsDF].
  rewrite Hnz, andb_false_r.
  cbn [groupingBenchmarkPresliceUnsorted.atDF
    groupingBenchmarkPresliceUnsorted.atFilledDF
    groupingBenchmarkPresliceUnsorted.collisionsThisDF
    groupingBenchmarkPresliceUnsorted.V0sThisDF
    groupingBenchmarkPresliceUnsorted.hCollisionsVsDF
    groupingBenchmarkPresliceUnsorted.hV0sVsDF List.length Z.of_nat].
  change (0 >? 0)%Z with false. change (0 =? 0)%Z with true.
  cbn [groupingBenchmarkPresliceUnsorted.atDF
    groupingBenchmarkPresliceUnsorted.atFilledDF
    groupingBenchmarkPresliceUnsorted.collisionsThisDF
    groupingBenchmarkPresliceUnsorted.V0sThisDF
    groupingBenchmarkPresliceUnsorted.hCollisionsVsDF
    groupingBenchmarkPresliceUnsorted.hV0sVsDF].
  replace (groupingBenchmarkPresliceUnsorted.atDF s + 1 >? 0)%Z with true
    by (symmetry; apply Z.gtb_lt; lia).
  cbn [andb groupingBenchmarkPresliceUnsorted.atDF
    groupingBenchmarkPresliceUnsorted.atFilledDF
    groupingBenchmarkPresliceUnsorted.collisionsThisDF
    groupingBenchmarkPresliceUnsorted.V0sThisDF
    groupingBenchmarkPresliceUnsorted.hCollisionsVsDF
    groupingBenchmarkPresliceUnsorted.hV0sVsDF].
  reflexivity.
Qed.

Lemma unsorted_alternating (filled : list (list Z * list V0CollRef)) :
  forall (s : groupingBenchmarkPresliceUnsorted.State),
    Forall (fun f => fst f <> []) filled ->
    (0 <= groupingBenchmarkPresliceUnsorted.atDF s)%Z ->
    let s' := groupingBenchmarkPresliceUnsorted.process_each (alternating filled) s in
    groupingBenchmarkPresliceUnsorted.hCollisionsVsDF s'
    = groupingBenchmarkPresliceUnsorted.hCollisionsVsDF s
      ++ recorded (fun f => Z.of_nat (List.length (fst f))) filled
           (groupingBenchmarkPresliceUnsorted.atFilledDF s)
    /\ groupingBenchmarkPresliceUnsorted.hV0sVsDF s'
       = groupingBenchmarkPresliceUnsorted.hV0sVsDF s
         ++ recorded (fun f => Z.of_nat (List.length (snd f))) filled
              (groupingBenchmarkPresliceUnsorted.atFilledDF s)
    /\ groupingBenchmarkPresliceUnsorted.atFilledDF s'
       = (groupingBenchmarkPresliceUnsorted.atFilledDF s
          + Z.of_nat (List.length filled))%Z
    /\ groupingBenchmarkPresliceUnsorted.atDF s'
       = (groupingBenchmarkPresliceUnsorted.atDF s
          + 2 * Z.of_nat (List.length filled))%Z.
Proof.
  induction filled as [|f rest IH]; intros s Hne Hat; cbv zeta.
  - cbn. rewrite !app_nil_r. repeat split; lia.
  - apply Forall_cons_iff in Hne. destruct Hne as [Hf Hrest].
    unfold groupingBenchmarkPresliceUnsorted.process_each, alternating in *.
    cbn [flat_map app fold_left fst snd].
    rewrite (@unsorted_pair f s Hf Hat).
    match goal with
    | |- context [fold_left _ _ ?s1] => set (s1' := s1)
    end.
    specialize (IH s1' Hrest). cbv zeta in IH.
    assert (Hat' : (0 <= groupingBenchmarkPresliceUnsorted.atDF s1')%Z)
      by (unfold s1'; cbn; lia).
    destruct (IH Hat') as [A [B [C D]]].
    rewrite A, B, C, D. unfold s1'.
    cbn [groupingBenchmarkPresliceUnsorted.atDF
      groupingBenchmarkPresliceUnsorted.atFilledDF
      groupingBenchmarkPresliceUnsorted.hCollisionsVsDF
      groupingBenchmarkPresliceUnsorted.hV0sVsDF recorded List.length].
    rewrite <- !app_assoc. cbn [app].
    repeat split; lia.
Qed.

(** X28: when every filled data frame is followed by one empty data frame,
    [groupingBenchmarkPresliceUnsorted] records each filled frame exactly
    once, in order: its number of collisions and its number of V0s under the
    running index [atFilledDF], which ends as the number of filled frames. *)
Theorem unsorted_benchmark_records_each_filled_frame :
  forall (filled : list (list Z * list V0CollRef)),
    Forall (fun f => fst f <> []) filled ->
    let s := groupingBenchmarkPresliceUnsorted.process_each (alternating filled)
               groupingBenchmarkPresliceUnsorted.init in
    groupingBenchmarkPresliceUnsorted.hCollisionsVsDF s
    = recorded (fun f => Z.of_nat (List.length (fst f))) filled 0
    /\ groupingBenchmarkPresliceUnsorted.hV0sVsDF s
       = recorded (fun f => Z.of_nat (List.length (snd f))) filled 0
    /\ groupingBenchmarkPresliceUnsorted.atFilledDF s = Z.of_nat (List.length filled)
    /\ groupingBenchmarkPresliceUnsorted.atDF s = (2 * Z.of_nat (List.length filled))%Z.
Proof.
  intros filled Hne.
  exact (@unsorted_alternating filled groupingBenchmarkPresliceUnsorted.init Hne
           (Z.le_refl 0)).
Qed.

Lemma sample_filled_nonempty : Forall (fun f => fst f <> []) sample_filled.
Proof.
  repeat constructor; discriminate.
Qed.

Lemma unsorted_benchmark_records_each_filled_frame_witness :
  Forall (fun f => fst f <> []) sample_filled
  /\ groupingBenchmarkPresliceUnsorted.hCollisionsVsDF
       (groupingBenchmarkPresliceUnsorted.process_each (alternating sample_filled)
          groupingBenchmarkPresliceUnsorted.init)
     = recorded (fun f => Z.of_nat (List.length (fst f))) sample_filled 0
  /\ groupingBenchmarkPresliceUnsorted.hV0sVsDF
       (groupingBenchmarkPresliceUnsorted.process_each (alternating sample_filled)
          groupingBenchmarkPresliceUnsorted.init)
     = recorded (fun f => Z.of_nat (List.length (snd f))) sample_filled 0
  /\ groupingBenchmarkPresliceUnsorted.atFilledDF
       (groupingBenchmarkPresliceUnsorted.process_each (alternating sample_filled)
          groupingBenchmarkPresliceUnsorted.init)
     = Z.of_nat (List.length sample_filled)
  /\ groupingBenchmarkPresliceUnsorted.atDF
       (groupingBenchmarkPresliceUnsorted.process_each (alternating sample_filled)
          groupingBenchmarkPresliceUnsorted.init)
     = (2 * Z.of_nat (List.length sample_filled))%Z.
Proof.
  split; [exact sample_filled_nonempty |].
  exact (@unsorted_benchmark_records_each_filled_frame sample_filled
           sample_filled_nonempty).
Defined.

Example unsorted_benchmark_drops_unseparated_frames :
  groupingBenchmarkPresliceUnsorted.hCollisionsVsDF
    (groupingBenchmarkPresliceUnsorted.process_each (sample_filled ++ [([], [])])
       groupingBenchmarkPresliceUnsorted.init)
  = [(0%Z, Some 1%Z)]
  /\ groupingBenchmarkPresliceUnsorted.hCollisionsVsDF
       (groupingBenchmarkPresliceUnsorted.process_each [([], []); ([], [])]
          groupingBenchmarkPresliceUnsorted.init)
     = [(0%Z, None)].
Proof. split; reflexivity. Qed.

Example custom_grouping_on_sample :
  groupingBenchmarkCustom.process [0; 1]%Z sample_refs groupingBenchmarkCustom.init
  = Some {| groupingBenchmarkCustom.atDF := 1;
            groupingBenchmarkCustom.hV0sPerEvent := [1; 2]%Z;
            groupingBenchmarkCustom.hCollisionsVsDF := [(0, 2)]%Z;
            groupingBenchmarkCustom.hV0sVsDF := [(0, 3)]%Z |}
  /\ groupingBenchmarkCustom.process [0]%Z sample_refs groupingBenchmarkCustom.init = None.
Proof. split; reflexivity. Qed.

Example sort_indices_on_sample :
  preProcessMCcollisions.sort_indices [3; 7; 3; 9]%Z = [3; 1; 0; 2]%nat
  /\ preProcessMCcollisions.process [3; 7; 3; 9]%Z = [(9, 6); (7, 7); (3, 8); (3, 9)]%Z.
Proof. split; reflexivity. Qed.
